(** * MatFile: a shallow embedding of [MatFile.h]

    The development models the streaming MAT-file writer of [MatFile.h]:
    the type traits and the [mi2mx] table, the per-variable encoder
    [MatFile::Variable<T>] with its [FILE*] stream (the constructor, the
    two [write] functions, the destructor), the registry [MatFile] with
    [create] and the two [write] overloads, and the unit test of
    [MatFile_ut.cpp].  The copy constructor and the copy assignment of
    [Variable<T>] are left out: they assign to a member of a [const]
    object, so they cannot be instantiated.

    Conventions of the model:
    - C integers are [Z] with the conversions of the source written out
      ([to_int], [to_size_t]); object sizes and stream positions are [nat].
    - A byte is a [Z] in [0, 256).  Objects are written in the byte order of
      the host, taken to be little-endian (x86, ARM).
    - The implementation-defined sizes come from a [DataModel]: ILP32,
      LLP64 (64-bit Windows) or LP64 (64-bit Unix).
    - A call whose behaviour the C++ standard leaves undefined (a stdio call
      on a null stream, a member call through a null pointer) yields
      [Undefined]. *)

From Stdlib Require Import ZArith Lia Ascii String.
From stdpp Require Import numbers list strings gmap.

Local Open Scope Z_scope.

(** ** Data models and element types *)

Inductive DataModel := ILP32 | LLP64 | LP64.

(** The element types considered: [bool], the character types, the
    integer types, [float] and [double].  The templates take any other
    type as well ([long double], [wchar_t], ...); those are left out. *)
Inductive CType :=
| Bool | Char | SChar | UChar
| Short | UShort | Int | UInt
| Long | ULong | LongLong | ULongLong
| Float | Double.

#[global] Instance CType_eq_dec : EqDecision CType.
Proof. solve_decision. Defined.

#[global] Instance DataModel_eq_dec : EqDecision DataModel.
Proof. solve_decision. Defined.

(** [sizeof(T)] *)
Definition sizeof (dm : DataModel) (T : CType) : nat :=
  match T with
  | Bool | Char | SChar | UChar => 1
  | Short | UShort => 2
  | Int | UInt => 4
  | Long | ULong => match dm with LP64 => 8 | _ => 4 end
  | LongLong | ULongLong => 8
  | Float => 4
  | Double => 8
  end%nat.

(** [sizeof(size_t)] *)
Definition sizeof_size_t (dm : DataModel) : nat :=
  match dm with ILP32 => 4 | _ => 8 end%nat.

(** Reduction modulo [2^(8n)]: the value of an [n]-byte unsigned object. *)
Definition wrap (n : nat) (x : Z) : Z := x mod 2 ^ (8 * Z.of_nat n).

(** Conversion to [size_t]. *)
Definition to_size_t (dm : DataModel) (x : Z) : Z := wrap (sizeof_size_t dm) x.

(** Conversion to (32-bit, two's complement) [int]. *)
Definition to_int (x : Z) : Z := (x + 2 ^ 31) mod 2 ^ 32 - 2 ^ 31.

Definition INT_MIN : Z := - 2 ^ 31.
Definition INT_MAX : Z := 2 ^ 31 - 1.

(** [LONG_MAX] *)
Definition LONG_MAX (dm : DataModel) : Z := 2 ^ (8 * Z.of_nat (sizeof dm Long) - 1) - 1.

(** ** MAT-file constants (the [#define]s of the header) *)

(** The ten numeric data types of the MAT format that the header defines
    ([miINT8] ... [miUINT64]); these are the supported element kinds. *)
Inductive ElementKind :=
| miINT8 | miUINT8 | miINT16 | miUINT16 | miINT32 | miUINT32
| miSINGLE | miDOUBLE | miINT64 | miUINT64.

#[global] Instance ElementKind_eq_dec : EqDecision ElementKind.
Proof. solve_decision. Defined.

Definition all_kinds : list ElementKind :=
  [miINT8; miUINT8; miINT16; miUINT16; miINT32; miUINT32;
   miSINGLE; miDOUBLE; miINT64; miUINT64].

(** The value each [#define] expands to. *)
Definition mi (k : ElementKind) : Z :=
  match k with
  | miINT8 => 1 | miUINT8 => 2 | miINT16 => 3 | miUINT16 => 4
  | miINT32 => 5 | miUINT32 => 6 | miSINGLE => 7 | miDOUBLE => 9
  | miINT64 => 12 | miUINT64 => 13
  end.

Definition miMATRIX : Z := 14.

Definition ARRAY_FLAGS_SIZE : Z := 16.
Definition DIM_ARRAY_SIZE : Z := 16.
Definition ARRAY_NAME_TAG_SIZE : Z := 8.
Definition RE_TAG_SIZE : Z := 8.

(** [static const int mi2mx[16]] *)
Definition mi2mx : list Z :=
  [ 0;  8;  9; 10;
   11; 12; 13;  7;
    0;  6;  0;  0;
   14; 15;  0;  0].

(** [mi2mx[i]] for an index inside the table. *)
Definition mi2mx_at (i : Z) : Z := nth (Z.to_nat i) mi2mx 0.

(** ** Type traits *)

Definition is_double (T : CType) : bool :=
  match T with Double => true | _ => false end.

Definition is_float (T : CType) : bool :=
  match T with Float => true | _ => false end.

Definition is_int8 (dm : DataModel) (T : CType) : bool :=
  match T with
  | Char => Nat.eqb (sizeof dm Char) 1
  | _ => false
  end.

Definition is_int16 (dm : DataModel) (T : CType) : bool :=
  match T with
  | Int => Nat.eqb (sizeof dm Int) 2
  | Short => Nat.eqb (sizeof dm Short) 2
  | _ => false
  end.

Definition is_int32 (dm : DataModel) (T : CType) : bool :=
  match T with
  | Int => Nat.eqb (sizeof dm Int) 4
  | Long => Nat.eqb (sizeof dm Long) 4
  | _ => false
  end.

Definition is_int64 (dm : DataModel) (T : CType) : bool :=
  match T with
  | Int => Nat.eqb (sizeof dm Int) 8
  | Long => Nat.eqb (sizeof dm Long) 8
  | LongLong => Nat.eqb (sizeof dm LongLong) 8
  | _ => false
  end.

Definition is_uint8 (dm : DataModel) (T : CType) : bool :=
  match T with
  | UChar => Nat.eqb (sizeof dm UChar) 1
  | _ => false
  end.

Definition is_uint16 (dm : DataModel) (T : CType) : bool :=
  match T with
  | UInt => Nat.eqb (sizeof dm UInt) 2
  | UShort => Nat.eqb (sizeof dm UShort) 2
  | _ => false
  end.

Definition is_uint32 (dm : DataModel) (T : CType) : bool :=
  match T with
  | UInt => Nat.eqb (sizeof dm UInt) 4
  | ULong => Nat.eqb (sizeof dm ULong) 4
  | _ => false
  end.

Definition is_uint64 (dm : DataModel) (T : CType) : bool :=
  match T with
  | UInt => Nat.eqb (sizeof dm UInt) 8
  | ULong => Nat.eqb (sizeof dm ULong) 8
  | ULongLong => Nat.eqb (sizeof dm ULongLong) 8
  | _ => false
  end.

(** The [if]/[else if] chain of [write_meta_data] that picks [miType];
    [None] is the final [else return false]. *)
Definition miType_of (dm : DataModel) (T : CType) : option ElementKind :=
  if is_double T then Some miDOUBLE
  else if is_float T then Some miSINGLE
  else if is_int64 dm T then Some miINT64
  else if is_uint64 dm T then Some miUINT64
  else if is_int32 dm T then Some miINT32
  else if is_uint32 dm T then Some miUINT32
  else if is_int16 dm T then Some miINT16
  else if is_uint16 dm T then Some miUINT16
  else if is_int8 dm T then Some miINT8
  else if is_uint8 dm T then Some miUINT8
  else None.

(** What the encoder writes for a kind: the numeric type tag of the
    real-data subelement and the array class of the array flags. *)
Definition resolve (k : ElementKind) : Z * Z := (mi k, mi2mx_at (mi k)).

(** ** Bytes *)

(** The [n] bytes of the object representation of [v], least significant
    byte first. *)
Fixpoint le_bytes (n : nat) (v : Z) : list Z :=
  match n with
  | O => []
  | S n' => v mod 256 :: le_bytes n' (v / 256)
  end.

(** The unsigned value of a little-endian byte string. *)
Fixpoint le_decode (bs : list Z) : Z :=
  match bs with
  | [] => 0
  | b :: bs' => b + 256 * le_decode bs'
  end.

(** The 32-bit field stored at byte offset [off] of [d]. *)
Definition field32 (d : list Z) (off : Z) : Z :=
  le_decode (take 4 (drop (Z.to_nat off) d)).

Definition bytes_of_string (s : string) : list Z :=
  map (fun c => Z.of_N (Ascii.N_of_ascii c)) (String.list_ascii_of_string s).

(** An array of [int]s as it lies in memory. *)
Definition int_array (dm : DataModel) (xs : list Z) : list Z :=
  concat (map (le_bytes (sizeof dm Int)) xs).

(** ** The stdio stream *)

(** What the host does with the next call on a stream: carry it out, accept
    only the first [k] bytes of a write, or fail. *)
Inductive io_event := IoOk | IoShort (k : nat) | IoErr.

(** An open stream: the bytes of the file, the file position, and the
    host's answers to the calls still to come (all [IoOk] once the list is
    exhausted). *)
Record FILE := mkFILE {
  f_data : list Z;
  f_pos : nat;
  f_io : list io_event }.

Definition next_event (f : FILE) : io_event :=
  match f_io f with
  | [] => IoOk
  | e :: _ => e
  end.

(** Storing [b] at position [p] of [d]; a gap past the end reads as zero. *)
Definition write_at (d : list Z) (p : nat) (b : list Z) : list Z :=
  match b with
  | [] => d
  | _ => take p d ++ replicate (p - length d) 0 ++ b ++ drop (p + length b) d
  end.

Definition accepted (e : io_event) (n : nat) : nat :=
  match e with
  | IoOk => n
  | IoShort k => Nat.min k n
  | IoErr => 0%nat
  end.

(** [fwrite(buf, size, nmemb, f)] on an open stream: the number of complete
    items transferred and the stream afterwards. *)
Definition FILE_fwrite (buf : list Z) (size nmemb : nat) (f : FILE) : Z * FILE :=
  let want := take (size * nmemb) buf in
  let got := take (accepted (next_event f) (length want)) want in
  (if Nat.eqb size 0 then 0 else Z.of_nat (length got / size),
   mkFILE (write_at (f_data f) (f_pos f) got) (f_pos f + length got) (tail (f_io f))).

(** [fseek(f, offset, SEEK_SET)] *)
Definition FILE_fseek (offset : Z) (f : FILE) : Z * FILE :=
  match next_event f with
  | IoOk =>
      if offset <? 0 then (-1, mkFILE (f_data f) (f_pos f) (tail (f_io f)))
      else (0, mkFILE (f_data f) (Z.to_nat offset) (tail (f_io f)))
  | _ => (-1, mkFILE (f_data f) (f_pos f) (tail (f_io f)))
  end.

(** [ftell(f)]: fails when the position does not fit a [long]. *)
Definition FILE_ftell (dm : DataModel) (f : FILE) : Z * FILE :=
  match next_event f with
  | IoOk =>
      if LONG_MAX dm <? Z.of_nat (f_pos f)
      then (-1, mkFILE (f_data f) (f_pos f) (tail (f_io f)))
      else (Z.of_nat (f_pos f), mkFILE (f_data f) (f_pos f) (tail (f_io f)))
  | _ => (-1, mkFILE (f_data f) (f_pos f) (tail (f_io f)))
  end.

(** The host: whether [_WIN32] is defined; whether [fopen(path, "wb")]
    succeeds, and if so how the new stream will answer; and the text [ctime]
    returns at that moment. *)
Record Env := mkEnv {
  win32 : bool;
  fs_open : string -> option (list io_event);
  ctime_now : string }.

Definition PATH_MAX : nat := 4096.

(** [fopen(path, "wb")]: an empty file positioned at its start, or [NULL].
    The host refuses a path longer than [PATH_MAX]. *)
Definition fopen (env : Env) (path : string) : option FILE :=
  if (PATH_MAX <? String.length path)%nat then None
  else (fun io => mkFILE [] 0 io) <$> fs_open env path.

(** [inline char separator()] *)
Definition separator (env : Env) : string :=
  if win32 env then String "092"%char EmptyString else "/".

(** ** [MatFile::Variable<T>] *)

(** The members of a [Variable<T>] object, with the template argument
    [var_T].  [_fp] is the stream the object owns, [None] when the pointer
    is [NULL]. *)
Record Variable_t := mkVariable {
  var_T : CType;
  _count : Z;
  _dim_tag_offset : Z;
  _fp : option FILE;
  _mat_tag_offset : Z;
  _mat_tag_size : Z;
  _name : string;
  _re_tag_offset : Z }.

Definition with_fp (fp : option FILE) (v : Variable_t) : Variable_t :=
  mkVariable (var_T v) (_count v) (_dim_tag_offset v) fp (_mat_tag_offset v)
             (_mat_tag_size v) (_name v) (_re_tag_offset v).

Definition with_count (c : Z) (v : Variable_t) : Variable_t :=
  mkVariable (var_T v) c (_dim_tag_offset v) (_fp v) (_mat_tag_offset v)
             (_mat_tag_size v) (_name v) (_re_tag_offset v).

Definition with_mat_tag_size (s : Z) (v : Variable_t) : Variable_t :=
  mkVariable (var_T v) (_count v) (_dim_tag_offset v) (_fp v) (_mat_tag_offset v)
             s (_name v) (_re_tag_offset v).

Definition with_re_tag_offset (o : Z) (v : Variable_t) : Variable_t :=
  mkVariable (var_T v) (_count v) (_dim_tag_offset v) (_fp v) (_mat_tag_offset v)
             (_mat_tag_size v) (_name v) o.

(** The result of running a piece of the program: it returns, or its
    behaviour is undefined. *)
Inductive outcome (A : Type) :=
| Returns (a : A)
| Undefined.
Arguments Returns {A} a.
Arguments Undefined {A}.

(** Member functions run on the object they are called on. *)
Definition M (A : Type) : Type := Variable_t -> outcome (A * Variable_t).

#[global] Instance M_ret : MRet M := fun A a v => Returns (a, v).

#[global] Instance M_bind : MBind M := fun A B k m v =>
  match m v with
  | Returns (a, v') => k a v'
  | Undefined => Undefined
  end.

(** A stdio call on the stream [_fp]; on a null stream it is undefined. *)
Definition on_stream {A} (call : FILE -> A * FILE) : M A := fun v =>
  match _fp v with
  | None => Undefined
  | Some f => let '(r, f') := call f in Returns (r, with_fp (Some f') v)
  end.

Definition fwrite (buf : list Z) (size nmemb : nat) : M Z :=
  on_stream (FILE_fwrite buf size nmemb).

Definition fseek (offset : Z) : M Z := on_stream (FILE_fseek offset).

Definition ftell (dm : DataModel) : M Z := on_stream (FILE_ftell dm).

(** [fclose(_fp)]; the pointer dangles until the caller resets it. *)
Definition fclose : M Z := on_stream (fun f => (0, f)).

Definition assign (upd : Variable_t -> Variable_t) : M unit :=
  fun v => Returns (tt, upd v).

(** The newline character as a string. *)
Definition nl : string := String "010"%char EmptyString.

Definition HEADER_SIZE : nat := 124.

(** [bool write_header()] *)
Definition write_header (dm : DataModel) (env : Env) : M bool := fun v =>
  (let header_s :=
     bytes_of_string
       ("Name: " +:+ _name v +:+ (nl +:+ "Format: MATLAB 5.0 MAT file")
        +:+ (nl +:+ "Created: ") +:+ ctime_now env) in
   let num_bytes := Nat.min HEADER_SIZE (length header_s) in
   let header := take num_bytes header_s ++ replicate (HEADER_SIZE - num_bytes) 0 in
   let version := 0x0100 in
   let endian := Z.lor (Z.shiftl 77 8) 73 in
   n1 ← fwrite header 1 HEADER_SIZE;
   n2 ← fwrite (le_bytes (sizeof dm Short) version) (sizeof dm Short) 1;
   n3 ← fwrite (le_bytes (sizeof dm Short) endian) (sizeof dm Short) 1;
   let numel := to_int n1 in
   let numel := to_int (to_size_t dm (numel + n2)) in
   let numel := to_int (to_size_t dm (numel + n3)) in
   mret (numel =? 126)) v.

(** [bool write_meta_data()] *)
Definition write_meta_data (dm : DataModel) : M bool := fun v =>
  (let size := Z.of_nat (String.length (_name v)) in
   let bytes :=
     to_int (to_size_t dm (ARRAY_FLAGS_SIZE + DIM_ARRAY_SIZE + ARRAY_NAME_TAG_SIZE
                           + size + RE_TAG_SIZE)) in
   let bytes :=
     if size mod 8 =? 0 then bytes
     else to_int (to_size_t dm (bytes + (8 - size mod 8))) in
   assign (with_mat_tag_size (to_size_t dm bytes));;
   n ← fwrite (int_array dm [miMATRIX; bytes; mi miUINT32; 8]) (sizeof dm Int) 4;
   if negb (n =? 4) then mret false else
   match miType_of dm (var_T v) with
   | None => mret false
   | Some miType =>
     let arrayFlags := int_array dm [mi2mx_at (mi miType); 0; 0; 0; 0; 0; 0; 0] in
     n ← fwrite arrayFlags 1 8;
     if negb (n =? 8) then mret false else
     n ← fwrite (int_array dm [mi miINT32; 8; 1; 0]) (sizeof dm Int) 4;
     if negb (n =? 4) then mret false else
     n ← fwrite (int_array dm [mi miINT8; to_int size]) (sizeof dm Int) 2;
     if negb (n =? 2) then mret false else
     n ← fwrite (bytes_of_string (_name v)) 1 (String.length (_name v));
     if negb (n =? size) then mret false else
     let rem := to_int (size mod 8) in
     padded ←
       (if negb (rem =? 0) then
          let pad := [0; 0; 0; 0; 0; 0; 0; 0] in
          n ← fwrite pad 1 (Z.to_nat (8 - rem));
          mret (n =? to_size_t dm (8 - rem))
        else mret true);
     if negb padded then mret false else
     n ← fwrite (int_array dm [mi miType; 0]) (sizeof dm Int) 2;
     if negb (n =? 2) then mret false else
     pos ← ftell dm;
     assign (with_re_tag_offset (to_int pos));;
     if to_int pos =? -1 then mret false else
     assign (with_re_tag_offset (to_int (to_size_t dm (to_int pos - Z.of_nat (sizeof dm Int)))));;
     mret true
   end) v.

(** [bool update_counters()] *)
Definition update_counters (dm : DataModel) : M bool := fun v =>
  (let sizeof_T := Z.of_nat (sizeof dm (var_T v)) in
   curr ← ftell dm;
   if curr =? -1 then mret false else
   let bytes := to_size_t dm (_mat_tag_size v + to_size_t dm (_count v * sizeof_T)) in
   let rem := bytes mod 8 in
   let bytes := if negb (rem =? 0) then to_size_t dm (bytes + (8 - rem)) else bytes in
   r ← fseek (_mat_tag_offset v);
   if negb (r =? 0) then mret false else
   n ← fwrite (le_bytes (sizeof_size_t dm) bytes) (sizeof_size_t dm) 1;
   if negb (n =? 1) then mret false else
   r ← fseek (_dim_tag_offset v);
   if negb (r =? 0) then mret false else
   n ← fwrite (le_bytes (sizeof_size_t dm) (_count v)) (sizeof_size_t dm) 1;
   if negb (n =? 1) then mret false else
   let bytes := to_size_t dm (_count v * sizeof_T) in
   r ← fseek (_re_tag_offset v);
   if negb (r =? 0) then mret false else
   n ← fwrite (le_bytes (sizeof_size_t dm) bytes) (sizeof_size_t dm) 1;
   if negb (n =? 1) then mret false else
   r ← fseek curr;
   if negb (r =? 0) then mret false else
   if negb (rem =? 0) then
     let zeros := [0; 0; 0; 0; 0; 0; 0; 0] in
     n ← fwrite zeros 1 (Z.to_nat (8 - rem));
     if negb (n =? 8 - rem) then mret false else
     r ← fseek curr;
     if negb (r =? 0) then mret false else
     mret true
   else mret true) v.

(** [bool write(const T& element)]; [element] is the value whose
    [sizeof(T)]-byte object representation is written. *)
Definition Variable_write (dm : DataModel) (element : Z) : M bool := fun v =>
  match _fp v with
  | None => Returns (false, v)
  | Some _ =>
    (let sizeof_T := sizeof dm (var_T v) in
     num ← fwrite (le_bytes sizeof_T element) sizeof_T 1;
     assign (fun v => with_count (to_size_t dm (_count v + num)) v);;
     if num =? 1 then update_counters dm else mret false) v
  end.

(** The body of the constructor [Variable(path, name)]:
    [if (!write_header() || !write_meta_data()) { fclose(_fp); _fp = NULL; }] *)
Definition Variable_ctor_body (dm : DataModel) (env : Env) : M unit :=
  h ← write_header dm env;
  ok ← (if h : bool then write_meta_data dm else mret false);
  if negb ok then (_ ← fclose; assign (with_fp None)) else mret tt.

(** The object after the member initialisers [_count(0)],
    [_dim_tag_offset(0xA4)], [_mat_tag_offset(0x84)], [_name(name)] and the
    assignment of [_fp].  [_mat_tag_size] and [_re_tag_offset] have no
    initialiser; the model starts them at 0. *)
Definition initialised (T : CType) (name : string) (fp : option FILE) : Variable_t :=
  {| var_T := T; _count := 0; _dim_tag_offset := 0xA4; _fp := fp;
     _mat_tag_offset := 0x84; _mat_tag_size := 0; _name := name;
     _re_tag_offset := 0 |}.

(** The constructor [Variable(path, name)]. *)
Definition Variable_ctor (dm : DataModel) (env : Env) (T : CType)
    (path name : string) : outcome Variable_t :=
  match Variable_ctor_body dm env
          (initialised T name (fopen env (path +:+ separator env +:+ name +:+ ".mat"))) with
  | Returns (_, v) => Returns v
  | Undefined => Undefined
  end.

(** [size_t write(const T* data, size_t numel)].  [data] holds the elements
    of the array the pointer refers to, from the element it points at to the
    last one; an [fwrite] of more elements than the array has is undefined.
    The value returned is the [bool] of the [return] statement converted to
    [size_t]. *)
Definition Variable_write_array (dm : DataModel) (data : list Z) (numel : nat)
    : M Z := fun v =>
  match _fp v with
  | None => Returns (0, v)
  | Some _ =>
    if (length data <? numel)%nat then Undefined else
    (let sizeof_T := sizeof dm (var_T v) in
     num ← fwrite (concat (map (le_bytes sizeof_T) data)) sizeof_T numel;
     assign (fun v => with_count (to_size_t dm (_count v + num)) v);;
     if num =? Z.of_nat numel
     then (ok ← update_counters dm; mret (if ok : bool then 1 else 0))
     else mret 0) v
  end.

(** [~Variable()]: [if (_fp) fclose(_fp);] *)
Definition Variable_dtor : M unit := fun v =>
  match _fp v with
  | None => Returns (tt, v)
  | Some _ => (_ ← fclose; mret tt) v
  end.

(** ** [MatFile] *)

Inductive mode_t := RealTime.

Record MatFile := mkMatFile {
  _dir : string;
  _is_ready : bool;
  _name2id : gmap string Z;
  _running_mode : mode_t;
  _variables : list Variable_t }.

(** The constructor; [dir_exists] is the answer of [stat(dir)]. *)
Definition MatFile_ctor (dir_exists : bool) (running_mode : mode_t) (dir : string)
    : MatFile :=
  {| _dir := dir; _is_ready := dir_exists; _name2id := ∅;
     _running_mode := running_mode; _variables := [] |}.

Definition is_ready (m : MatFile) : bool := _is_ready m.

(** [_name2id[name] = id; _variables.push_back(var);] with
    [id = static_cast<int>(_variables.size())]. *)
Definition registered (m : MatFile) (name : string) (var : Variable_t) : MatFile :=
  mkMatFile (_dir m) (_is_ready m)
            (<[name := to_int (Z.of_nat (length (_variables m)))]> (_name2id m))
            (_running_mode m) (_variables m ++ [var]).

(** [template <typename T> int create(const std::string& name)] *)
Definition create (dm : DataModel) (env : Env) (T : CType) (name : string)
    (m : MatFile) : outcome (Z * MatFile) :=
  if negb (_is_ready m) then Returns (-1, m) else
  let id := to_int (Z.of_nat (length (_variables m))) in
  match _name2id m !! name with
  | Some existing => Returns (existing, m)
  | None =>
    match Variable_ctor dm env T (_dir m) name with
    | Undefined => Undefined
    | Returns var => Returns (id, registered m name var)
    end
  end.

(** [dynamic_cast<Variable<T>*>(p)]: the object itself when its dynamic
    type is [Variable<T>], a null pointer otherwise. *)
Definition dynamic_cast (T : CType) (p : Variable_t) : option Variable_t :=
  if decide (var_T p = T) then Some p else None.

(** [template <typename T> bool write(int id, const T& value) const] *)
Definition write_id (dm : DataModel) (T : CType) (id : Z) (value : Z)
    (m : MatFile) : outcome (bool * MatFile) :=
  if negb (_is_ready m) then Returns (false, m) else
  let _id := to_size_t dm id in
  if Z.of_nat (length (_variables m)) <=? _id then Returns (false, m) else
  match _variables m !! Z.to_nat _id with
  | None => Undefined
  | Some p =>
    match dynamic_cast T p with
    | None => Undefined
    | Some var =>
      match Variable_write dm value var with
      | Undefined => Undefined
      | Returns (r, var') =>
          Returns (r, mkMatFile (_dir m) (_is_ready m) (_name2id m) (_running_mode m)
                                (<[Z.to_nat _id := var']> (_variables m)))
      end
    end
  end.

(** [template <typename T> bool write(const std::string& name, const T& value) const] *)
Definition write_name (dm : DataModel) (T : CType) (name : string) (value : Z)
    (m : MatFile) : outcome (bool * MatFile) :=
  if negb (_is_ready m) then Returns (false, m) else
  match _name2id m !! name with
  | None => Returns (false, m)
  | Some id => write_id dm T id value m
  end.

(** The loop of [~MatFile()]: [delete _variables[i]] for each [i] in turn;
    [delete] runs the destructor of the object the pointer refers to. *)
Fixpoint delete_each (vs : list Variable_t) : outcome unit :=
  match vs with
  | [] => Returns tt
  | var :: vs' =>
      match Variable_dtor var with
      | Returns _ => delete_each vs'
      | Undefined => Undefined
      end
  end.

(** [~MatFile()] *)
Definition MatFile_dtor (m : MatFile) : outcome unit := delete_each (_variables m).

(** ** The unit test [MatFile_ut.cpp] *)

(** Code outside [Variable<T>] returns or has undefined behaviour. *)
#[global] Instance outcome_ret : MRet outcome := fun A a => Returns a.

#[global] Instance outcome_bind : MBind outcome := fun A B k r =>
  match r with
  | Returns a => k a
  | Undefined => Undefined
  end.

(** The arrays of [runTest1] and [runTest2]: [char]s by their codes,
    [double]s by their object representations (IEEE 754 binary64). *)
Definition chars : list Z :=
  [97; 98; 99; 100; 101;
   102; 103; 104; 105; 106;
   107; 108; 109; 110; 111;
   112; 113; 114; 115; 116;
   117; 118; 119; 120; 121;
   122].

Definition ints : list Z :=
  [-1; 0; 1; 2; 3; 4;
    5; 6; 7; 8; 9; 10].

Definition doubles : list Z :=
  [0xBFB999999999999A; 0x0000000000000000;
   0x3FB999999999999A; 0x3FC999999999999A;
   0x3FD3333333333333; 0x3FD999999999999A;
   0x3FE0000000000000; 0x3FE3333333333333;
   0x3FE6666666666666; 0x3FE999999999999A].

(** [for (i ...) { if (!matfile.write(id, xs[i])) return false; }]: the
    result is [false] when the loop left the function. *)
Fixpoint write_each_id (dm : DataModel) (T : CType) (id : Z) (xs : list Z)
    (matfile : MatFile) : outcome (bool * MatFile) :=
  match xs with
  | [] => Returns (true, matfile)
  | x :: xs' =>
      match write_id dm T id x matfile with
      | Returns (true, matfile') => write_each_id dm T id xs' matfile'
      | r => r
      end
  end.

(** The same loop with [matfile.write(name, xs[i])]. *)
Fixpoint write_each_name (dm : DataModel) (T : CType) (name : string) (xs : list Z)
    (matfile : MatFile) : outcome (bool * MatFile) :=
  match xs with
  | [] => Returns (true, matfile)
  | x :: xs' =>
      match write_name dm T name x matfile with
      | Returns (true, matfile') => write_each_name dm T name xs' matfile'
      | r => r
      end
  end.

(** [runTest1] up to its [return]: the value returned and the local
    [matfile] at that moment.  [stat] is the result of [stat(2)] on a
    path. *)
Definition runTest1_body (dm : DataModel) (env : Env) (stat : string -> Z)
    (path : string) : outcome (bool * MatFile) :=
  let matfile := MatFile_ctor (stat path =? 0) RealTime path in
  '(char_id, matfile) ← create dm env Char "chars" matfile;
  '(int_id, matfile) ← create dm env Int "ints" matfile;
  '(double_id, matfile) ← create dm env Double "doubles" matfile;
  if (char_id <? 0) || (int_id <? 0) || (double_id <? 0)
  then mret (false, matfile) else
  '(ok, matfile) ← write_each_id dm Char char_id chars matfile;
  if negb ok then mret (false, matfile) else
  '(ok, matfile) ← write_each_id dm Int int_id ints matfile;
  if negb ok then mret (false, matfile) else
  '(ok, matfile) ← write_each_id dm Double double_id doubles matfile;
  if negb ok then mret (false, matfile) else
  mret (true, matfile).

(** [runTest2] up to its [return]. *)
Definition runTest2_body (dm : DataModel) (env : Env) (stat : string -> Z)
    (path : string) : outcome (bool * MatFile) :=
  let matfile := MatFile_ctor (stat path =? 0) RealTime path in
  '(char_id, matfile) ← create dm env Char "chars2" matfile;
  '(int_id, matfile) ← create dm env Int "ints2" matfile;
  '(double_id, matfile) ← create dm env Double "doubles2" matfile;
  if (char_id <? 0) || (int_id <? 0) || (double_id <? 0)
  then mret (false, matfile) else
  '(ok, matfile) ← write_each_name dm Char "chars2" chars matfile;
  if negb ok then mret (false, matfile) else
  '(ok, matfile) ← write_each_name dm Int "ints2" ints matfile;
  if negb ok then mret (false, matfile) else
  '(ok, matfile) ← write_each_name dm Double "doubles2" doubles matfile;
  if negb ok then mret (false, matfile) else
  mret (true, matfile).

(** Leaving the function destroys the local [matfile]. *)
Definition returning (body : outcome (bool * MatFile)) : outcome bool :=
  '(r, matfile) ← body;
  MatFile_dtor matfile;;
  mret r.

(** [bool runTest1(const std::string& path) const] *)
Definition runTest1 (dm : DataModel) (env : Env) (stat : string -> Z)
    (path : string) : outcome bool :=
  returning (runTest1_body dm env stat path).

(** [bool runTest2(const std::string& path) const] *)
Definition runTest2 (dm : DataModel) (env : Env) (stat : string -> Z)
    (path : string) : outcome bool :=
  returning (runTest2_body dm env stat path).

(** [bool run(const std::string& path) const]:
    [return runTest1(path) && runTest2(path);] *)
Definition run (dm : DataModel) (env : Env) (stat : string -> Z)
    (path : string) : outcome bool :=
  r1 ← runTest1 dm env stat path;
  if r1 : bool then runTest2 dm env stat path else mret false.

(** [int main(int argc, char** argv)] on the arguments [argv[0]], ...,
    [argv[argc-1]]: what it sends to [std::cout] and the value it returns.
    With [argc == 0] the pointer [argv[0]] is null, and inserting it into
    the stream is undefined. *)
Definition main (dm : DataModel) (env : Env) (stat : string -> Z)
    (argv : list string) : outcome (string * Z) :=
  match argv with
  | [] => Undefined
  | [prog] => Returns ("usage: " +:+ prog +:+ " <output dir>" +:+ nl, 0)
  | _ :: path :: _ =>
      passed ← run dm env stat path;
      if passed : bool then Returns ("passed." +:+ nl, 0)
      else Returns ("failed." +:+ nl, 0)
  end.

(** ** Definitions used to state the properties *)

(** [n] rounded up to a multiple of 8. *)
Definition round8 (n : Z) : Z := if n mod 8 =? 0 then n else n + (8 - n mod 8).

Definition name_size (v : Variable_t) : Z := Z.of_nat (String.length (_name v)).

(** The offset of the first payload byte: the 128-byte header, the 8-byte
    matrix tag and the subelements up to and including the real-part tag. *)
Definition data_start (v : Variable_t) : Z := 184 + round8 (name_size v).

(** The state of an encoder that was constructed successfully and has
    taken [c] elements. *)
Record streaming (dm : DataModel) (v : Variable_t) (c : Z) : Prop := {
  st_nonneg : 0 <= c;
  st_count : _count v = c;
  st_mat : _mat_tag_offset v = 0x84;
  st_dim : _dim_tag_offset v = 0xA4;
  st_size : _mat_tag_size v = 48 + round8 (name_size v);
  st_re : _re_tag_offset v = data_start v - 4;
  st_stream : exists f, _fp v = Some f
    /\ Z.of_nat (f_pos f) = data_start v + c * Z.of_nat (sizeof dm (var_T v))
    /\ Z.of_nat (length (f_data f))
       = data_start v + round8 (c * Z.of_nat (sizeof dm (var_T v)))
    /\ Z.of_nat (f_pos f) <= LONG_MAX dm }.

(** The three patched fields of the file of [v] hold the values for [c]
    elements, each reduced to the 32 bits of the field. *)
Definition counters (dm : DataModel) (v : Variable_t) (c : Z) : Prop :=
  exists f, _fp v = Some f
    /\ field32 (f_data f) 0x84
       = wrap 4 (48 + round8 (name_size v) + round8 (c * Z.of_nat (sizeof dm (var_T v))))
    /\ field32 (f_data f) 0xA4 = wrap 4 c
    /\ field32 (f_data f) (_re_tag_offset v) = wrap 4 (c * Z.of_nat (sizeof dm (var_T v))).

(** What a successful [update_counters] leaves in the file: the three
    patches and the zero padding, applied to data [d] with the stream at
    position [p]. *)
Definition patched (dm : DataModel) (v : Variable_t) (d : list Z) (p : nat) : list Z :=
  let sizeof_T := Z.of_nat (sizeof dm (var_T v)) in
  let bytes := to_size_t dm (_mat_tag_size v + to_size_t dm (_count v * sizeof_T)) in
  let rem := bytes mod 8 in
  let bytes := if negb (rem =? 0) then to_size_t dm (bytes + (8 - rem)) else bytes in
  let d1 := write_at d (Z.to_nat (_mat_tag_offset v)) (le_bytes (sizeof_size_t dm) bytes) in
  let d2 := write_at d1 (Z.to_nat (_dim_tag_offset v)) (le_bytes (sizeof_size_t dm) (_count v)) in
  let d3 := write_at d2 (Z.to_nat (_re_tag_offset v))
              (le_bytes (sizeof_size_t dm) (to_size_t dm (_count v * sizeof_T))) in
  if negb (rem =? 0) then write_at d3 p (replicate (Z.to_nat (8 - rem)) 0) else d3.

(** [v1] is the object [v] later on, its stream still open: the template
    argument, the name and the two constant offsets are the same. *)
Definition keeps (v v1 : Variable_t) : Prop :=
  var_T v1 = var_T v /\ _name v1 = _name v /\ _count v1 = _count v
  /\ _dim_tag_offset v1 = _dim_tag_offset v
  /\ _mat_tag_offset v1 = _mat_tag_offset v
  /\ is_Some (_fp v1).

(** The computation [m], started in [v] with an open stream, returns and
    leaves the stream open. *)
Definition safe_at {A} (m : M A) (v : Variable_t) : Prop :=
  is_Some (_fp v) -> exists a v1, m v = Returns (a, v1) /\ keeps v v1.

(** [wrote dm v0 n v]: [n] calls of [write] on the object [v0], each of
    which returned [true], lead to [v]. *)
Inductive wrote (dm : DataModel) (v0 : Variable_t) : nat -> Variable_t -> Prop :=
| wrote_0 : wrote dm v0 0 v0
| wrote_S n v x v' :
    wrote dm v0 n v ->
    Variable_write dm x v = Returns (true, v') ->
    wrote dm v0 (S n) v'.

(** The stream of [v] has no failure ahead. *)
Definition faultless (v : Variable_t) : Prop :=
  exists f, _fp v = Some f /\ f_io f = [].

(** [std::vector<variable_base*>::max_size()]: the elements are pointers,
    as wide as [size_t], and the vector spans at most [PTRDIFF_MAX] bytes. *)
Definition vector_max_size (dm : DataModel) : Z :=
  (2 ^ (8 * Z.of_nat (sizeof_size_t dm) - 1) - 1) / Z.of_nat (sizeof_size_t dm).

(** One call on the registry that returned. *)
Inductive step (dm : DataModel) (m : MatFile) : MatFile -> Prop :=
| step_create env T name h m' :
    create dm env T name m = Returns (h, m') -> step dm m m'
| step_write_id T id x r m' :
    write_id dm T id x m = Returns (r, m') -> step dm m m'
| step_write_name T name x r m' :
    write_name dm T name x m = Returns (r, m') -> step dm m m'.

(** [h] is what [create] answers for [name] on [m]: the handle on record,
    or -1 on a registry that is not ready. *)
Definition handle_of (m : MatFile) (name : string) (h : Z) : Prop :=
  if _is_ready m then _name2id m !! name = Some h else h = -1.

(** The size in bytes the MAT format gives an element of each kind. *)
Definition kind_size (k : ElementKind) : nat :=
  match k with
  | miINT8 | miUINT8 => 1
  | miINT16 | miUINT16 => 2
  | miINT32 | miUINT32 | miSINGLE => 4
  | miDOUBLE | miINT64 | miUINT64 => 8
  end%nat.

(** [v1] is the object [v] up to its count and the state of its stream:
    the template argument, the name, the three offsets and the size of the
    matrix tag are the same, and the stream is open in both or in neither. *)
Definition same_object (v v1 : Variable_t) : Prop :=
  var_T v1 = var_T v /\ _name v1 = _name v
  /\ _dim_tag_offset v1 = _dim_tag_offset v
  /\ _mat_tag_offset v1 = _mat_tag_offset v
  /\ _re_tag_offset v1 = _re_tag_offset v
  /\ _mat_tag_size v1 = _mat_tag_size v
  /\ (is_Some (_fp v1) <-> is_Some (_fp v)).

(** The computation [m], started in [v] with an open stream, returns and
    changes nothing of the object but the stream, which stays open. *)
Definition stream_only {A} (m : M A) (v : Variable_t) : Prop :=
  forall f, _fp v = Some f -> exists a f', m v = Returns (a, with_fp (Some f') v).

(** The text [write_header] builds. *)
Definition header_text (env : Env) (name : string) : string :=
  "Name: " +:+ name +:+ (nl +:+ "Format: MATLAB 5.0 MAT file")
  +:+ (nl +:+ "Created: ") +:+ ctime_now env.

(** The 128 bytes of the header: the text, cut or filled with zeros to 124
    bytes, then the version 0x0100 and the endian indicator 0x4D49, each in
    the byte order of the host. *)
Definition header_block (env : Env) (name : string) : list Z :=
  let text := bytes_of_string (header_text env name) in
  take 124 text ++ replicate (124 - length text) 0 ++ [0; 1] ++ [73; 77].

(** The matrix element as the constructor leaves it, for an element kind
    [k]: the matrix tag, the array flags, the dimensions (1 by 0), the name
    padded to a multiple of 8 bytes, and the tag of the real part (no
    payload yet). *)
Definition meta_block (k : ElementKind) (name : string) : list Z :=
  let size := Z.of_nat (String.length name) in
  le_bytes 4 miMATRIX ++ le_bytes 4 (48 + round8 size)
  ++ le_bytes 4 (mi miUINT32) ++ le_bytes 4 8
  ++ le_bytes 4 (mi2mx_at (mi k)) ++ le_bytes 4 0
  ++ le_bytes 4 (mi miINT32) ++ le_bytes 4 8 ++ le_bytes 4 1 ++ le_bytes 4 0
  ++ le_bytes 4 (mi miINT8) ++ le_bytes 4 size
  ++ bytes_of_string name ++ replicate (Z.to_nat (round8 size - size)) 0
  ++ le_bytes 4 (mi k) ++ le_bytes 4 0.

Definition preamble (env : Env) (k : ElementKind) (name : string) : list Z :=
  header_block env name ++ meta_block k name.

(** The elements [xs] as they lie in the file, one after the other. *)
Definition payload (dm : DataModel) (T : CType) (xs : list Z) : list Z :=
  concat (map (le_bytes (sizeof dm T)) xs).

(** The file of a variable that holds the elements [xs]: the preamble, the
    payload and zeros up to a multiple of 8 bytes, with the total length
    stored at 0x84, the number of elements at 0xA4 and the length of the
    payload in the four bytes before it, each as a [size_t]. *)
Definition image (dm : DataModel) (env : Env) (T : CType) (k : ElementKind)
    (name : string) (xs : list Z) : list Z :=
  let size := Z.of_nat (String.length name) in
  let bytes := Z.of_nat (length xs) * Z.of_nat (sizeof dm T) in
  let body := preamble env k name ++ payload dm T xs
              ++ replicate (Z.to_nat (round8 bytes - bytes)) 0 in
  let w := sizeof_size_t dm in
  write_at
    (write_at
       (write_at body 0x84%nat (le_bytes w (48 + round8 size + round8 bytes)))
       0xA4%nat (le_bytes w (Z.of_nat (length xs))))
    (Z.to_nat (180 + round8 size)) (le_bytes w bytes).

(** [fed dm v0 xs v]: calls of the two [write] functions on the object
    [v0], each of which reported success, lead to [v]; [xs] are the elements
    handed over, in order. *)
Inductive fed (dm : DataModel) (v0 : Variable_t) : list Z -> Variable_t -> Prop :=
| fed_0 : fed dm v0 [] v0
| fed_element xs v x v' :
    fed dm v0 xs v ->
    Variable_write dm x v = Returns (true, v') ->
    fed dm v0 (xs ++ [x]) v'
| fed_array xs v data numel v' :
    fed dm v0 xs v ->
    Variable_write_array dm data numel v = Returns (1, v') ->
    fed dm v0 (xs ++ take numel data) v'.

(** The state of an encoder for the kind [k] that holds the elements [xs]:
    its members, the position of its stream (the end of the payload) and
    the bytes of its file, which is the preamble before the first call of
    [write] and the image of [xs] after it. *)
Definition holding (dm : DataModel) (env : Env) (k : ElementKind)
    (v : Variable_t) (xs : list Z) : Prop :=
  _count v = Z.of_nat (length xs)
  /\ _mat_tag_offset v = 0x84 /\ _dim_tag_offset v = 0xA4
  /\ _mat_tag_size v = 48 + round8 (name_size v)
  /\ _re_tag_offset v = data_start v - 4
  /\ exists f, _fp v = Some f
     /\ Z.of_nat (f_pos f)
        = data_start v + Z.of_nat (length xs) * Z.of_nat (sizeof dm (var_T v))
     /\ Z.of_nat (f_pos f) <= LONG_MAX dm
     /\ (xs = [] /\ f_data f = preamble env k (_name v)
         \/ f_data f = image dm env (var_T v) k (_name v) xs).

(** The two tables of a registry agree: a name on record has a handle
    that is the index of a variable of that name, and every variable is on
    record under its name with its index. *)
Definition well_formed (m : MatFile) : Prop :=
  (forall name h, _name2id m !! name = Some h ->
     0 <= h /\ exists var, _variables m !! Z.to_nat h = Some var /\ _name var = name)
  /\ (forall i var, _variables m !! i = Some var ->
        _name2id m !! _name var = Some (Z.of_nat i)).

(** ** Hosts, objects and registries of the examples *)

(** A host on which every call succeeds. *)
Definition willing : Env := mkEnv false (fun _ => Some []) "Thu Jan  1 00:00:00 1970".

(** A host on which no file can be opened. *)
Definition unwritable : Env := mkEnv false (fun _ => None) "Thu Jan  1 00:00:00 1970".

(** The loop of the unit test: write the elements in turn, stop at the
    first call that does not return [true]. *)
Fixpoint write_all (dm : DataModel) (xs : list Z) (v : Variable_t)
    : outcome (bool * Variable_t) :=
  match xs with
  | [] => Returns (true, v)
  | x :: xs' =>
      match Variable_write dm x v with
      | Returns (true, v') => write_all dm xs' v'
      | r => r
      end
  end.

Definition ctor_or (dm : DataModel) (env : Env) (T : CType) (path name : string)
    : Variable_t :=
  match Variable_ctor dm env T path name with
  | Returns v => v
  | Undefined => initialised T name None
  end.

Definition written_or (dm : DataModel) (xs : list Z) (v : Variable_t) : Variable_t :=
  match write_all dm xs v with
  | Returns (_, v') => v'
  | Undefined => v
  end.

(** The scenario of the specification: ["ints"] as [int], elements -1, 0, 1, 2. *)
Definition ints_0 : Variable_t :=
  Eval vm_compute in ctor_or ILP32 willing Int "out" "ints".
Definition ints_4 : Variable_t :=
  Eval vm_compute in written_or ILP32 [-1; 0; 1; 2] ints_0.

(** ["chars"] as [char], one element ['a']. *)
Definition chars_0 : Variable_t :=
  Eval vm_compute in ctor_or ILP32 willing Char "out" "chars".
Definition chars_1 : Variable_t :=
  Eval vm_compute in written_or ILP32 [97] chars_0.

(** The same on LP64, three elements. *)
Definition chars64_0 : Variable_t :=
  Eval vm_compute in ctor_or LP64 willing Char "out" "chars".
Definition chars64_1 : Variable_t :=
  Eval vm_compute in written_or LP64 [97] chars64_0.

(** A registry on an existing directory, before any [create]. *)
Definition fresh_registry : MatFile := MatFile_ctor true RealTime "out".

(** The object representation of the [double] 0.5. *)
Definition half : Z := 0x3FE0000000000000.

(** The registry after a [create] that returned. *)
Definition created_or (dm : DataModel) (env : Env) (T : CType) (name : string)
    (m : MatFile) : MatFile :=
  match create dm env T name m with
  | Returns (_, m') => m'
  | Undefined => m
  end.

(** The registry of the unit test after its first [create]. *)
Definition chars_registry : MatFile :=
  created_or LP64 willing Char "chars" fresh_registry.

(** The same registry after the first element of the test went to handle 0. *)
Definition chars_registry_1 : MatFile :=
  match write_id LP64 Char 0 97 chars_registry with
  | Returns (_, m) => m
  | Undefined => chars_registry
  end.

(** * Properties *)

(** ** Bytes and files *)

Section Bytes.

Lemma length_le_bytes n v : length (le_bytes n v) = n.
Proof. revert v; induction n as [|n IH]; intros v; simpl; [done|by rewrite IH]. Qed.

Lemma le_decode_le_bytes n v : le_decode (le_bytes n v) = wrap n v.
Proof.
  unfold wrap. revert v; induction n as [|n IH]; intros v.
  - simpl. by rewrite Z.mod_1_r.
  - cbn [le_bytes le_decode]. rewrite IH.
    replace (8 * Z.of_nat (S n)) with (8 + 8 * Z.of_nat n) by lia.
    rewrite Z.pow_add_r by lia. change (2 ^ 8) with 256.
    rewrite Z.rem_mul_r by lia. lia.
Qed.

Lemma take_le_bytes k n v : (k <= n)%nat -> take k (le_bytes n v) = le_bytes k v.
Proof.
  revert n v; induction k as [|k IH]; intros n v Hk; [done|].
  destruct n as [|n]; [lia|]. simpl. f_equal. apply IH. lia.
Qed.

Lemma wrap_small n x : 0 <= x < 2 ^ (8 * Z.of_nat n) -> wrap n x = x.
Proof. intros. unfold wrap. by apply Z.mod_small. Qed.

Lemma wrap_wrap_le k n x : (k <= n)%nat -> wrap k (wrap n x) = wrap k x.
Proof.
  intros Hk. unfold wrap. apply Z.mod_mod_divide.
  exists (2 ^ (8 * Z.of_nat (n - k))).
  rewrite <- Z.pow_add_r by lia. f_equal. lia.
Qed.

End Bytes.

Section WriteAt.

Implicit Types d b : list Z.

Lemma write_at_inside d p b :
  (p <= length d)%nat -> write_at d p b = take p d ++ b ++ drop (p + length b) d.
Proof.
  intros Hp. unfold write_at. destruct b as [|x b].
  - simpl. rewrite Nat.add_0_r. by rewrite take_drop.
  - replace (p - length d)%nat with 0%nat by lia. done.
Qed.

Lemma length_write_at d p b :
  (p <= length d)%nat -> length (write_at d p b) = Nat.max (length d) (p + length b).
Proof.
  intros Hp. rewrite write_at_inside by done.
  rewrite !length_app, length_take, length_drop. lia.
Qed.

Lemma lookup_write_at d p b i :
  (p <= length d)%nat ->
  write_at d p b !! i =
    if decide (p <= i < p + length b)%nat then b !! (i - p)%nat else d !! i.
Proof.
  intros Hp. rewrite write_at_inside by done.
  case_decide as Hi.
  - rewrite lookup_app_r by (rewrite length_take; lia).
    rewrite length_take. replace (p `min` length d)%nat with p by lia.
    apply lookup_app_l. lia.
  - destruct (decide (i < p)%nat).
    + rewrite lookup_app_l by (rewrite length_take; lia).
      by rewrite lookup_take_lt.
    + rewrite lookup_app_r by (rewrite length_take; lia).
      rewrite length_take. replace (p `min` length d)%nat with p by lia.
      rewrite lookup_app_r by lia.
      rewrite lookup_drop. f_equal. lia.
Qed.

Lemma write_at_end d b : write_at d (length d) b = d ++ b.
Proof.
  rewrite write_at_inside by done.
  rewrite take_ge by done. rewrite drop_ge by lia. by rewrite app_nil_r.
Qed.

(** Reading [n] bytes at [q]. *)
Lemma read_write_at_other d p b q n :
  (p <= length d)%nat -> (q + n <= p \/ p + length b <= q)%nat ->
  take n (drop q (write_at d p b)) = take n (drop q d).
Proof.
  intros Hp Hd. apply list_eq. intros i.
  destruct (decide (i < n)%nat) as [Hi|Hi].
  - rewrite !lookup_take_lt, !lookup_drop by done.
    rewrite lookup_write_at by done. case_decide; [lia|done].
  - by rewrite !lookup_take_ge by lia.
Qed.

Lemma read_write_at_same d p b n :
  (p <= length d)%nat -> (n <= length b)%nat ->
  take n (drop p (write_at d p b)) = take n b.
Proof.
  intros Hp Hn. apply list_eq. intros i.
  destruct (decide (i < n)%nat) as [Hi|Hi].
  - rewrite !lookup_take_lt, !lookup_drop by done.
    rewrite lookup_write_at by done. case_decide; [|lia]. f_equal. lia.
  - by rewrite !lookup_take_ge by lia.
Qed.

Lemma field32_write_at_other d p b off :
  (p <= length d)%nat -> 0 <= off ->
  (off + 4 <= Z.of_nat p \/ Z.of_nat p + Z.of_nat (length b) <= off) ->
  field32 (write_at d p b) off = field32 d off.
Proof.
  intros Hp Hoff Hd. unfold field32. f_equal.
  apply read_write_at_other; [done|lia].
Qed.

Lemma field32_write_at_same d p n v :
  (p <= length d)%nat -> (4 <= n)%nat ->
  field32 (write_at d p (le_bytes n v)) (Z.of_nat p) = wrap 4 v.
Proof.
  intros Hp Hn. unfold field32. rewrite Nat2Z.id.
  rewrite read_write_at_same by (rewrite ?length_le_bytes; done).
  rewrite take_le_bytes by done. apply le_decode_le_bytes.
Qed.

End WriteAt.

(** ** The monad and the stream *)

Section Monad.

Lemma bind_Returns {A B} (m : M A) (k : A -> M B) v r :
  (m ≫= k) v = Returns r -> exists a v1, m v = Returns (a, v1) /\ k a v1 = Returns r.
Proof. unfold mbind, M_bind. destruct (m v) as [[a v1]|]; [eauto|done]. Qed.

Lemma bind_Undefined_l {A B} (m : M A) (k : A -> M B) v :
  m v = Undefined -> (m ≫= k) v = Undefined.
Proof. unfold mbind, M_bind. by intros ->. Qed.

Lemma bind_Returns_l {A B} (m : M A) (k : A -> M B) v a v1 :
  m v = Returns (a, v1) -> (m ≫= k) v = k a v1.
Proof. unfold mbind, M_bind. by intros ->. Qed.

Lemma mret_Returns {A} (a : A) v r v1 :
  mret (M := M) a v = Returns (r, v1) -> r = a /\ v1 = v.
Proof. unfold mret, M_ret. intros [= <- <-]. done. Qed.

Lemma on_stream_Returns {A} (call : FILE -> A * FILE) v f r v1 :
  _fp v = Some f -> on_stream call v = Returns (r, v1) ->
  r = (call f).1 /\ v1 = with_fp (Some (call f).2) v.
Proof.
  unfold on_stream. intros ->. destruct (call f) as [r' f'].
  intros [= <- <-]. done.
Qed.

Lemma on_stream_open {A} (call : FILE -> A * FILE) v f :
  _fp v = Some f ->
  on_stream call v = Returns ((call f).1, with_fp (Some (call f).2) v).
Proof. unfold on_stream. intros ->. by destruct (call f). Qed.

Lemma on_stream_null {A} (call : FILE -> A * FILE) v :
  _fp v = None -> on_stream call v = Undefined.
Proof. unfold on_stream. by intros ->. Qed.

End Monad.

Section Stream.

Lemma FILE_fwrite_count buf size n f :
  0 <= (FILE_fwrite buf size n f).1 <= Z.of_nat n.
Proof.
  unfold FILE_fwrite. cbn [fst].
  destruct (Nat.eqb_spec size 0) as [->|Hs]; [lia|].
  set (want := take (size * n) buf).
  set (got := take _ want).
  assert (length got <= size * n)%nat.
  { subst got want. rewrite !length_take. lia. }
  split; [lia|].
  apply Nat2Z.inj_le. apply Nat.Div0.div_le_upper_bound. done.
Qed.

Lemma FILE_fwrite_full buf size n f :
  (0 < size)%nat -> (size * n <= length buf)%nat ->
  (FILE_fwrite buf size n f).1 = Z.of_nat n ->
  f_data (FILE_fwrite buf size n f).2
    = write_at (f_data f) (f_pos f) (take (size * n) buf)
  /\ f_pos (FILE_fwrite buf size n f).2 = (f_pos f + size * n)%nat.
Proof.
  intros Hs Hb. unfold FILE_fwrite. cbn [fst snd f_data f_pos].
  destruct (Nat.eqb_spec size 0) as [->|_]; [lia|].
  set (want := take (size * n) buf).
  assert (Hw : length want = (size * n)%nat) by (subst want; rewrite length_take; lia).
  set (a := accepted _ _).
  intros Hn. apply Nat2Z.inj in Hn.
  assert (Hg : (size * n <= length (take a want))%nat).
  { destruct (decide (size * n <= length (take a want))%nat) as [|Hlt]; [done|].
    exfalso. apply Nat.nle_gt in Hlt.
    apply Nat.Div0.div_lt_upper_bound in Hlt. lia. }
  rewrite length_take in Hg.
  rewrite take_ge by lia. split; [done|lia].
Qed.

Lemma FILE_fwrite_ok buf size n f :
  next_event f = IoOk -> (0 < size)%nat -> (size * n <= length buf)%nat ->
  (FILE_fwrite buf size n f).1 = Z.of_nat n.
Proof.
  intros He Hs Hb. unfold FILE_fwrite. cbn [fst]. rewrite He. cbn [accepted].
  destruct (Nat.eqb_spec size 0) as [->|_]; [lia|].
  rewrite (take_ge (take _ _)) by done. rewrite length_take.
  rewrite Nat.min_l by lia. rewrite Nat.mul_comm, Nat.div_mul by lia. done.
Qed.

Lemma FILE_fwrite_io buf size n f :
  f_io (FILE_fwrite buf size n f).2 = tail (f_io f).
Proof. done. Qed.

Lemma FILE_fseek_0 off f :
  (FILE_fseek off f).1 = 0 ->
  0 <= off /\ f_data (FILE_fseek off f).2 = f_data f
  /\ f_pos (FILE_fseek off f).2 = Z.to_nat off.
Proof.
  unfold FILE_fseek. destruct (next_event f); try (cbn; lia).
  destruct (Z.ltb_spec off 0); cbn; [lia|]. intros _. auto.
Qed.

Lemma FILE_fseek_ok off f :
  next_event f = IoOk -> 0 <= off -> (FILE_fseek off f).1 = 0.
Proof.
  intros He Hoff. unfold FILE_fseek. rewrite He.
  destruct (Z.ltb_spec off 0); [lia|done].
Qed.

Lemma FILE_fseek_data off f : f_data (FILE_fseek off f).2 = f_data f.
Proof.
  unfold FILE_fseek. destruct (next_event f); try done.
  by destruct (off <? 0).
Qed.

Lemma FILE_fseek_io off f : f_io (FILE_fseek off f).2 = tail (f_io f).
Proof.
  unfold FILE_fseek. destruct (next_event f); try done.
  by destruct (off <? 0).
Qed.

Lemma FILE_ftell_data dm f :
  f_data (FILE_ftell dm f).2 = f_data f /\ f_pos (FILE_ftell dm f).2 = f_pos f
  /\ f_io (FILE_ftell dm f).2 = tail (f_io f).
Proof.
  unfold FILE_ftell. destruct (next_event f); try done.
  by destruct (LONG_MAX dm <? _).
Qed.

Lemma FILE_ftell_pos dm f :
  (FILE_ftell dm f).1 <> -1 ->
  (FILE_ftell dm f).1 = Z.of_nat (f_pos f) /\ Z.of_nat (f_pos f) <= LONG_MAX dm.
Proof.
  unfold FILE_ftell. destruct (next_event f); try (cbn; lia).
  destruct (Z.ltb_spec (LONG_MAX dm) (Z.of_nat (f_pos f))); cbn; lia.
Qed.

Lemma FILE_ftell_ok dm f :
  next_event f = IoOk -> Z.of_nat (f_pos f) <= LONG_MAX dm ->
  (FILE_ftell dm f).1 = Z.of_nat (f_pos f).
Proof.
  intros He Hp. unfold FILE_ftell. rewrite He.
  destruct (Z.ltb_spec (LONG_MAX dm) (Z.of_nat (f_pos f))); [lia|done].
Qed.

End Stream.

(** ** [update_counters], when it returns [true] *)

Lemma sizeof_size_t_bounds dm : (4 <= sizeof_size_t dm <= 8)%nat.
Proof. destruct dm; simpl; lia. Qed.

Lemma sizeof_bounds dm T : (1 <= sizeof dm T <= 8)%nat.
Proof. destruct T, dm; simpl; lia. Qed.

Lemma take_zeros k :
  (k <= 8)%nat -> take k [0; 0; 0; 0; 0; 0; 0; 0] = replicate k 0.
Proof.
  intros Hk. change [0; 0; 0; 0; 0; 0; 0; 0] with (replicate 8 0).
  rewrite take_replicate. f_equal. lia.
Qed.

(** Splitting a monadic sequence that returned. *)
Ltac bind_inv H a v1 Hm :=
  apply bind_Returns in H; destruct H as (a & v1 & Hm & H); cbv beta in H.

(** A guard [if negb (x =? c) then return false else ...] on a path that
    returned [true]. *)
Ltac guard_true H :=
  match type of H with
  | (if negb (?x =? ?c) then _ else _) _ = Returns (true, _) =>
      let E := fresh "E" in
      destruct (Z.eqb_spec x c) as [E|E]; cbn [negb] in H;
      [| apply mret_Returns in H; destruct H; discriminate]
  | (if (?x =? ?c) then _ else _) _ = Returns (true, _) =>
      let E := fresh "E" in
      destruct (Z.eqb_spec x c) as [E|E];
      [apply mret_Returns in H; destruct H; discriminate |]
  end.

(** The stream after a stdio call, given the stream before it. *)
Ltac stream_inv Hm Hfp f1 :=
  let Hr := fresh "Hr" in
  apply (on_stream_Returns _ _ _ _ _ Hfp) in Hm; destruct Hm as [Hr Hm];
  match type of Hm with
  | _ = with_fp (Some ?g) _ => set (f1 := g) in *
  end.

Ltac stream_next Hm f1 :=
  match type of Hm with
  | on_stream _ (with_fp (Some ?g) ?w) = _ =>
      stream_inv Hm (eq_refl : _fp (with_fp (Some g) w) = Some g) f1
  end.

Lemma update_counters_true dm v f v' :
  _fp v = Some f ->
  update_counters dm v = Returns (true, v') ->
  exists f', v' = with_fp (Some f') v
    /\ f_pos f' = f_pos f
    /\ Z.of_nat (f_pos f) <= LONG_MAX dm
    /\ 0 <= _mat_tag_offset v /\ 0 <= _dim_tag_offset v /\ 0 <= _re_tag_offset v
    /\ f_data f' = patched dm v (f_data f) (f_pos f).
Proof.
  intros Hfp H. unfold update_counters in H. cbv beta zeta in H.
  pose proof (sizeof_size_t_bounds dm) as Hsz.
  unfold patched. cbv zeta.
  set (sizeof_T := Z.of_nat (sizeof dm (var_T v))) in *.
  set (bytes0 := to_size_t dm (_mat_tag_size v + to_size_t dm (_count v * sizeof_T))) in *.
  set (rem := bytes0 mod 8) in *.
  assert (Hrem : 0 <= rem < 8) by (subst rem; apply Z.mod_pos_bound; lia).
  (* curr = ftell *)
  bind_inv H curr v1 Hm. guard_true H.
  unfold ftell in Hm. stream_inv Hm Hfp f1. subst curr v1.
  destruct (FILE_ftell_pos dm f E) as [Hcurr Hmax].
  destruct (FILE_ftell_data dm f) as (Hd1 & Hp1 & _).
  fold f1 in Hd1, Hp1. rewrite Hcurr in H. clear E Hcurr.
  (* the mat tag *)
  bind_inv H r v2 Hm. guard_true H.
  unfold fseek in Hm. stream_next Hm f2.
  subst r v2. destruct (FILE_fseek_0 _ _ E) as (Hmat & Hd2 & Hp2).
  fold f2 in Hd2, Hp2. clear E.
  bind_inv H n v3 Hm. guard_true H.
  unfold fwrite in Hm.
  stream_next Hm f3.
  subst n v3.
  apply FILE_fwrite_full in E as (Hd3 & Hp3); [| lia | rewrite length_le_bytes; lia].
  fold f3 in Hd3, Hp3.
  rewrite Nat.mul_1_r, take_ge in Hd3 by (rewrite length_le_bytes; lia).
  (* the dimension *)
  bind_inv H r v4 Hm. guard_true H.
  unfold fseek in Hm. stream_next Hm f4.
  subst r v4. destruct (FILE_fseek_0 _ _ E) as (Hdim & Hd4 & Hp4).
  fold f4 in Hd4, Hp4. clear E.
  bind_inv H n v5 Hm. guard_true H.
  unfold fwrite in Hm. stream_next Hm f5.
  subst n v5.
  apply FILE_fwrite_full in E as (Hd5 & Hp5); [| lia | rewrite length_le_bytes; lia].
  fold f5 in Hd5, Hp5.
  rewrite Nat.mul_1_r, take_ge in Hd5 by (rewrite length_le_bytes; lia).
  (* the real part *)
  bind_inv H r v6 Hm. guard_true H.
  unfold fseek in Hm. stream_next Hm f6.
  subst r v6. destruct (FILE_fseek_0 _ _ E) as (Hre & Hd6 & Hp6).
  fold f6 in Hd6, Hp6. clear E.
  bind_inv H n v7 Hm. guard_true H.
  unfold fwrite in Hm. stream_next Hm f7.
  subst n v7.
  apply FILE_fwrite_full in E as (Hd7 & Hp7); [| lia | rewrite length_le_bytes; lia].
  fold f7 in Hd7, Hp7.
  rewrite Nat.mul_1_r, take_ge in Hd7 by (rewrite length_le_bytes; lia).
  (* back to the end of the data *)
  bind_inv H r v8 Hm. guard_true H.
  unfold fseek in Hm. stream_next Hm f8.
  subst r v8. destruct (FILE_fseek_0 _ _ E) as (_ & Hd8 & Hp8).
  fold f8 in Hd8, Hp8. clear E. rewrite Nat2Z.id in Hp8.
  assert (Hd37 : f_data f7 =
    write_at (write_at (write_at (f_data f) (Z.to_nat (_mat_tag_offset v))
      (le_bytes (sizeof_size_t dm)
         (if negb (rem =? 0) then to_size_t dm (bytes0 + (8 - rem)) else bytes0)))
      (Z.to_nat (_dim_tag_offset v)) (le_bytes (sizeof_size_t dm) (_count v)))
      (Z.to_nat (_re_tag_offset v))
      (le_bytes (sizeof_size_t dm) (to_size_t dm (_count v * sizeof_T)))).
  { rewrite Hd7, Hp6, Hd6, Hd5, Hp4, Hd4, Hd3, Hp2, Hd2, Hd1. done. }
  destruct (Z.eqb_spec rem 0) as [Hz|Hnz]; cbn [negb] in H |- *.
  - apply mret_Returns in H. destruct H as [_ ->].
    exists f8. repeat split; try done; try lia.
    by rewrite Hd8.
  - bind_inv H n v9 Hm. guard_true H.
    unfold fwrite in Hm. stream_next Hm f9.
    subst n v9.
    assert (E' : (FILE_fwrite [0; 0; 0; 0; 0; 0; 0; 0] 1 (Z.to_nat (8 - rem)) f8).1
                 = Z.of_nat (Z.to_nat (8 - rem))) by (rewrite E; lia).
    apply FILE_fwrite_full in E' as (Hd9 & Hp9); [| lia | simpl; lia].
    fold f9 in Hd9, Hp9. clear E.
    rewrite Nat.mul_1_l, take_zeros in Hd9 by lia.
    bind_inv H r v10 Hm. guard_true H.
    unfold fseek in Hm. stream_next Hm f10.
    subst r v10. destruct (FILE_fseek_0 _ _ E) as (_ & Hd10 & Hp10).
    fold f10 in Hd10, Hp10. clear E. rewrite Nat2Z.id in Hp10.
    apply mret_Returns in H. destruct H as [_ ->].
    exists f10. repeat split; try done; try lia.
    by rewrite Hd10, Hd9, Hp8, Hd8, Hd37.
Qed.

(** ** Arithmetic *)

(** Linear arithmetic with division and remainder by constants. *)
Ltac zlia := Z.div_mod_to_equations; lia.

Section Arith.

Lemma round8_spec n : n <= round8 n < n + 8 /\ round8 n mod 8 = 0.
Proof.
  unfold round8. destruct (Z.eqb_spec (n mod 8) 0) as [E|E]; zlia.
Qed.

Lemma round8_mono a b : a <= b -> round8 a <= round8 b.
Proof.
  intros Hab. pose proof (round8_spec a) as [Ha Ha']. pose proof (round8_spec b) as [Hb Hb'].
  zlia.
Qed.

Lemma round8_aligned n : n mod 8 = 0 -> round8 n = n.
Proof. intros E. unfold round8. by rewrite E. Qed.

Lemma LONG_MAX_size_t dm : 0 < LONG_MAX dm < 2 ^ (8 * Z.of_nat (sizeof_size_t dm)).
Proof. destruct dm; split; vm_compute; reflexivity. Qed.

Lemma to_size_t_small dm x : 0 <= x <= LONG_MAX dm -> to_size_t dm x = x.
Proof.
  intros Hx. unfold to_size_t. apply wrap_small.
  pose proof (LONG_MAX_size_t dm). lia.
Qed.

End Arith.

(** ** [Variable::write] *)

Lemma Variable_write_null dm x v :
  _fp v = None -> Variable_write dm x v = Returns (false, v).
Proof. unfold Variable_write. by intros ->. Qed.

(** A write that returned [true]: the element went to the current position
    and the counters were patched for the new count. *)
Lemma Variable_write_data dm x v f v' :
  _fp v = Some f ->
  Variable_write dm x v = Returns (true, v') ->
  let sz := sizeof dm (var_T v) in
  let v1 := with_count (to_size_t dm (_count v + 1)) v in
  exists f', v' = with_fp (Some f') v1
    /\ f_pos f' = (f_pos f + sz)%nat
    /\ Z.of_nat (f_pos f + sz) <= LONG_MAX dm
    /\ 0 <= _mat_tag_offset v /\ 0 <= _dim_tag_offset v /\ 0 <= _re_tag_offset v
    /\ f_data f'
       = patched dm v1 (write_at (f_data f) (f_pos f) (le_bytes sz x)) (f_pos f + sz).
Proof.
  intros Hfp H sz v1. unfold Variable_write in H. rewrite Hfp in H.
  cbv beta zeta in H. fold sz in H.
  pose proof (sizeof_bounds dm (var_T v)) as Hsz. fold sz in Hsz.
  bind_inv H num v2 Hm. unfold fwrite in Hm. stream_inv Hm Hfp f1.
  bind_inv H u v3 Ha. unfold assign in Ha. injection Ha as _ <-.
  destruct (Z.eqb_spec num 1) as [E|E];
    [| apply mret_Returns in H; destruct H; discriminate].
  subst v2. rewrite E in H. rewrite E in Hr. symmetry in Hr.
  apply FILE_fwrite_full in Hr as (Hd1 & Hp1); [| lia | rewrite length_le_bytes; lia].
  fold f1 in Hd1, Hp1.
  rewrite Nat.mul_1_r, take_ge in Hd1 by (rewrite length_le_bytes; lia).
  rewrite Nat.mul_1_r in Hp1.
  apply (update_counters_true dm _ f1) in H; [|done].
  destruct H as (f' & -> & Hp' & Hmax & Hmat & Hdim & Hre & Hd').
  exists f'. cbn in Hmat, Hdim, Hre.
  rewrite Hp1 in Hp', Hmax, Hd'. rewrite Hd1 in Hd'.
  repeat split; try done.
Qed.

Lemma streaming_write dm v c x v' :
  streaming dm v c ->
  Variable_write dm x v = Returns (true, v') ->
  streaming dm v' (c + 1) /\ counters dm v' (c + 1)
  /\ _name v' = _name v /\ var_T v' = var_T v.
Proof.
  intros [Hc Hcount Hmat Hdim Hsize Hre (f & Hfp & Hpos & Hlen & Hmax)] H.
  destruct (Variable_write_data dm x v f v' Hfp H)
    as (f' & -> & Hp' & Hmax' & _ & _ & _ & Hd').
  pose proof (sizeof_bounds dm (var_T v)) as Hsz.
  pose proof (sizeof_size_t_bounds dm) as Hszt.
  pose proof (LONG_MAX_size_t dm) as HLM.
  set (sz := sizeof dm (var_T v)) in *.
  set (S0 := data_start v) in *.
  set (P := c * Z.of_nat sz) in *.
  assert (HP : 0 <= P) by (subst P; lia).
  assert (HS0 : 184 <= S0).
  { subst S0. unfold data_start. pose proof (round8_spec (name_size v)).
    unfold name_size in *. lia. }
  assert (HS0' : S0 mod 8 = 0).
  { subst S0. unfold data_start. pose proof (round8_spec (name_size v)). zlia. }
  assert (HcP : c <= P) by (subst P; nia).
  assert (Hc1 : to_size_t dm (c + 1) = c + 1) by (apply to_size_t_small; lia).
  assert (HP1 : (c + 1) * Z.of_nat sz = P + Z.of_nat sz) by (subst P; lia).
  rewrite Hcount, Hc1 in Hd'.
  (* the values update_counters computes *)
  unfold patched in Hd'. cbn [var_T _count _mat_tag_size _mat_tag_offset
    _dim_tag_offset _re_tag_offset with_count] in Hd'.
  fold sz in Hd'. rewrite HP1, Hsize, Hmat, Hdim, Hre in Hd'. fold S0 in Hd'.
  cbv zeta in Hd'.
  assert (Hpay : to_size_t dm (P + Z.of_nat sz) = P + Z.of_nat sz)
    by (apply to_size_t_small; lia).
  rewrite Hpay in Hd'.
  assert (Hb0 : to_size_t dm (48 + round8 (name_size v) + (P + Z.of_nat sz))
                = 48 + round8 (name_size v) + (P + Z.of_nat sz)).
  { apply to_size_t_small. unfold S0, data_start in *. lia. }
  rewrite Hb0 in Hd'.
  set (rem := (48 + round8 (name_size v) + (P + Z.of_nat sz)) mod 8) in *.
  assert (Hrem : rem = (P + Z.of_nat sz) mod 8).
  { subst rem. pose proof (round8_spec (name_size v)). zlia. }
  pose proof (round8_spec P) as [HrP HrP'].
  pose proof (round8_spec (P + Z.of_nat sz)) as [HrQ HrQ'].
  pose proof (round8_mono P (P + Z.of_nat sz) ltac:(lia)) as Hmono.
  assert (HQ8 : 8 <= round8 (P + Z.of_nat sz)) by zlia.
  assert (Hr8 : round8 (P + Z.of_nat sz)
                = if rem =? 0 then P + Z.of_nat sz else P + Z.of_nat sz + (8 - rem)).
  { unfold round8. by rewrite <- Hrem. }
  assert (Hbytes :
    (if negb (rem =? 0)
     then to_size_t dm (48 + round8 (name_size v) + (P + Z.of_nat sz) + (8 - rem))
     else 48 + round8 (name_size v) + (P + Z.of_nat sz))
    = 48 + round8 (name_size v) + round8 (P + Z.of_nat sz)).
  { rewrite Hr8.
    destruct (Z.eqb_spec rem 0) as [E|E]; cbn [negb]; [done|].
    rewrite to_size_t_small; [lia|]. unfold S0, data_start in *. zlia. }
  rewrite Hbytes in Hd'.
  (* lengths of the intermediate files *)
  set (d1 := write_at (f_data f) (f_pos f) (le_bytes sz x)) in *.
  assert (Hl1 : Z.of_nat (length d1)
                = Z.max (S0 + round8 P) (S0 + P + Z.of_nat sz)).
  { subst d1. rewrite length_write_at by lia. rewrite length_le_bytes. lia. }
  set (d2 := write_at d1 (Z.to_nat 132) _) in *.
  assert (Hl2 : length d2 = length d1).
  { subst d2. rewrite length_write_at by lia. rewrite length_le_bytes. lia. }
  set (d3 := write_at d2 (Z.to_nat 164) _) in *.
  assert (Hl3 : length d3 = length d1).
  { subst d3. rewrite length_write_at by lia. rewrite length_le_bytes. lia. }
  set (d4 := write_at d3 (Z.to_nat (S0 - 4)) _) in *.
  assert (Hl4 : Z.of_nat (length d4)
                = Z.max (Z.of_nat (length d1)) (S0 - 4 + Z.of_nat (sizeof_size_t dm))).
  { subst d4. rewrite length_write_at by lia. rewrite length_le_bytes. lia. }
  assert (Hf2 : field32 d2 132 = wrap 4 (48 + round8 (name_size v) + round8 (P + Z.of_nat sz))).
  { subst d2. apply (field32_write_at_same d1 (Z.to_nat 132)); lia. }
  assert (Hf3a : field32 d3 132 = field32 d2 132).
  { subst d3. apply field32_write_at_other; lia. }
  assert (Hf3 : field32 d3 164 = wrap 4 (c + 1)).
  { subst d3. apply (field32_write_at_same d2 (Z.to_nat 164)); lia. }
  assert (Hf4a : field32 d4 132 = field32 d3 132).
  { subst d4. apply field32_write_at_other; lia. }
  assert (Hf4b : field32 d4 164 = field32 d3 164).
  { subst d4. apply field32_write_at_other; lia. }
  assert (Hf4 : field32 d4 (S0 - 4) = wrap 4 (P + Z.of_nat sz)).
  { subst d4. replace (S0 - 4) with (Z.of_nat (Z.to_nat (S0 - 4))) at 2 by lia.
    apply field32_write_at_same; lia. }
  assert (Hfinal : Z.of_nat (length (f_data f')) = S0 + round8 (P + Z.of_nat sz)
    /\ field32 (f_data f') 132 = field32 d4 132
    /\ field32 (f_data f') 164 = field32 d4 164
    /\ field32 (f_data f') (S0 - 4) = field32 d4 (S0 - 4)).
  { rewrite Hd'. destruct (Z.eqb_spec rem 0) as [E|E]; cbn [negb].
    - split; [|done]. rewrite Hl4, Hl1.
      assert (round8 (P + Z.of_nat sz) = P + Z.of_nat sz)
        by (apply round8_aligned; lia).
      lia.
    - assert (Hpad : round8 (P + Z.of_nat sz) = P + Z.of_nat sz + (8 - rem)).
      { rewrite Hr8. destruct (Z.eqb_spec rem 0); [lia|done]. }
      assert (0 < rem < 8) by (rewrite Hrem in *; zlia).
      split; [|split; [|split]].
      + rewrite length_write_at by lia. rewrite length_replicate. lia.
      + apply field32_write_at_other; lia.
      + apply field32_write_at_other; lia.
      + apply field32_write_at_other; lia. }
  destruct Hfinal as (HL & HF1 & HF2 & HF3).
  split; [|split; [|done]].
  - constructor; cbn; rewrite ?Hcount, ?Hc1; try done; try lia.
    exists f'. change (data_start (with_fp _ _)) with (data_start v).
    fold sz. fold S0. rewrite HP1. split; [done|]. lia.
  - exists f'. cbn. change (name_size (with_fp _ _)) with (name_size v).
    fold sz. rewrite HP1, Hre. fold S0.
    split; [done|]. change 0x84 with 132. change 0xA4 with 164.
    rewrite HF1, HF2, HF3, Hf4a, Hf3a, Hf2, Hf4b, Hf3, Hf4. done.
Qed.

(** ** The header *)

Section Conversions.

Lemma to_int_small x : - 2 ^ 31 <= x < 2 ^ 31 -> to_int x = x.
Proof. intros Hx. unfold to_int. rewrite Z.mod_small; lia. Qed.

Lemma to_size_t_small32 dm x : 0 <= x < 2 ^ 32 -> to_size_t dm x = x.
Proof.
  intros Hx. unfold to_size_t. apply wrap_small.
  destruct dm; cbn; lia.
Qed.

Lemma string_length_append (s1 s2 : string) :
  String.length (s1 +:+ s2) = (String.length s1 + String.length s2)%nat.
Proof. induction s1 as [|c s1 IH]; simpl; [done|by rewrite IH]. Qed.

Lemma length_bytes_of_string s : length (bytes_of_string s) = String.length s.
Proof.
  unfold bytes_of_string. rewrite length_map.
  induction s as [|c s IH]; simpl; [done|by rewrite IH].
Qed.

End Conversions.

(** A complete [fwrite] at the end of the file appends. *)
Lemma fwrite_append buf size n v f a v1 :
  _fp v = Some f -> f_pos f = length (f_data f) ->
  fwrite buf size n v = Returns (a, v1) -> a = Z.of_nat n ->
  (0 < size)%nat -> (size * n <= length buf)%nat ->
  exists f1, v1 = with_fp (Some f1) v
    /\ f_pos f1 = length (f_data f1)
    /\ length (f_data f1) = (length (f_data f) + size * n)%nat.
Proof.
  intros Hfp Hend Hm Ha Hs Hb. unfold fwrite in Hm.
  apply (on_stream_Returns _ _ _ _ _ Hfp) in Hm. destruct Hm as [Hr ->].
  rewrite Ha in Hr. symmetry in Hr.
  apply FILE_fwrite_full in Hr as [Hd Hp]; [|done|done].
  eexists. split; [done|].
  rewrite Hd, Hp, length_write_at by lia. rewrite length_take. lia.
Qed.

Lemma fwrite_count buf size n v f a v1 :
  _fp v = Some f -> fwrite buf size n v = Returns (a, v1) -> 0 <= a <= Z.of_nat n.
Proof.
  intros Hfp Hm. unfold fwrite in Hm.
  apply (on_stream_Returns _ _ _ _ _ Hfp) in Hm. destruct Hm as [-> _].
  apply FILE_fwrite_count.
Qed.

Lemma fwrite_open buf size n v f a v1 :
  _fp v = Some f -> fwrite buf size n v = Returns (a, v1) ->
  exists f1, v1 = with_fp (Some f1) v.
Proof.
  intros Hfp Hm. unfold fwrite in Hm.
  apply (on_stream_Returns _ _ _ _ _ Hfp) in Hm. destruct Hm as [_ ->]. eauto.
Qed.

Lemma write_header_true dm env v f v' :
  _fp v = Some f -> f_pos f = length (f_data f) ->
  write_header dm env v = Returns (true, v') ->
  exists f', v' = with_fp (Some f') v
    /\ f_pos f' = length (f_data f')
    /\ length (f_data f') = (length (f_data f) + 128)%nat.
Proof.
  intros Hfp Hend H. unfold write_header in H. cbv beta zeta in H.
  set (header := take _ _ ++ replicate _ 0) in H.
  assert (Hh : length header = 124%nat).
  { subst header. rewrite length_app, length_take, length_replicate.
    unfold HEADER_SIZE. lia. }
  bind_inv H n1 v1 Hm1.
  pose proof (fwrite_count _ _ _ _ _ _ _ Hfp Hm1) as Hn1.
  destruct (fwrite_open _ _ _ _ _ _ _ Hfp Hm1) as [f1 Hv1].
  bind_inv H n2 v2 Hm2.
  assert (Hfp1 : _fp v1 = Some f1) by (by subst v1).
  pose proof (fwrite_count _ _ _ _ _ _ _ Hfp1 Hm2) as Hn2.
  destruct (fwrite_open _ _ _ _ _ _ _ Hfp1 Hm2) as [f2 Hv2].
  bind_inv H n3 v3 Hm3.
  assert (Hfp2 : _fp v2 = Some f2) by (by subst v2).
  pose proof (fwrite_count _ _ _ _ _ _ _ Hfp2 Hm3) as Hn3.
  apply mret_Returns in H. destruct H as [Hnum ->].
  unfold HEADER_SIZE in *.
  rewrite (to_int_small n1) in Hnum by lia.
  rewrite (to_size_t_small32 dm (n1 + n2)) in Hnum by lia.
  rewrite (to_int_small (n1 + n2)) in Hnum by lia.
  rewrite (to_size_t_small32 dm (n1 + n2 + n3)) in Hnum by lia.
  rewrite (to_int_small (n1 + n2 + n3)) in Hnum by lia.
  symmetry in Hnum. apply Z.eqb_eq in Hnum.
  clear Hv1 Hv2 f1 f2 Hfp1 Hfp2.
  destruct (fwrite_append _ _ _ _ _ _ _ Hfp Hend Hm1 ltac:(lia) ltac:(lia) ltac:(lia))
    as (f1 & -> & He1 & Hl1).
  destruct (fwrite_append _ _ _ _ _ _ _ (eq_refl : _fp (with_fp (Some f1) v) = Some f1)
              He1 Hm2 ltac:(lia) ltac:(simpl; lia)
              ltac:(rewrite length_le_bytes; lia))
    as (f2 & -> & He2 & Hl2).
  destruct (fwrite_append _ _ _ _ _ _ _ (eq_refl : _fp (with_fp (Some f2) _) = Some f2)
              He2 Hm3 ltac:(lia) ltac:(simpl; lia)
              ltac:(rewrite length_le_bytes; lia))
    as (f3 & -> & He3 & Hl3).
  exists f3. split; [done|]. split; [done|].
  rewrite Hl3, Hl2, Hl1. simpl. lia.
Qed.

(** ** The metadata block *)

Lemma length_int_array dm xs : length (int_array dm xs) = (4 * length xs)%nat.
Proof.
  unfold int_array. induction xs as [|x xs IH]; [done|].
  cbn [map concat]. rewrite length_app, IH, length_le_bytes. simpl. lia.
Qed.

Ltac append_side :=
  first [ assumption | lia | simpl; lia | rewrite length_int_array; simpl; lia
        | rewrite length_bytes_of_string; simpl; lia ].

(** One guarded [fwrite] of the preamble, with the stream at the end of
    the file. *)
Ltac append H f1 He Hl :=
  let n := fresh "n" in
  let v1 := fresh "v" in
  let Hm := fresh "Hm" in
  let Hv := fresh "Hv" in
  bind_inv H n v1 Hm; guard_true H;
  match type of Hm with
  | fwrite _ _ _ (with_fp (Some ?g) ?w) = _ =>
    match goal with
    | Hend : f_pos g = length (f_data g) |- _ =>
      edestruct (fwrite_append _ _ _ _ g _ _
                   (eq_refl : _fp (with_fp (Some g) w) = Some g) Hend Hm)
        as (f1 & Hv & He & Hl); [append_side | append_side | append_side |];
      subst v1
    end
  end.

Lemma write_meta_data_true dm v f v' :
  _fp v = Some f -> f_pos f = length (f_data f) -> length (f_data f) = 128%nat ->
  (String.length (_name v) <= PATH_MAX)%nat ->
  write_meta_data dm v = Returns (true, v') ->
  exists f',
    is_Some (miType_of dm (var_T v))
    /\ v' = with_re_tag_offset (data_start v - 4)
              (with_fp (Some f') (with_mat_tag_size (48 + round8 (name_size v)) v))
    /\ f_pos f' = length (f_data f')
    /\ Z.of_nat (length (f_data f')) = data_start v
    /\ data_start v <= LONG_MAX dm.
Proof.
  intros Hfp Hend Hlen Hname H. unfold write_meta_data in H. cbv beta zeta in H.
  unfold PATH_MAX in Hname.
  unfold ARRAY_FLAGS_SIZE, DIM_ARRAY_SIZE, ARRAY_NAME_TAG_SIZE, RE_TAG_SIZE in H.
  fold (name_size v) in H.
  assert (Hsize : 0 <= name_size v <= 4096) by (unfold name_size; lia).
  set (size := name_size v) in *.
  pose proof (round8_spec size) as [Hr8 Hr8'].
  assert (Hbytes0 : to_int (to_size_t dm (16 + 16 + 8 + size + 8)) = 48 + size).
  { rewrite to_size_t_small32 by lia. rewrite to_int_small by lia. lia. }
  rewrite Hbytes0 in H.
  assert (Hbytes :
    (if size mod 8 =? 0 then 48 + size
     else to_int (to_size_t dm (48 + size + (8 - size mod 8)))) = 48 + round8 size).
  { unfold round8. destruct (Z.eqb_spec (size mod 8) 0) as [E|E]; [done|].
    rewrite to_size_t_small32 by zlia. rewrite to_int_small by zlia. lia. }
  rewrite Hbytes in H.
  rewrite (to_size_t_small32 dm (48 + round8 size)) in H by lia.
  assert (Hrem : to_int (size mod 8) = size mod 8) by (apply to_int_small; zlia).
  rewrite Hrem in H.
  (* the matrix tag and the array flags tag *)
  bind_inv H u v1 Ha. unfold assign in Ha. injection Ha as _ <-.
  bind_inv H n v2 Hm. guard_true H.
  edestruct (fwrite_append _ _ _ _ f _ _
               (Hfp : _fp (with_mat_tag_size (48 + round8 size) v) = Some f) Hend Hm)
    as (f1 & Hv & He1 & Hl1); [append_side | append_side | append_side |].
  subst v2. clear Hm E n.
  destruct (miType_of dm (var_T v)) as [miType|];
    [| apply mret_Returns in H; destruct H; discriminate].
  cbv beta iota in H.
  (* array flags, dimensions, name tag, name *)
  append H f2 He2 Hl2.
  append H f3 He3 Hl3.
  append H f4 He4 Hl4.
  append H f5 He5 Hl5.
  (* padding of the name *)
  bind_inv H padded v6 Hpad.
  destruct padded; cbn [negb] in H;
    [| apply mret_Returns in H; destruct H; discriminate].
  assert (Hpadded : exists f6, v6 = with_fp (Some f6) (with_mat_tag_size (48 + round8 size) v)
            /\ f_pos f6 = length (f_data f6)
            /\ Z.of_nat (length (f_data f6)) = 176 + round8 size).
  { destruct (Z.eqb_spec (size mod 8) 0) as [Ez|Enz]; cbn [negb] in Hpad.
    - apply mret_Returns in Hpad. destruct Hpad as [_ ->].
      exists f5. split; [done|]. split; [done|].
      rewrite (round8_aligned size Ez). simpl in *. unfold size, name_size. lia.
    - bind_inv Hpad n' v7 Hm'. apply mret_Returns in Hpad. destruct Hpad as [Hn ->].
      symmetry in Hn. apply Z.eqb_eq in Hn.
      rewrite to_size_t_small32 in Hn by zlia.
      edestruct (fwrite_append _ _ _ _ f5 _ _
                   (eq_refl : _fp (with_fp (Some f5) _) = Some f5) He5 Hm')
        as (f6 & Hv & He6 & Hl6); [zlia | lia | simpl; zlia |].
      exists f6. split; [done|]. split; [done|].
      assert (round8 size = size + (8 - size mod 8)).
      { unfold round8. destruct (Z.eqb_spec (size mod 8) 0); [lia|done]. }
      simpl in *. unfold size, name_size in *. zlia. }
  destruct Hpadded as (f6 & -> & He6 & Hl6). clear Hpad.
  (* the real part tag *)
  append H f7 He7 Hl7.
  (* its offset *)
  bind_inv H pos v8 Hm'. unfold ftell in Hm'. stream_next Hm' f8. subst v8.
  bind_inv H u1 v9 Ha. unfold assign in Ha. injection Ha as _ <-.
  destruct (Z.eqb_spec (to_int pos) (-1)) as [Epos|Epos];
    [apply mret_Returns in H; destruct H; discriminate|].
  assert (Hpos : pos <> -1) by (intros ->; by apply Epos).
  rewrite Hr in Hpos. destruct (FILE_ftell_pos dm f7 Hpos) as [Hp Hmax].
  destruct (FILE_ftell_data dm f7) as (Hd8 & Hp8 & _). fold f8 in Hd8, Hp8.
  rewrite <- Hr in Hp.
  assert (Hstart : Z.of_nat (length (f_data f7)) = data_start v).
  { rewrite Hl7. unfold data_start. fold size. simpl. lia. }
  assert (Hposv : pos = data_start v) by (rewrite Hp, He7; done).
  bind_inv H u2 v10 Ha. unfold assign in Ha. injection Ha as _ <-.
  apply mret_Returns in H. destruct H as [_ ->].
  exists f8. split; [by eexists|].
  assert (Hoff : to_int (to_size_t dm (to_int pos - Z.of_nat 4)) = data_start v - 4).
  { rewrite Hposv. unfold data_start. fold size.
    rewrite (to_int_small (184 + round8 size)) by lia.
    rewrite to_size_t_small32 by lia. rewrite to_int_small by lia. lia. }
  rewrite Hoff. split; [done|].
  rewrite Hd8, Hp8. split; [done|]. split; [done|]. lia.
Qed.

(** ** Calls that cannot go wrong on an open stream *)

Section Safe.

Lemma keeps_refl v : is_Some (_fp v) -> keeps v v.
Proof. unfold keeps. intros. repeat split; done. Qed.

Lemma keeps_trans v v1 v2 : keeps v v1 -> keeps v1 v2 -> keeps v v2.
Proof. unfold keeps. intuition congruence. Qed.

Lemma safe_at_ret {A} (a : A) v : safe_at (mret a) v.
Proof. intros Hv. exists a, v. split; [done|]. by apply keeps_refl. Qed.

Lemma safe_at_bind {A B} (m : M A) (k : A -> M B) v :
  safe_at m v -> (forall a v1, keeps v v1 -> safe_at (k a) v1) ->
  safe_at (m ≫= k) v.
Proof.
  intros Hm Hk Hv. destruct (Hm Hv) as (a & v1 & Em & Hk1).
  destruct (Hk a v1 Hk1) as (b & v2 & Ek & Hk2); [apply Hk1|].
  exists b, v2. split; [|by eapply keeps_trans].
  by rewrite (bind_Returns_l _ _ _ _ _ Em).
Qed.

Lemma safe_at_on_stream {A} (call : FILE -> A * FILE) v : safe_at (on_stream call) v.
Proof.
  intros [f Hf]. exists (call f).1, (with_fp (Some (call f).2) v).
  split; [by apply on_stream_open|]. unfold keeps. cbn. repeat split; done.
Qed.

Lemma safe_at_assign_size s v : safe_at (assign (with_mat_tag_size s)) v.
Proof. intros Hv. exists tt, (with_mat_tag_size s v). split; [done|]. unfold keeps. cbn. repeat split; done. Qed.

Lemma safe_at_assign_re o v : safe_at (assign (with_re_tag_offset o)) v.
Proof. intros Hv. exists tt, (with_re_tag_offset o v). split; [done|]. unfold keeps. cbn. repeat split; done. Qed.

End Safe.

(** Steps through a computation that only calls stdio on the open stream. *)
Ltac safe_step :=
  lazymatch goal with
  | |- safe_at (mbind _ _) _ => apply safe_at_bind; [| intros ? ? _]
  | |- safe_at (mret _) _ => apply safe_at_ret
  | |- safe_at (fwrite _ _ _) _ => apply safe_at_on_stream
  | |- safe_at (fseek _) _ => apply safe_at_on_stream
  | |- safe_at (ftell _) _ => apply safe_at_on_stream
  | |- safe_at (assign (with_mat_tag_size _)) _ => apply safe_at_assign_size
  | |- safe_at (assign (with_re_tag_offset _)) _ => apply safe_at_assign_re
  | |- safe_at (if ?c then _ else _) _ => destruct c
  | |- safe_at (match ?c with Some _ => _ | None => _ end) _ => destruct c
  end.

(** Turns a member function applied to its object into [safe_at]. *)
Ltac safe_body :=
  cbv beta zeta;
  lazymatch goal with
  | |- is_Some (_fp ?v) -> exists a v1, ?m ?v = Returns (a, v1) /\ keeps ?v v1 =>
      change (safe_at m v)
  end.

Section SafeMethods.

Lemma write_header_safe dm env v : safe_at (write_header dm env) v.
Proof. unfold safe_at, write_header. safe_body. repeat safe_step. Qed.

Lemma write_meta_data_safe dm v : safe_at (write_meta_data dm) v.
Proof. unfold safe_at, write_meta_data. safe_body. repeat safe_step. Qed.

Lemma update_counters_safe dm v : safe_at (update_counters dm) v.
Proof. unfold safe_at, update_counters. safe_body. repeat safe_step. Qed.

End SafeMethods.

(** ** The constructor *)

Section Constructor.

Variable dm : DataModel.
Variable env : Env.
Variable T : CType.
Variable path name : string.

Lemma fopen_Some p f :
  fopen env p = Some f ->
  f_data f = [] /\ f_pos f = 0%nat /\ (String.length p <= PATH_MAX)%nat.
Proof.
  unfold fopen. destruct (Nat.ltb_spec PATH_MAX (String.length p)); [done|].
  destruct (fs_open env p); [|done]. intros [= <-]. done.
Qed.

Lemma Variable_ctor_unfold :
  Variable_ctor dm env T path name =
  match Variable_ctor_body dm env
          (initialised T name (fopen env (path +:+ separator env +:+ name +:+ ".mat"))) with
  | Returns (_, v) => Returns v
  | Undefined => Undefined
  end.
Proof. done. Qed.

(** [fopen] failed: the first [fwrite] of [write_header] is on a null
    stream. *)
Lemma Variable_ctor_null :
  fopen env (path +:+ separator env +:+ name +:+ ".mat") = None ->
  Variable_ctor dm env T path name = Undefined.
Proof.
  intros Hopen. rewrite Variable_ctor_unfold, Hopen.
  unfold Variable_ctor_body.
  rewrite bind_Undefined_l; [done|].
  unfold write_header. cbv beta zeta.
  rewrite bind_Undefined_l; [done|].
  by apply on_stream_null.
Qed.

(** [fopen] succeeded: the constructor returns, whatever the stream does. *)
Lemma Variable_ctor_open f0 :
  fopen env (path +:+ separator env +:+ name +:+ ".mat") = Some f0 ->
  exists v, Variable_ctor dm env T path name = Returns v
    /\ var_T v = T /\ _name v = name /\ _count v = 0
    /\ _dim_tag_offset v = 0xA4 /\ _mat_tag_offset v = 0x84.
Proof.
  intros Hopen. rewrite Variable_ctor_unfold, Hopen.
  set (this := initialised T name (Some f0)).
  unfold Variable_ctor_body.
  destruct (write_header_safe dm env this) as (h & v1 & E1 & K1); [by eexists|].
  rewrite (bind_Returns_l _ _ _ _ _ E1).
  assert (Hok : exists ok v2,
    (if h then write_meta_data dm else mret false) v1 = Returns (ok, v2) /\ keeps v1 v2).
  { destruct h; [apply write_meta_data_safe | apply safe_at_ret]; apply K1. }
  destruct Hok as (ok & v2 & E2 & K2).
  rewrite (bind_Returns_l _ _ _ _ _ E2).
  pose proof (keeps_trans _ _ _ K1 K2) as (HT & Hn & Hc & Hd & Hm & Hfp).
  destruct ok; cbn [negb].
  - exists v2. split; [done|]. by rewrite HT, Hn, Hc, Hd, Hm.
  - destruct Hfp as [f2 Hf2].
    unfold fclose. rewrite (bind_Returns_l _ _ _ _ _ (on_stream_open _ _ _ Hf2)).
    cbn [fst snd]. unfold assign.
    eexists. split; [done|]. cbn. by rewrite HT, Hn, Hc, Hd, Hm.
Qed.

(** The body of the constructor on an object whose stream is open on an
    empty file: if it leaves the stream open, the whole preamble is there. *)
Lemma Variable_ctor_body_ready this f0 u v :
  _fp this = Some f0 -> f_data f0 = [] -> f_pos f0 = 0%nat ->
  (String.length (_name this) <= PATH_MAX)%nat ->
  _count this = 0 -> _mat_tag_offset this = 0x84 -> _dim_tag_offset this = 0xA4 ->
  Variable_ctor_body dm env this = Returns (u, v) -> is_Some (_fp v) ->
  streaming dm v 0 /\ var_T v = var_T this /\ _name v = _name this
  /\ is_Some (miType_of dm (var_T this)).
Proof.
  intros Hfp Hd0 Hp0 Hname Hcount Hmat Hdim Hbody Hready.
  unfold Variable_ctor_body in Hbody.
  bind_inv Hbody h v1 Hh. bind_inv Hbody ok v2 Hok.
  destruct ok; cbn [negb] in Hbody.
  2:{ bind_inv Hbody r v3 Hc. unfold assign in Hbody. injection Hbody as _ <-.
      cbn in Hready. by destruct Hready. }
  apply mret_Returns in Hbody as [_ ->].
  destruct h; [| apply mret_Returns in Hok; destruct Hok; discriminate].
  apply (write_header_true dm env this f0) in Hh; [|done|by rewrite Hd0, Hp0].
  destruct Hh as (f1 & -> & He1 & Hl1).
  apply (write_meta_data_true dm _ f1) in Hok; [|done|done|by rewrite Hl1, Hd0|done].
  destruct Hok as (f2 & Hk & -> & He2 & Hl2 & Hmax).
  split; [|by repeat split].
  constructor; cbn; try done.
  exists f2. split; [done|].
  change (data_start (with_re_tag_offset _ _)) with (data_start this).
  rewrite He2, Hl2.
  change (data_start (with_fp _ _)) with (data_start this) in *.
  rewrite Z.mul_0_l. change (round8 0) with 0. lia.
Qed.

(** A constructor that left the stream open wrote the whole preamble. *)
Lemma Variable_ctor_ready v :
  Variable_ctor dm env T path name = Returns v -> is_Some (_fp v) ->
  streaming dm v 0 /\ var_T v = T /\ _name v = name /\ is_Some (miType_of dm T).
Proof.
  rewrite Variable_ctor_unfold. intros H Hready.
  destruct (fopen env _) as [f0|] eqn:Hopen.
  2:{ pose proof (Variable_ctor_null Hopen) as Hn.
      rewrite Variable_ctor_unfold, Hopen in Hn. by rewrite Hn in H. }
  apply fopen_Some in Hopen as (Hd0 & Hp0 & Hpath).
  destruct (Variable_ctor_body dm env (initialised T name (Some f0))) as [[u v9]|] eqn:Hbody;
    [|done].
  injection H as ->.
  assert (Hname : (String.length name <= PATH_MAX)%nat).
  { rewrite !string_length_append in Hpath. lia. }
  exact (Variable_ctor_body_ready (initialised T name (Some f0)) f0 u v
           eq_refl Hd0 Hp0 Hname eq_refl eq_refl eq_refl Hbody Hready).
Qed.

End Constructor.

(** ** Runs of writes *)

Section Runs.

Lemma wrote_streaming dm v0 n v :
  streaming dm v0 0 -> wrote dm v0 n v ->
  streaming dm v (Z.of_nat n)
  /\ ((1 <= n)%nat -> counters dm v (Z.of_nat n))
  /\ _name v = _name v0 /\ var_T v = var_T v0.
Proof.
  intros H0 Hw. induction Hw as [|n v x v' Hw IH Hx].
  - split; [done|]. split; [lia|done].
  - destruct IH as (Hs & _ & Hn & HT).
    destruct (streaming_write dm v (Z.of_nat n) x v' Hs Hx) as (Hs' & Hc' & Hn' & HT').
    replace (Z.of_nat (S n)) with (Z.of_nat n + 1) by lia.
    split; [done|]. split; [done|]. split; congruence.
Qed.

Lemma wrote_not_ready dm v0 n v :
  _fp v0 = None -> wrote dm v0 n v -> n = 0%nat /\ v = v0.
Proof.
  intros Hnull Hw. induction Hw as [|n v x v' Hw IH Hx]; [done|].
  destruct IH as [-> ->]. rewrite (Variable_write_null dm x v0 Hnull) in Hx. done.
Qed.

Lemma next_event_faultless f : f_io f = [] -> next_event f = IoOk.
Proof. unfold next_event. by intros ->. Qed.

Lemma ftell_run dm v f :
  _fp v = Some f -> f_io f = [] -> Z.of_nat (f_pos f) <= LONG_MAX dm ->
  ftell dm v = Returns (Z.of_nat (f_pos f), with_fp (Some (mkFILE (f_data f) (f_pos f) [])) v).
Proof.
  intros Hfp Hio Hmax. unfold ftell. rewrite (on_stream_open _ _ _ Hfp).
  unfold FILE_ftell. rewrite (next_event_faultless f Hio), Hio.
  destruct (Z.ltb_spec (LONG_MAX dm) (Z.of_nat (f_pos f))); [lia|done].
Qed.

Lemma fseek_run off v f :
  _fp v = Some f -> f_io f = [] -> 0 <= off ->
  fseek off v = Returns (0, with_fp (Some (mkFILE (f_data f) (Z.to_nat off) [])) v).
Proof.
  intros Hfp Hio Hoff. unfold fseek. rewrite (on_stream_open _ _ _ Hfp).
  unfold FILE_fseek. rewrite (next_event_faultless f Hio), Hio.
  destruct (Z.ltb_spec off 0); [lia|done].
Qed.

Lemma fwrite_run buf size n v f :
  _fp v = Some f -> f_io f = [] -> (0 < size)%nat -> (size * n = length buf)%nat ->
  fwrite buf size n v
  = Returns (Z.of_nat n,
             with_fp (Some (mkFILE (write_at (f_data f) (f_pos f) buf)
                                   (f_pos f + length buf) [])) v).
Proof.
  intros Hfp Hio Hs Hb. unfold fwrite. rewrite (on_stream_open _ _ _ Hfp).
  unfold FILE_fwrite. rewrite (next_event_faultless f Hio), Hio. cbn [accepted fst snd tail].
  rewrite (take_ge buf) by lia. rewrite (take_ge buf) by lia.
  destruct (Nat.eqb_spec size 0) as [->|_]; [lia|].
  rewrite <- Hb, Nat.mul_comm, Nat.div_mul by lia. done.
Qed.

End Runs.

(** ** Streams with no failure ahead *)

(** Running the next stdio call of a sequence on a stream with no failure
    ahead. *)
Ltac run_fseek :=
  lazymatch goal with
  | |- context [ mbind _ (fseek ?off) (with_fp (Some ?g) ?w) ] =>
      rewrite (bind_Returns_l _ _ _ _ _
                 (fseek_run off (with_fp (Some g) w) g eq_refl eq_refl ltac:(lia)));
      cbv beta; change (0 =? 0) with true; cbn [negb f_data f_pos]
  end.

Ltac run_fwrite :=
  lazymatch goal with
  | |- context [ mbind _ (fwrite ?buf ?size ?n) (with_fp (Some ?g) ?w) ] =>
      rewrite (bind_Returns_l _ _ _ _ _
                 (fwrite_run buf size n (with_fp (Some g) w) g eq_refl eq_refl
                    ltac:(lia) ltac:(rewrite ?length_le_bytes, ?length_replicate; lia)));
      cbv beta; cbn [f_data f_pos]
  end.

Lemma update_counters_run dm v f :
  _fp v = Some f -> f_io f = [] -> Z.of_nat (f_pos f) <= LONG_MAX dm ->
  0 <= _mat_tag_offset v -> 0 <= _dim_tag_offset v -> 0 <= _re_tag_offset v ->
  exists f', update_counters dm v = Returns (true, with_fp (Some f') v) /\ f_io f' = [].
Proof.
  intros Hfp Hio Hmax Hmat Hdim Hre.
  pose proof (sizeof_size_t_bounds dm) as Hsz.
  unfold update_counters. cbv beta zeta.
  set (sizeof_T := Z.of_nat (sizeof dm (var_T v))).
  set (bytes0 := to_size_t dm (_mat_tag_size v + to_size_t dm (_count v * sizeof_T))).
  set (rem := bytes0 mod 8).
  assert (Hrem : 0 <= rem < 8) by (subst rem; apply Z.mod_pos_bound; lia).
  rewrite (bind_Returns_l _ _ _ _ _ (ftell_run dm v f Hfp Hio Hmax)). cbv beta.
  destruct (Z.eqb_spec (Z.of_nat (f_pos f)) (-1)) as [|_]; [lia|].
  run_fseek. run_fwrite. change (Z.of_nat 1 =? 1) with true. cbn [negb].
  run_fseek. run_fwrite. change (Z.of_nat 1 =? 1) with true. cbn [negb].
  run_fseek. run_fwrite. change (Z.of_nat 1 =? 1) with true. cbn [negb].
  run_fseek.
  destruct (Z.eqb_spec rem 0) as [Ez|Enz]; cbn [negb].
  - eexists. split; [reflexivity|done].
  - change [0; 0; 0; 0; 0; 0; 0; 0] with (replicate 8 0).
    lazymatch goal with
    | |- context [ mbind _ (fwrite ?buf ?size ?n) (with_fp (Some ?g) ?w) ] =>
      pose proof (on_stream_open (FILE_fwrite buf size n) (with_fp (Some g) w) g eq_refl)
        as Hw;
      pose proof (FILE_fwrite_ok buf size n g eq_refl ltac:(lia)
                    ltac:(rewrite length_replicate; lia)) as Hn
    end.
    unfold fwrite at 1. rewrite (bind_Returns_l _ _ _ _ _ Hw). cbv beta.
    rewrite Hn, Z2Nat.id, Z.eqb_refl by lia. cbn [negb].
    lazymatch goal with
    | |- context [ mbind _ (fseek ?off) (with_fp (Some ?g) ?w) ] =>
      pose proof (on_stream_open (FILE_fseek off) (with_fp (Some g) w) g eq_refl) as Hs;
      pose proof (FILE_fseek_ok off g eq_refl ltac:(lia)) as Hr
    end.
    unfold fseek at 1. rewrite (bind_Returns_l _ _ _ _ _ Hs). cbv beta.
    rewrite Hr. cbn [negb Z.eqb].
    eexists. split; [reflexivity|]. by rewrite FILE_fseek_io.
Qed.

Lemma Variable_write_run dm x v f :
  _fp v = Some f -> f_io f = [] ->
  Z.of_nat (f_pos f + sizeof dm (var_T v)) <= LONG_MAX dm ->
  0 <= _mat_tag_offset v -> 0 <= _dim_tag_offset v -> 0 <= _re_tag_offset v ->
  exists v', Variable_write dm x v = Returns (true, v') /\ faultless v'.
Proof.
  intros Hfp Hio Hmax Hmat Hdim Hre.
  pose proof (sizeof_bounds dm (var_T v)) as Hsz.
  unfold Variable_write. rewrite Hfp. cbv beta zeta.
  rewrite (bind_Returns_l _ _ _ _ _
             (fwrite_run (le_bytes (sizeof dm (var_T v)) x) (sizeof dm (var_T v)) 1 v f
                Hfp Hio ltac:(lia) ltac:(rewrite length_le_bytes; lia))).
  cbv beta. unfold assign at 1.
  unfold mbind at 1, M_bind at 1. cbv beta iota.
  change (Z.of_nat 1 =? 1) with true. cbv iota.
  lazymatch goal with
  | |- context [ update_counters dm (with_count ?c (with_fp (Some ?g) ?w)) ] =>
      destruct (update_counters_run dm (with_count c (with_fp (Some g) w)) g
                  eq_refl eq_refl) as (f' & Hrun & Hio');
      [cbn; rewrite ?length_le_bytes; done | done | done | done |]
  end.
  rewrite Hrun. eexists. split; [reflexivity|]. exists f'. by split.
Qed.

(** ** Counts after a run *)

Section LongRuns.

Lemma streaming_offsets dm v c :
  streaming dm v c ->
  0 <= _mat_tag_offset v /\ 0 <= _dim_tag_offset v /\ 0 <= _re_tag_offset v.
Proof.
  intros [_ _ Hmat Hdim _ Hre _]. rewrite Hmat, Hdim, Hre.
  unfold data_start. pose proof (round8_spec (name_size v)). unfold name_size in *. lia.
Qed.

(** On a stream with no failure ahead every write succeeds while the file
    position fits a [long]. *)
Lemma runs_exist dm v0 n :
  streaming dm v0 0 -> faultless v0 ->
  data_start v0 + Z.of_nat n * Z.of_nat (sizeof dm (var_T v0)) <= LONG_MAX dm ->
  exists v, wrote dm v0 n v /\ faultless v.
Proof.
  intros H0 Hf0. induction n as [|n IH]; intros Hmax.
  - exists v0. split; [constructor|done].
  - destruct IH as (v & Hw & f & Hfp & Hio); [lia|].
    destruct (wrote_streaming dm v0 n v H0 Hw) as (Hs & _ & Hname & HT).
    destruct (streaming_offsets dm v _ Hs) as (Hmat & Hdim & Hre).
    destruct Hs as [_ _ _ _ _ _ (f' & Hfp' & Hpos & _ & _)].
    rewrite Hfp in Hfp'. injection Hfp' as <-.
    assert (Hstart : data_start v = data_start v0)
      by (unfold data_start, name_size; by rewrite Hname).
    destruct (Variable_write_run dm 0 v f Hfp Hio) as (v' & Hx & Hf'); try done.
    { rewrite Nat2Z.inj_add, Hpos, Hstart, HT. lia. }
    exists v'. split; [|done]. by apply (wrote_S dm v0 n v 0 v').
Qed.

End LongRuns.

Section Counts.

Lemma write_all_wrote dm xs v0 v :
  write_all dm xs v0 = Returns (true, v) -> wrote dm v0 (length xs) v.
Proof.
  enough (Hgen : forall u n, wrote dm v0 n u -> write_all dm xs u = Returns (true, v) ->
                             wrote dm v0 (n + length xs) v).
  { intros H. apply (Hgen v0 0%nat); [constructor|done]. }
  induction xs as [|x xs IH]; intros u n Hu H.
  - injection H as <-. by rewrite Nat.add_0_r.
  - cbn [write_all] in H.
    destruct (Variable_write dm x u) as [[[] u']|] eqn:Hx; try done.
    cbn [length]. replace (n + S (length xs))%nat with (S n + length xs)%nat by lia.
    apply (IH u'); [|done]. by apply (wrote_S dm v0 n u x u').
Qed.

(** The three patched fields after [n >= 1] successful writes to a newly
    constructed object, as 32-bit values, and the bound the last [ftell]
    puts on the payload. *)
Lemma wrote_fields dm env T path name v0 n v :
  Variable_ctor dm env T path name = Returns v0 ->
  wrote dm v0 n v -> (1 <= n)%nat ->
  exists f, _fp v = Some f
    /\ _mat_tag_offset v = 0x84 /\ _dim_tag_offset v = 0xA4
    /\ _re_tag_offset v = 180 + round8 (Z.of_nat (String.length name))
    /\ field32 (f_data f) 0x84
       = (48 + round8 (Z.of_nat (String.length name))
          + round8 (Z.of_nat n * Z.of_nat (sizeof dm T))) mod 2 ^ 32
    /\ field32 (f_data f) 0xA4 = Z.of_nat n mod 2 ^ 32
    /\ field32 (f_data f) (_re_tag_offset v)
       = (Z.of_nat n * Z.of_nat (sizeof dm T)) mod 2 ^ 32
    /\ 184 + Z.of_nat n * Z.of_nat (sizeof dm T) <= LONG_MAX dm.
Proof.
  intros Hc Hw Hn.
  destruct (_fp v0) as [f0|] eqn:Hf0.
  2:{ destruct (wrote_not_ready dm v0 n v Hf0 Hw) as [-> _]. lia. }
  destruct (Variable_ctor_ready dm env T path name v0 Hc) as (Hs0 & HT & Hname & _);
    [by eexists|].
  destruct (wrote_streaming dm v0 n v Hs0 Hw) as (Hs & Hcnt & Hnv & HTv).
  destruct (Hcnt Hn) as (f & Hfp & Hmat & Hdim & Hre).
  destruct Hs as [_ _ Hm Hd _ Hr (f' & Hfp' & Hpos & _ & Hmax)].
  rewrite Hfp in Hfp'. injection Hfp' as <-.
  unfold data_start, name_size in *. rewrite Hnv, Hname, HTv, HT in *.
  change (wrap 4) with (fun x => x mod 2 ^ 32) in *. cbv beta in *.
  pose proof (round8_spec (Z.of_nat (String.length name))).
  exists f. repeat split; try done; lia.
Qed.

(** C5 (amended): after [n >= 1] successful writes to a newly constructed
    encoder the dimension field (at 0xA4) holds [n] and the length field of
    the real part (the four bytes before the payload) holds
    [n * sizeof(T)], each reduced modulo [2^32] (the fields are 32 bits
    wide); the values are exact when [n * sizeof(T) < 2^32], which is always
    so when [long] has 32 bits. *)
Theorem C5_counts_after_writes dm env T path name v0 n v :
  Variable_ctor dm env T path name = Returns v0 ->
  wrote dm v0 n v -> (1 <= n)%nat ->
  exists f, _fp v = Some f
    /\ _dim_tag_offset v = 0xA4
    /\ _re_tag_offset v = 180 + round8 (Z.of_nat (String.length name))
    /\ field32 (f_data f) (_dim_tag_offset v) = Z.of_nat n mod 2 ^ 32
    /\ field32 (f_data f) (_re_tag_offset v)
       = (Z.of_nat n * Z.of_nat (sizeof dm T)) mod 2 ^ 32
    /\ (Z.of_nat n * Z.of_nat (sizeof dm T) < 2 ^ 32 ->
        field32 (f_data f) (_dim_tag_offset v) = Z.of_nat n
        /\ field32 (f_data f) (_re_tag_offset v) = Z.of_nat n * Z.of_nat (sizeof dm T))
    /\ (dm <> LP64 -> Z.of_nat n * Z.of_nat (sizeof dm T) < 2 ^ 32).
Proof.
  intros Hc Hw Hn.
  destruct (wrote_fields dm env T path name v0 n v Hc Hw Hn)
    as (f & Hfp & _ & Hd & Hr & _ & Hdim & Hre & Hmax).
  pose proof (sizeof_bounds dm T) as Hsz.
  exists f. rewrite Hd. split; [done|]. split; [done|]. split; [done|].
  split; [done|]. split; [done|]. split.
  - intros Hsmall. rewrite Hdim, Hre. rewrite !Z.mod_small; [done| nia | nia].
  - intros Hdm. assert (LONG_MAX dm = 2 ^ 31 - 1) by (by destruct dm). lia.
Qed.

(** C5, a witness: ["ints"], four elements. *)
Lemma C5_counts_after_writes_witness :
  exists f, _fp ints_4 = Some f
    /\ _dim_tag_offset ints_4 = 0xA4
    /\ _re_tag_offset ints_4 = 180 + round8 (Z.of_nat (String.length "ints"))
    /\ field32 (f_data f) (_dim_tag_offset ints_4) = Z.of_nat 4 mod 2 ^ 32
    /\ field32 (f_data f) (_re_tag_offset ints_4)
       = (Z.of_nat 4 * Z.of_nat (sizeof ILP32 Int)) mod 2 ^ 32
    /\ (Z.of_nat 4 * Z.of_nat (sizeof ILP32 Int) < 2 ^ 32 ->
        field32 (f_data f) (_dim_tag_offset ints_4) = Z.of_nat 4
        /\ field32 (f_data f) (_re_tag_offset ints_4)
           = Z.of_nat 4 * Z.of_nat (sizeof ILP32 Int))
    /\ (ILP32 <> LP64 -> Z.of_nat 4 * Z.of_nat (sizeof ILP32 Int) < 2 ^ 32).
Proof.
  assert (Hc : Variable_ctor ILP32 willing Int "out" "ints" = Returns ints_0)
    by (vm_compute; reflexivity).
  assert (Hw : wrote ILP32 ints_0 4 ints_4)
    by (apply (write_all_wrote ILP32 [-1; 0; 1; 2]); vm_compute; reflexivity).
  exact (C5_counts_after_writes ILP32 willing Int "out" "ints" ints_0 4 ints_4
           Hc Hw ltac:(lia)).
Defined.

End Counts.

(** ** Lengths after a run *)

Section Lengths.

(** On LP64 a run of [n] successful writes of [char]s exists for every [n]
    up to [2^32] and beyond. *)
Lemma long_run_LP64 n :
  Z.of_nat n <= 2 ^ 33 ->
  exists v0 v, Variable_ctor LP64 willing Char "out" "x" = Returns v0
    /\ wrote LP64 v0 n v.
Proof.
  intros Hn.
  assert (E : exists v0, Variable_ctor LP64 willing Char "out" "x" = Returns v0
                /\ is_Some (_fp v0) /\ faultless v0).
  { eexists. split; [vm_compute; reflexivity|].
    split; [by eexists|]. eexists. split; reflexivity. }
  destruct E as (v0 & Hc & Hready & Hfl).
  destruct (Variable_ctor_ready LP64 willing Char "out" "x" v0 Hc Hready)
    as (Hs0 & HT & Hname & _).
  destruct (runs_exist LP64 v0 n Hs0 Hfl) as (v & Hw & _).
  { unfold data_start, name_size. rewrite HT, Hname.
    change (Z.of_nat (sizeof LP64 Char)) with 1.
    change (round8 (Z.of_nat (String.length "x"))) with 8.
    change (LONG_MAX LP64) with (2 ^ 63 - 1). lia. }
  exists v0, v. split; assumption.
Qed.

(** A count of [2^32] leaves 0 in both 32-bit fields. *)
Lemma counts_wrap_LP64 n :
  Z.of_nat n = 2 ^ 32 ->
  exists v0 v f,
    Variable_ctor LP64 willing Char "out" "x" = Returns v0
    /\ wrote LP64 v0 n v
    /\ _fp v = Some f
    /\ field32 (f_data f) (_dim_tag_offset v) = 0
    /\ field32 (f_data f) (_re_tag_offset v) = 0.
Proof.
  intros Hn.
  destruct (long_run_LP64 n ltac:(lia)) as (v0 & v & Hc & Hw).
  destruct (wrote_fields LP64 willing Char "out" "x" v0 n v Hc Hw ltac:(lia))
    as (f & Hfp & _ & Hd & _ & _ & Hdim & Hre & _).
  exists v0, v, f. split; [assumption|]. split; [assumption|]. split; [assumption|].
  rewrite Hd. split.
  - rewrite Hdim, Hn. apply Z.mod_same. lia.
  - rewrite Hre, Hn. change (Z.of_nat (sizeof LP64 Char)) with 1.
    rewrite Z.mul_1_r. apply Z.mod_same. lia.
Qed.

(** C5 as stated fails on LP64: after [2^32] successful writes of [char]s
    both fields hold 0, not [2^32]. *)
Lemma C5_counterexample :
  exists v0 v f,
    Variable_ctor LP64 willing Char "out" "x" = Returns v0
    /\ wrote LP64 v0 (Z.to_nat (2 ^ 32)) v
    /\ _fp v = Some f
    /\ field32 (f_data f) (_dim_tag_offset v) = 0
    /\ field32 (f_data f) (_re_tag_offset v) = 0.
Proof.
  apply counts_wrap_LP64. apply Z2Nat.id. lia.
Qed.

(** C6 (amended): after [n >= 1] successful writes the total-length field
    of the matrix tag holds 16 + 16 + 8 + (name length rounded up to 8) + 8
    + (payload bytes rounded up to 8), reduced modulo [2^32]. *)
Theorem C6_total_length_after_writes dm env T path name v0 n v :
  Variable_ctor dm env T path name = Returns v0 ->
  wrote dm v0 n v -> (1 <= n)%nat ->
  exists f, _fp v = Some f
    /\ _mat_tag_offset v = 0x84
    /\ field32 (f_data f) (_mat_tag_offset v)
       = (16 + 16 + 8 + round8 (Z.of_nat (String.length name)) + 8
          + round8 (Z.of_nat n * Z.of_nat (sizeof dm T))) mod 2 ^ 32.
Proof.
  intros Hc Hw Hn.
  destruct (wrote_fields dm env T path name v0 n v Hc Hw Hn)
    as (f & Hfp & Hm & _ & _ & Hmat & _).
  exists f. rewrite Hm. split; [done|]. split; [done|].
  rewrite Hmat. f_equal. lia.
Qed.

(** C6, a witness: ["chars"], one element. *)
Lemma C6_total_length_after_writes_witness :
  exists f, _fp chars_1 = Some f
    /\ _mat_tag_offset chars_1 = 0x84
    /\ field32 (f_data f) (_mat_tag_offset chars_1)
       = (16 + 16 + 8 + round8 (Z.of_nat (String.length "chars")) + 8
          + round8 (Z.of_nat 1 * Z.of_nat (sizeof ILP32 Char))) mod 2 ^ 32.
Proof.
  assert (Hc : Variable_ctor ILP32 willing Char "out" "chars" = Returns chars_0)
    by (vm_compute; reflexivity).
  assert (Hw : wrote ILP32 chars_0 1 chars_1)
    by (apply (write_all_wrote ILP32 [97]); vm_compute; reflexivity).
  exact (C6_total_length_after_writes ILP32 willing Char "out" "chars" chars_0 1 chars_1
           Hc Hw ltac:(lia)).
Defined.

(** C6 as stated fails: after one [char] written to ["chars"] the field
    holds 64, and the sum with the payload term not rounded is 57. *)
Lemma C6_counterexample :
  exists f,
    Variable_ctor ILP32 willing Char "out" "chars" = Returns chars_0
    /\ Variable_write ILP32 97 chars_0 = Returns (true, chars_1)
    /\ _fp chars_1 = Some f
    /\ field32 (f_data f) 0x84 = 64
    /\ 16 + 16 + 8 + round8 (Z.of_nat (String.length "chars")) + 8
       + 1 * Z.of_nat (sizeof ILP32 Char) = 57.
Proof.
  eexists. split; [vm_compute; reflexivity|]. split; [vm_compute; reflexivity|].
  split; [reflexivity|]. split; vm_compute; reflexivity.
Qed.


End Lengths.

(** ** The registry *)

Section Registry.

Lemma to_size_t_negative dm id :
  INT_MIN <= id < 0 -> vector_max_size dm < to_size_t dm id.
Proof.
  unfold INT_MIN, to_size_t, wrap, vector_max_size. intros Hid.
  destruct dm; cbn [sizeof_size_t].
  - change (2 ^ (8 * Z.of_nat 4)) with 4294967296.
    change ((2 ^ (8 * Z.of_nat 4 - 1) - 1) / Z.of_nat 4) with 536870911. zlia.
  - change (2 ^ (8 * Z.of_nat 8)) with 18446744073709551616.
    change ((2 ^ (8 * Z.of_nat 8 - 1) - 1) / Z.of_nat 8) with 1152921504606846975. zlia.
  - change (2 ^ (8 * Z.of_nat 8)) with 18446744073709551616.
    change ((2 ^ (8 * Z.of_nat 8 - 1) - 1) / Z.of_nat 8) with 1152921504606846975. zlia.
Qed.

Lemma to_size_t_handle dm id : 0 <= id <= INT_MAX -> to_size_t dm id = id.
Proof. unfold INT_MAX. intros Hid. apply to_size_t_small32. lia. Qed.

Lemma write_id_not_ready dm T id x m :
  _is_ready m = false -> write_id dm T id x m = Returns (false, m).
Proof. unfold write_id. by intros ->. Qed.

(** A valid handle of the right type: the call is [Variable::write] on the
    object the handle names. *)
Lemma write_id_valid dm T id x m var :
  _is_ready m = true -> 0 <= id <= INT_MAX ->
  _variables m !! Z.to_nat id = Some var -> var_T var = T ->
  write_id dm T id x m =
  match Variable_write dm x var with
  | Undefined => Undefined
  | Returns (r, var') =>
      Returns (r, mkMatFile (_dir m) (_is_ready m) (_name2id m) (_running_mode m)
                            (<[Z.to_nat id := var']> (_variables m)))
  end.
Proof.
  intros Hr Hid Hl HT. unfold write_id. rewrite Hr. cbn [negb].
  rewrite (to_size_t_handle dm id Hid).
  apply lookup_lt_Some in Hl as Hlt.
  destruct (Z.leb_spec (Z.of_nat (length (_variables m))) id); [lia|].
  rewrite Hl. unfold dynamic_cast. by rewrite decide_True.
Qed.

(** A valid handle of another type: [dynamic_cast] yields a null pointer
    and the member call through it is undefined. *)
Lemma write_id_mismatch dm T id x m var :
  _is_ready m = true -> 0 <= id <= INT_MAX ->
  _variables m !! Z.to_nat id = Some var -> var_T var <> T ->
  write_id dm T id x m = Undefined.
Proof.
  intros Hr Hid Hl HT. unfold write_id. rewrite Hr. cbn [negb].
  rewrite (to_size_t_handle dm id Hid).
  apply lookup_lt_Some in Hl as Hlt.
  destruct (Z.leb_spec (Z.of_nat (length (_variables m))) id); [lia|].
  rewrite Hl. unfold dynamic_cast. by rewrite decide_False.
Qed.

Lemma create_not_ready dm env T name m :
  _is_ready m = false -> create dm env T name m = Returns (-1, m).
Proof. unfold create. by intros ->. Qed.

Lemma create_existing dm env T name m i :
  _is_ready m = true -> _name2id m !! name = Some i ->
  create dm env T name m = Returns (i, m).
Proof. unfold create. intros Hr Hn. rewrite Hr. cbn [negb]. by rewrite Hn. Qed.

Lemma create_new dm env T name m :
  _is_ready m = true -> _name2id m !! name = None ->
  create dm env T name m =
  match Variable_ctor dm env T (_dir m) name with
  | Undefined => Undefined
  | Returns var =>
      Returns (to_int (Z.of_nat (length (_variables m))), registered m name var)
  end.
Proof. unfold create, registered. intros Hr Hn. rewrite Hr. cbn [negb]. by rewrite Hn. Qed.

(** A new name whose file cannot be opened: the constructor runs on a
    null stream. *)
Lemma create_open_failure dm env T name m :
  _is_ready m = true -> _name2id m !! name = None ->
  fopen env (_dir m +:+ separator env +:+ name +:+ ".mat") = None ->
  create dm env T name m = Undefined.
Proof.
  intros Hr Hn Hopen. rewrite (create_new dm env T name m Hr Hn).
  by rewrite (Variable_ctor_null dm env T (_dir m) name Hopen).
Qed.

(** Writing through the handle of a variable whose construction failed. *)
Lemma write_id_failed_ctor dm T x m name var :
  _is_ready m = true -> Z.of_nat (length (_variables m)) <= INT_MAX ->
  var_T var = T -> _fp var = None ->
  write_id dm T (Z.of_nat (length (_variables m))) x (registered m name var)
  = Returns (false, registered m name var).
Proof.
  intros Hr Hlen HT Hnull.
  assert (Hl : _variables (registered m name var) !! Z.to_nat (Z.of_nat (length (_variables m)))
               = Some var).
  { rewrite Nat2Z.id. cbn. rewrite lookup_app_r by lia.
    by rewrite Nat.sub_diag. }
  rewrite (write_id_valid dm T (Z.of_nat (length (_variables m))) x
             (registered m name var) var Hr ltac:(lia) Hl HT).
  rewrite (Variable_write_null dm x var Hnull).
  rewrite list_insert_id by done. done.
Qed.

End Registry.

(** ** Handles and names *)

Section Handles.

(** C1: a variable registered as [int] and written as [double]: the call
    does not return [false], its behaviour is undefined; the same through
    the name. *)
Theorem C1_type_mismatch_undefined :
  exists m,
    create LP64 willing Int "ints" fresh_registry = Returns (0, m)
    /\ write_id LP64 Double 0 half m = Undefined
    /\ write_name LP64 Double "ints" half m = Undefined.
Proof.
  eexists. split; [vm_compute; reflexivity|].
  split; vm_compute; reflexivity.
Qed.

(** C10: a negative handle fails the bounds check: the call returns
    [false] and the registry, with every file it owns, is as before. *)
Theorem C10_negative_handle dm T id x m :
  INT_MIN <= id < 0 ->
  Z.of_nat (length (_variables m)) <= vector_max_size dm ->
  write_id dm T id x m = Returns (false, m).
Proof.
  intros Hid Hlen. unfold write_id.
  destruct (_is_ready m); cbn [negb]; [|done].
  pose proof (to_size_t_negative dm id Hid).
  destruct (Z.leb_spec (Z.of_nat (length (_variables m))) (to_size_t dm id)); [done|lia].
Qed.

(** C10, a witness: the sentinel -1 on a registry with one variable. *)
Lemma C10_negative_handle_witness :
  write_id LP64 Char (-1) 97 chars_registry = Returns (false, chars_registry).
Proof.
  apply C10_negative_handle.
  - unfold INT_MIN. lia.
  - vm_compute. discriminate.
Defined.

Lemma create_handle_of dm env T name m h m' :
  create dm env T name m = Returns (h, m') -> handle_of m' name h.
Proof.
  intros Hc. unfold create in Hc. unfold handle_of.
  destruct (_is_ready m) eqn:Hr; cbn [negb] in Hc.
  2:{ injection Hc as <- <-. by rewrite Hr. }
  destruct (_name2id m !! name) as [i|] eqn:Hn.
  - injection Hc as <- <-. by rewrite Hr.
  - cbv zeta in Hc.
    destruct (Variable_ctor dm env T (_dir m) name) as [var|]; [|done].
    injection Hc as <- <-.
    change (_is_ready (registered m name var)) with (_is_ready m). rewrite Hr.
    apply lookup_insert_eq.
Qed.

Lemma handle_of_create dm env T name m h :
  handle_of m name h -> create dm env T name m = Returns (h, m).
Proof.
  unfold handle_of. destruct (_is_ready m) eqn:Hr.
  - intros Hn. by apply create_existing.
  - intros ->. by apply create_not_ready.
Qed.

Lemma handle_of_write dm T name x m h :
  handle_of m name h -> write_name dm T name x m = write_id dm T h x m.
Proof.
  unfold handle_of, write_name. destruct (_is_ready m) eqn:Hr; cbn [negb].
  - by intros ->.
  - intros _. by rewrite write_id_not_ready.
Qed.

(** [write] changes neither the readiness flag nor the name table. *)
Lemma write_id_registry dm T id x m r m' :
  write_id dm T id x m = Returns (r, m') ->
  _is_ready m' = _is_ready m /\ _name2id m' = _name2id m.
Proof.
  unfold write_id. intros H.
  destruct (negb (_is_ready m)); [by injection H as <- <-|].
  destruct (_ <=? _); [by injection H as <- <-|].
  destruct (_variables m !! _) as [p|]; [|done].
  destruct (dynamic_cast T p) as [var|]; [|done].
  destruct (Variable_write dm x var) as [[r' var']|]; [|done].
  by injection H as <- <-.
Qed.

Lemma write_name_registry dm T name x m r m' :
  write_name dm T name x m = Returns (r, m') ->
  _is_ready m' = _is_ready m /\ _name2id m' = _name2id m.
Proof.
  unfold write_name. intros H.
  destruct (negb (_is_ready m)); [by injection H as <- <-|].
  destruct (_name2id m !! name) as [id|]; [|by injection H as <- <-].
  by apply write_id_registry in H.
Qed.

(** A handle on record stays on record. *)
Lemma step_handle_of dm m m' name h :
  handle_of m name h -> step dm m m' -> handle_of m' name h.
Proof.
  intros Hh [env T name' h' m1 Hc | T id x r m1 Hw | T name' x r m1 Hw].
  - unfold create in Hc. unfold handle_of in *.
    destruct (_is_ready m) eqn:Hr; cbn [negb] in Hc.
    2:{ injection Hc as <- <-. by rewrite Hr. }
    destruct (_name2id m !! name') as [i|] eqn:Hn.
    + injection Hc as <- <-. by rewrite Hr.
    + cbv zeta in Hc.
      destruct (Variable_ctor dm env T (_dir m) name') as [var|]; [|done].
      injection Hc as <- <-.
      change (_is_ready (registered m name' var)) with (_is_ready m). rewrite Hr.
      assert (name' <> name) by congruence.
      unfold registered. cbn [_name2id]. by rewrite lookup_insert_ne.
  - apply write_id_registry in Hw as [Hr Hn]. unfold handle_of in *.
    by rewrite Hr, Hn.
  - apply write_name_registry in Hw as [Hr Hn]. unfold handle_of in *.
    by rewrite Hr, Hn.
Qed.

Lemma later_handle_of dm m m' name h :
  handle_of m name h -> rtc (step dm) m m' -> handle_of m' name h.
Proof.
  intros Hh Hl. induction Hl as [|m m1 m2 Hs _ IH]; [done|].
  apply IH. by apply (step_handle_of dm m m1).
Qed.

(** C8: once [create] has returned a handle for a name, then in every later
    state of the registry registering the name again (with any type)
    returns the same handle and leaves the registry as it is, with no new
    stream, and a write through the name is the write through the handle:
    the same result and the same files afterwards. *)
Theorem C8_same_handle_same_bytes dm env T name m h m' m'' :
  create dm env T name m = Returns (h, m') ->
  rtc (step dm) m' m'' ->
  (forall env' T', create dm env' T' name m'' = Returns (h, m''))
  /\ (forall T' x, write_name dm T' name x m'' = write_id dm T' h x m'').
Proof.
  intros Hc Hl.
  pose proof (later_handle_of dm m' m'' name h (create_handle_of _ _ _ _ _ _ _ Hc) Hl)
    as Hh.
  split.
  - intros env' T'. by apply handle_of_create.
  - intros T' x. by apply handle_of_write.
Qed.

(** C8, a witness: ["chars"] on the registry of the unit test, after the
    first element was written. *)
Lemma C8_same_handle_same_bytes_witness :
  (forall env' T',
     create LP64 env' T' "chars" chars_registry_1 = Returns (0, chars_registry_1))
  /\ (forall T' x, write_name LP64 T' "chars" x chars_registry_1
                   = write_id LP64 T' 0 x chars_registry_1).
Proof.
  apply (C8_same_handle_same_bytes LP64 willing Char "chars" fresh_registry 0
           chars_registry chars_registry_1).
  - vm_compute. reflexivity.
  - apply (rtc_l _ _ chars_registry_1); [|apply rtc_refl].
    apply (step_write_id LP64 chars_registry Char 0 97 true).
    vm_compute. reflexivity.
Defined.

(** C3 (amended): [create] returns -1 when the registry is not ready and
    the handle already assigned when the name is registered; for a new name
    whose file can be opened it returns the next handle, which is not
    negative, whether or not the rest of the construction succeeds: an
    encoder left not-ready (unsupported element type, failed write of the
    header or of the metadata) shows only in the writes through the handle,
    which return [false]. *)
Theorem C3_create_handle dm env T name m :
  Z.of_nat (length (_variables m)) <= INT_MAX ->
  (_is_ready m = false -> create dm env T name m = Returns (-1, m))
  /\ (forall i, _is_ready m = true -> _name2id m !! name = Some i ->
       create dm env T name m = Returns (i, m))
  /\ (forall f0, _is_ready m = true -> _name2id m !! name = None ->
       fopen env (_dir m +:+ separator env +:+ name +:+ ".mat") = Some f0 ->
       exists var,
         create dm env T name m
         = Returns (Z.of_nat (length (_variables m)), registered m name var)
         /\ var_T var = T
         /\ (is_Some (_fp var) -> streaming dm var 0 /\ is_Some (miType_of dm T))
         /\ (_fp var = None -> forall x,
             write_id dm T (Z.of_nat (length (_variables m))) x (registered m name var)
             = Returns (false, registered m name var))).
Proof.
  intros Hlen. split; [apply create_not_ready|]. split.
  { intros i. apply create_existing. }
  intros f0 Hr Hn Hopen.
  destruct (Variable_ctor_open dm env T (_dir m) name f0 Hopen) as (var & Hc & HT & _).
  exists var. rewrite (create_new dm env T name m Hr Hn), Hc.
  rewrite to_int_small by (unfold INT_MAX in Hlen; lia).
  split; [done|]. split; [done|]. split.
  - intros Hready.
    destruct (Variable_ctor_ready dm env T (_dir m) name var Hc Hready) as (Hs & _ & _ & Hk).
    by split.
  - intros Hnull x. by apply write_id_failed_ctor.
Qed.

(** C3, a witness: the first [create] of the unit test. *)
Lemma C3_create_handle_witness :
  (_is_ready fresh_registry = false ->
   create LP64 willing Char "chars" fresh_registry = Returns (-1, fresh_registry))
  /\ (forall i, _is_ready fresh_registry = true ->
       _name2id fresh_registry !! "chars" = Some i ->
       create LP64 willing Char "chars" fresh_registry = Returns (i, fresh_registry))
  /\ (forall f0, _is_ready fresh_registry = true ->
       _name2id fresh_registry !! "chars" = None ->
       fopen willing (_dir fresh_registry +:+ separator willing +:+ "chars" +:+ ".mat") = Some f0 ->
       exists var,
         create LP64 willing Char "chars" fresh_registry
         = Returns (Z.of_nat (length (_variables fresh_registry)),
                    registered fresh_registry "chars" var)
         /\ var_T var = Char
         /\ (is_Some (_fp var) -> streaming LP64 var 0 /\ is_Some (miType_of LP64 Char))
         /\ (_fp var = None -> forall x,
             write_id LP64 Char (Z.of_nat (length (_variables fresh_registry))) x
               (registered fresh_registry "chars" var)
             = Returns (false, registered fresh_registry "chars" var))).
Proof.
  apply (C3_create_handle LP64 willing Char "chars" fresh_registry).
  vm_compute. discriminate.
Defined.

(** C3 as stated fails: [bool] is not a supported element type, the
    construction of the encoder fails, and [create] returns the handle 0. *)
Lemma C3_counterexample :
  exists m var,
    create ILP32 willing Bool "flag" fresh_registry = Returns (0, m)
    /\ _variables m = [var]
    /\ _fp var = None
    /\ miType_of ILP32 Bool = None.
Proof.
  eexists _, _. split; [vm_compute; reflexivity|].
  split; [reflexivity|]. split; reflexivity.
Qed.

(** C4: when [fopen] fails the constructor calls [fwrite] on the null
    stream: its behaviour, and that of the [create] around it, is
    undefined. *)
Theorem C4_open_failure_undefined :
  fopen unwritable ("out" +:+ separator unwritable +:+ "x" +:+ ".mat") = None
  /\ Variable_ctor LP64 unwritable Char "out" "x" = Undefined
  /\ create LP64 unwritable Char "x" fresh_registry = Undefined.
Proof. split; [reflexivity|]. split; vm_compute; reflexivity. Qed.

(** C2: on LP64 one successful write of a [char] to ["chars"] zeroes the
    tag of the array-flags subelement at 0x88 (it was [miUINT32]), the tag
    of the name subelement at 0xA8 (it was [miINT8]), and the element itself
    at offset 192: the four bytes after each patched field.  On ILP32 the
    same write leaves all three as they were. *)
Theorem C2_patch_overwrites_neighbours_LP64 :
  exists f0 f1 g1,
    Variable_ctor LP64 willing Char "out" "chars" = Returns chars64_0
    /\ Variable_write LP64 97 chars64_0 = Returns (true, chars64_1)
    /\ _fp chars64_0 = Some f0 /\ _fp chars64_1 = Some f1
    /\ _re_tag_offset chars64_1 = 188
    /\ field32 (f_data f0) 0x88 = mi miUINT32 /\ field32 (f_data f1) 0x88 = 0
    /\ field32 (f_data f0) 0xA8 = mi miINT8 /\ field32 (f_data f1) 0xA8 = 0
    /\ f_data f1 !! 192%nat = Some 0
    /\ Variable_write ILP32 97 chars_0 = Returns (true, chars_1)
    /\ _fp chars_1 = Some g1
    /\ field32 (f_data g1) 0x88 = mi miUINT32
    /\ field32 (f_data g1) 0xA8 = mi miINT8
    /\ f_data g1 !! 192%nat = Some 97.
Proof.
  eexists _, _, _. split; [vm_compute; reflexivity|]. split; [vm_compute; reflexivity|].
  split; [reflexivity|]. split; [reflexivity|].
  split; [reflexivity|].
  split; [vm_compute; reflexivity|]. split; [vm_compute; reflexivity|].
  split; [vm_compute; reflexivity|]. split; [vm_compute; reflexivity|].
  split; [vm_compute; reflexivity|]. split; [vm_compute; reflexivity|].
  split; [reflexivity|].
  repeat split; vm_compute; reflexivity.
Qed.

(** C9: the ten kinds are all the kinds, each is the kind of some element
    type, and the pairs of type tag and array class the encoder writes for
    them are pairwise distinct (so are the classes alone, none of them 0). *)
Theorem C9_resolve_injective :
  (forall k, k ∈ all_kinds)
  /\ (forall k, exists dm T, miType_of dm T = Some k)
  /\ NoDup (resolve <$> all_kinds)
  /\ NoDup ((fun k => (resolve k).2) <$> all_kinds)
  /\ (forall k1 k2, resolve k1 = resolve k2 -> k1 = k2)
  /\ (forall k, 0 < (resolve k).2).
Proof.
  split; [intros []; apply (bool_decide_unpack _); vm_compute; exact I|].
  split.
  { intros []; [exists LP64, Char | exists LP64, UChar | exists LP64, Short
    | exists LP64, UShort | exists LP64, Int | exists LP64, UInt
    | exists LP64, Float | exists LP64, Double | exists LP64, Long
    | exists LP64, ULong]; reflexivity. }
  split; [apply (bool_decide_unpack _); vm_compute; exact I|].
  split; [apply (bool_decide_unpack _); vm_compute; exact I|].
  split; [intros [] []; vm_compute; congruence|].
  intros []; reflexivity.
Qed.

End Handles.

(** ** What a patch leaves alone *)

Section Frame.

(** What a successful [update_counters] leaves alone: the members of the
    object, and every byte before the file position that is outside the
    three runs of [sizeof(size_t)] bytes written at the recorded offsets. *)
Lemma update_counters_frame dm v f v' :
  _fp v = Some f ->
  update_counters dm v = Returns (true, v') ->
  (Z.to_nat (_mat_tag_offset v) <= length (f_data f))%nat ->
  (Z.to_nat (_dim_tag_offset v) <= length (f_data f))%nat ->
  (Z.to_nat (_re_tag_offset v) <= length (f_data f))%nat ->
  (f_pos f <= length (f_data f))%nat ->
  exists f', v' = with_fp (Some f') v /\ f_pos f' = f_pos f
    /\ forall i : nat,
      (i < f_pos f)%nat ->
      ~ (_mat_tag_offset v <= Z.of_nat i
         < _mat_tag_offset v + Z.of_nat (sizeof_size_t dm)) ->
      ~ (_dim_tag_offset v <= Z.of_nat i
         < _dim_tag_offset v + Z.of_nat (sizeof_size_t dm)) ->
      ~ (_re_tag_offset v <= Z.of_nat i
         < _re_tag_offset v + Z.of_nat (sizeof_size_t dm)) ->
      f_data f' !! i = f_data f !! i.
Proof.
  intros Hfp H Hm Hd Hr Hp.
  destruct (update_counters_true dm v f v' Hfp H)
    as (f' & -> & Hp' & _ & Hmat & Hdim & Hre & Hd').
  exists f'. split; [done|]. split; [done|].
  intros i Hi Hnm Hnd Hnr. rewrite Hd'. unfold patched. cbv zeta.
  set (b1 := le_bytes (sizeof_size_t dm) _).
  set (b2 := le_bytes (sizeof_size_t dm) (_count v)).
  set (b3 := le_bytes (sizeof_size_t dm) (to_size_t dm _)).
  assert (Hb1 : length b1 = sizeof_size_t dm) by apply length_le_bytes.
  assert (Hb2 : length b2 = sizeof_size_t dm) by apply length_le_bytes.
  assert (Hb3 : length b3 = sizeof_size_t dm) by apply length_le_bytes.
  set (d1 := write_at (f_data f) _ b1).
  assert (Hl1 : (length (f_data f) <= length d1)%nat)
    by (subst d1; rewrite length_write_at by done; lia).
  set (d2 := write_at d1 _ b2).
  assert (Hl2 : (length d1 <= length d2)%nat)
    by (subst d2; rewrite length_write_at by lia; lia).
  set (d3 := write_at d2 _ b3).
  assert (Hl3 : (length d2 <= length d3)%nat)
    by (subst d3; rewrite length_write_at by lia; lia).
  assert (H3 : d3 !! i = f_data f !! i).
  { subst d3. rewrite lookup_write_at by lia. rewrite decide_False by lia.
    subst d2. rewrite lookup_write_at by lia. rewrite decide_False by lia.
    subst d1. rewrite lookup_write_at by lia. by rewrite decide_False by lia. }
  destruct (negb _); [|done].
  rewrite lookup_write_at by lia. by rewrite decide_False by lia.
Qed.

(** X19: with a 32-bit [size_t] a successful [update_counters] changes no
    byte before the position of the stream other than the three 4-byte
    fields at 0x84, at 0xA4 and at the recorded offset of the real part, and
    it changes no member of the object but the stream. *)
Lemma update_counters_frame_ILP32 v c f v' :
  streaming ILP32 v c -> _fp v = Some f ->
  update_counters ILP32 v = Returns (true, v') ->
  exists f', v' = with_fp (Some f') v
    /\ forall i : nat,
      (i < f_pos f)%nat ->
      ~ (0x84 <= Z.of_nat i < 0x84 + 4) ->
      ~ (0xA4 <= Z.of_nat i < 0xA4 + 4) ->
      ~ (_re_tag_offset v <= Z.of_nat i < _re_tag_offset v + 4) ->
      f_data f' !! i = f_data f !! i.
Proof.
  intros Hs Hfp H.
  destruct (streaming_offsets ILP32 v c Hs) as (Hmat & Hdim & Hre).
  destruct Hs as [Hc _ Em Ed _ Er (f0 & Hfp0 & Hpos & Hlen & _)].
  rewrite Hfp in Hfp0. injection Hfp0 as <-.
  pose proof (round8_spec (c * Z.of_nat (sizeof ILP32 (var_T v)))) as [Hr8 _].
  pose proof (round8_spec (name_size v)) as [Hn8 _].
  assert (0 <= name_size v) by (unfold name_size; lia).
  assert (0 <= c * Z.of_nat (sizeof ILP32 (var_T v))) by nia.
  unfold data_start in *.
  destruct (update_counters_frame ILP32 v f v' Hfp H) as (f' & Hv & _ & Hframe);
    try lia.
  exists f'. split; [done|]. intros i Hi Hn1 Hn2 Hn3.
  apply Hframe; [done| | |]; rewrite ?Em, ?Ed; done.
Qed.

(** X18: the constructor, given that the file could be opened, whatever
    the host does with the calls on the stream: it returns, and the object
    it leaves either holds the complete preamble or is not ready, with
    every write returning [false] and changing nothing. *)
Lemma Variable_ctor_outcomes dm env T path name f0 :
  fopen env (path +:+ separator env +:+ name +:+ ".mat") = Some f0 ->
  exists v, Variable_ctor dm env T path name = Returns v
    /\ (streaming dm v 0
        \/ (_fp v = None /\ forall x, Variable_write dm x v = Returns (false, v))).
Proof.
  intros Hopen.
  destruct (Variable_ctor_open dm env T path name f0 Hopen) as (v & Hc & _).
  exists v. split; [done|].
  destruct (_fp v) as [f|] eqn:Hf.
  - left. by apply (Variable_ctor_ready dm env T path name v Hc).
  - right. split; [done|]. intros x. by apply Variable_write_null.
Qed.

End Frame.

(** ** Element types and the calls of [write] *)

Section Resolver.

(** X1: the kind chosen for an element type has the size of the type, on
    every data model.  [bool] and [signed char] get no kind; [char],
    [unsigned char], the integer types from [short] to [unsigned long long],
    [float] and [double] get one; and [long] is a 32-bit or a 64-bit integer
    as the data model has it. *)
Theorem miType_of_size :
  (forall dm T k, miType_of dm T = Some k -> sizeof dm T = kind_size k)
  /\ (forall dm, miType_of dm Bool = None /\ miType_of dm SChar = None)
  /\ (forall dm T,
        T ∈ [Char; UChar; Short; UShort; Int; UInt; Long; ULong;
             LongLong; ULongLong; Float; Double] ->
        is_Some (miType_of dm T))
  /\ (forall dm, miType_of dm Long = Some (if decide (dm = LP64) then miINT64 else miINT32)
                 /\ miType_of dm ULong
                    = Some (if decide (dm = LP64) then miUINT64 else miUINT32)).
Proof.
  split; [|split; [|split]].
  - intros dm T k. destruct dm, T; cbn; intros [= <-]; reflexivity.
  - intros dm. by destruct dm.
  - intros dm T H. destruct dm, T; cbn; try (by eexists); exfalso;
      repeat (apply elem_of_cons in H as [H|H]; [discriminate H|]);
      by apply elem_of_nil in H.
  - intros dm. by destruct dm.
Qed.

End Resolver.

Section StreamOnly.

Lemma with_fp_id v f : _fp v = Some f -> with_fp (Some f) v = v.
Proof. destruct v. cbn. by intros ->. Qed.

Lemma stream_only_ret {A} (a : A) v : stream_only (mret a) v.
Proof. intros f Hf. exists a, f. by rewrite (with_fp_id v f Hf). Qed.

Lemma stream_only_bind {A B} (m : M A) (k : A -> M B) v :
  stream_only m v ->
  (forall a f1, stream_only (k a) (with_fp (Some f1) v)) ->
  stream_only (m ≫= k) v.
Proof.
  intros Hm Hk f Hf. destruct (Hm f Hf) as (a & f1 & Em).
  destruct (Hk a f1 f1 eq_refl) as (b & f2 & Ek).
  exists b, f2. by rewrite (bind_Returns_l _ _ _ _ _ Em), Ek.
Qed.

Lemma stream_only_on_stream {A} (call : FILE -> A * FILE) v :
  stream_only (on_stream call) v.
Proof.
  intros f Hf. exists (call f).1, (call f).2. by apply on_stream_open.
Qed.

End StreamOnly.

Ltac stream_only_step :=
  lazymatch goal with
  | |- stream_only (mbind _ _) _ => apply stream_only_bind; [| intros ? ?]
  | |- stream_only (mret _) _ => apply stream_only_ret
  | |- stream_only (fwrite _ _ _) _ => apply stream_only_on_stream
  | |- stream_only (fseek _) _ => apply stream_only_on_stream
  | |- stream_only (ftell _) _ => apply stream_only_on_stream
  | |- stream_only (if ?c then _ else _) _ => destruct c
  end.

Section WriteSafety.

Lemma update_counters_stream_only dm v : stream_only (update_counters dm) v.
Proof.
  unfold stream_only, update_counters. cbv beta zeta.
  lazymatch goal with
  | |- forall f, _fp ?v = Some f -> exists a f', ?m ?v = Returns (a, with_fp (Some f') ?v) =>
      change (stream_only m v)
  end.
  repeat stream_only_step.
Qed.

Lemma same_object_with_fp v f f' c :
  _fp v = Some f -> same_object v (with_fp (Some f') (with_count c v)).
Proof. intros Hf. unfold same_object. cbn. rewrite Hf. repeat split; by eexists. Qed.

Lemma same_object_refl v : same_object v v.
Proof. unfold same_object. by repeat split. Qed.

(** A call of [write] that returned left the object what it was. *)
Lemma Variable_write_same_object dm x v r v' :
  Variable_write dm x v = Returns (r, v') -> same_object v v'.
Proof.
  unfold Variable_write. destruct (_fp v) as [f|] eqn:Hf.
  2:{ intros [= <- <-]. apply same_object_refl. }
  cbv beta zeta. intros H.
  bind_inv H num v1 Hm. unfold fwrite in Hm.
  apply (on_stream_Returns _ _ _ _ _ Hf) in Hm as [_ ->].
  bind_inv H u v2 Ha. unfold assign in Ha. injection Ha as _ <-.
  destruct (num =? 1).
  - match type of H with
    | update_counters dm ?w = _ =>
        destruct (update_counters_stream_only dm w _ eq_refl) as (r' & f' & Hu)
    end.
    rewrite Hu in H. injection H as _ <-. by apply (same_object_with_fp v f).
  - apply mret_Returns in H as [_ ->]. by apply (same_object_with_fp v f).
Qed.

Lemma Variable_write_defined dm x v : Variable_write dm x v <> Undefined.
Proof.
  unfold Variable_write. destruct (_fp v) as [f|] eqn:Hf; [|done].
  cbv beta zeta.
  unfold fwrite at 1. rewrite (bind_Returns_l _ _ _ _ _ (on_stream_open _ v f Hf)).
  cbv beta. unfold assign at 1. unfold mbind at 1, M_bind at 1. cbv beta iota.
  destruct (_ =? 1); [|done].
  match goal with
  | |- update_counters dm ?w <> _ =>
      destruct (update_counters_stream_only dm w _ eq_refl) as (r' & f' & Hu)
  end.
  by rewrite Hu.
Qed.




End WriteSafety.

(** ** The bytes of the header and of the metadata *)

(** A complete [fwrite] at the end of the file appends the bytes. *)
Lemma fwrite_append_data buf size n v f a v1 :
  _fp v = Some f -> f_pos f = length (f_data f) ->
  fwrite buf size n v = Returns (a, v1) -> a = Z.of_nat n ->
  (0 < size)%nat -> (size * n <= length buf)%nat ->
  exists f1, v1 = with_fp (Some f1) v
    /\ f_pos f1 = length (f_data f1)
    /\ f_data f1 = f_data f ++ take (size * n) buf.
Proof.
  intros Hfp Hend Hm Ha Hs Hb. unfold fwrite in Hm.
  apply (on_stream_Returns _ _ _ _ _ Hfp) in Hm. destruct Hm as [Hr ->].
  rewrite Ha in Hr. symmetry in Hr.
  apply FILE_fwrite_full in Hr as [Hd Hp]; [|done|done].
  eexists. split; [done|].
  rewrite Hend, write_at_end in Hd.
  rewrite Hd, Hp, Hend, length_app, length_take. split; [lia|done].
Qed.

Lemma take_min_length {A} (l : list A) n : take (n `min` length l) l = take n l.
Proof.
  destruct (decide (n <= length l)%nat).
  - by rewrite Nat.min_l.
  - rewrite Nat.min_r by lia. rewrite !take_ge by lia. done.
Qed.

Lemma write_header_bytes dm env v f v' :
  _fp v = Some f -> f_pos f = length (f_data f) ->
  write_header dm env v = Returns (true, v') ->
  exists f', v' = with_fp (Some f') v
    /\ f_pos f' = length (f_data f')
    /\ f_data f' = f_data f ++ header_block env (_name v).
Proof.
  intros Hfp Hend H. unfold write_header in H. cbv beta zeta in H.
  fold (header_text env (_name v)) in H.
  set (text := bytes_of_string (header_text env (_name v))) in *.
  set (header := take _ text ++ replicate _ 0) in H.
  assert (Hh : length header = 124%nat).
  { subst header. rewrite length_app, length_take, length_replicate.
    unfold HEADER_SIZE. lia. }
  bind_inv H n1 v1 Hm1.
  pose proof (fwrite_count _ _ _ _ _ _ _ Hfp Hm1) as Hn1.
  destruct (fwrite_open _ _ _ _ _ _ _ Hfp Hm1) as [f1 Hv1].
  bind_inv H n2 v2 Hm2.
  assert (Hfp1 : _fp v1 = Some f1) by (by subst v1).
  pose proof (fwrite_count _ _ _ _ _ _ _ Hfp1 Hm2) as Hn2.
  destruct (fwrite_open _ _ _ _ _ _ _ Hfp1 Hm2) as [f2 Hv2].
  bind_inv H n3 v3 Hm3.
  assert (Hfp2 : _fp v2 = Some f2) by (by subst v2).
  pose proof (fwrite_count _ _ _ _ _ _ _ Hfp2 Hm3) as Hn3.
  apply mret_Returns in H. destruct H as [Hnum ->].
  unfold HEADER_SIZE in *.
  rewrite (to_int_small n1) in Hnum by lia.
  rewrite (to_size_t_small32 dm (n1 + n2)) in Hnum by lia.
  rewrite (to_int_small (n1 + n2)) in Hnum by lia.
  rewrite (to_size_t_small32 dm (n1 + n2 + n3)) in Hnum by lia.
  rewrite (to_int_small (n1 + n2 + n3)) in Hnum by lia.
  symmetry in Hnum. apply Z.eqb_eq in Hnum.
  clear Hv1 Hv2 f1 f2 Hfp1 Hfp2.
  destruct (fwrite_append_data _ _ _ _ _ _ _ Hfp Hend Hm1 ltac:(lia) ltac:(lia) ltac:(lia))
    as (f1 & -> & He1 & Hd1).
  destruct (fwrite_append_data _ _ _ _ _ _ _
              (eq_refl : _fp (with_fp (Some f1) v) = Some f1)
              He1 Hm2 ltac:(lia) ltac:(simpl; lia)
              ltac:(rewrite length_le_bytes; lia))
    as (f2 & -> & He2 & Hd2).
  destruct (fwrite_append_data _ _ _ _ _ _ _
              (eq_refl : _fp (with_fp (Some f2) _) = Some f2)
              He2 Hm3 ltac:(lia) ltac:(simpl; lia)
              ltac:(rewrite length_le_bytes; lia))
    as (f3 & -> & He3 & Hd3).
  exists f3. split; [done|]. split; [done|].
  rewrite Hd3, Hd2, Hd1. rewrite (take_ge header) by (rewrite Hh; simpl; lia).
  unfold header_block. fold text. subst header.
  rewrite take_min_length.
  replace (124 - 124 `min` length text)%nat with (124 - length text)%nat by lia.
  rewrite <- !app_assoc. reflexivity.
Qed.

(** One guarded [fwrite] of the preamble, with the stream at the end of
    the file: the bytes it appends. *)
Ltac append_bytes H f1 He Hd :=
  let n := fresh "n" in
  let v1 := fresh "v" in
  let Hm := fresh "Hm" in
  let Hv := fresh "Hv" in
  bind_inv H n v1 Hm; guard_true H;
  match type of Hm with
  | fwrite _ _ _ (with_fp (Some ?g) ?w) = _ =>
    match goal with
    | Hend : f_pos g = length (f_data g) |- _ =>
      edestruct (fwrite_append_data _ _ _ _ g _ _
                   (eq_refl : _fp (with_fp (Some g) w) = Some g) Hend Hm)
        as (f1 & Hv & He & Hd); [append_side | append_side | append_side |];
      subst v1
    end
  end.

Lemma int_array_2 dm a b : int_array dm [a; b] = le_bytes 4 a ++ le_bytes 4 b.
Proof. unfold int_array. cbn [map concat sizeof]. by rewrite app_nil_r. Qed.

Lemma int_array_4 dm a b c d :
  int_array dm [a; b; c; d] = le_bytes 4 a ++ le_bytes 4 b ++ le_bytes 4 c ++ le_bytes 4 d.
Proof. unfold int_array. cbn [map concat sizeof]. by rewrite app_nil_r. Qed.

Lemma take_8_int_array dm a b r :
  take 8 (int_array dm (a :: b :: r)) = le_bytes 4 a ++ le_bytes 4 b.
Proof. unfold int_array. cbn [map concat sizeof]. reflexivity. Qed.

Lemma round8_pad size :
  0 <= size -> size mod 8 <> 0 -> round8 size - size = 8 - size mod 8.
Proof.
  intros Hs Hr. unfold round8. destruct (Z.eqb_spec (size mod 8) 0); [done|lia].
Qed.

Lemma write_meta_data_bytes dm v f v' :
  _fp v = Some f -> f_pos f = length (f_data f) ->
  (String.length (_name v) <= PATH_MAX)%nat ->
  write_meta_data dm v = Returns (true, v') ->
  exists f' k,
    miType_of dm (var_T v) = Some k
    /\ _fp v' = Some f'
    /\ f_data f' = f_data f ++ meta_block k (_name v).
Proof.
  intros Hfp Hend Hname H. unfold write_meta_data in H. cbv beta zeta in H.
  unfold PATH_MAX in Hname.
  unfold ARRAY_FLAGS_SIZE, DIM_ARRAY_SIZE, ARRAY_NAME_TAG_SIZE, RE_TAG_SIZE in H.
  fold (name_size v) in H.
  assert (Hsize : 0 <= name_size v <= 4096) by (unfold name_size; lia).
  set (size := name_size v) in *.
  pose proof (round8_spec size) as [Hr8 Hr8'].
  assert (Hbytes0 : to_int (to_size_t dm (16 + 16 + 8 + size + 8)) = 48 + size).
  { rewrite to_size_t_small32 by lia. rewrite to_int_small by lia. lia. }
  rewrite Hbytes0 in H.
  assert (Hbytes :
    (if size mod 8 =? 0 then 48 + size
     else to_int (to_size_t dm (48 + size + (8 - size mod 8)))) = 48 + round8 size).
  { unfold round8. destruct (Z.eqb_spec (size mod 8) 0) as [E|E]; [done|].
    rewrite to_size_t_small32 by zlia. rewrite to_int_small by zlia. lia. }
  rewrite Hbytes in H.
  rewrite (to_size_t_small32 dm (48 + round8 size)) in H by lia.
  assert (Hrem : to_int (size mod 8) = size mod 8) by (apply to_int_small; zlia).
  rewrite Hrem in H.
  rewrite (to_int_small size) in H by lia.
  (* the matrix tag and the array flags tag *)
  bind_inv H u v1 Ha. unfold assign in Ha. injection Ha as _ <-.
  bind_inv H n v2 Hm. guard_true H.
  edestruct (fwrite_append_data _ _ _ _ f _ _
               (Hfp : _fp (with_mat_tag_size (48 + round8 size) v) = Some f) Hend Hm)
    as (f1 & Hv & He1 & Hd1); [append_side | append_side | append_side |].
  subst v2. clear Hm E n.
  destruct (miType_of dm (var_T v)) as [miType|];
    [| apply mret_Returns in H; destruct H; discriminate].
  cbv beta iota in H.
  (* array flags, dimensions, name tag, name *)
  append_bytes H f2 He2 Hd2.
  append_bytes H f3 He3 Hd3.
  append_bytes H f4 He4 Hd4.
  append_bytes H f5 He5 Hd5.
  (* padding of the name *)
  bind_inv H padded v6 Hpad.
  destruct padded; cbn [negb] in H;
    [| apply mret_Returns in H; destruct H; discriminate].
  assert (Hpadded : exists f6, v6 = with_fp (Some f6) (with_mat_tag_size (48 + round8 size) v)
            /\ f_pos f6 = length (f_data f6)
            /\ f_data f6 = f_data f5 ++ replicate (Z.to_nat (round8 size - size)) 0).
  { destruct (Z.eqb_spec (size mod 8) 0) as [Ez|Enz]; cbn [negb] in Hpad.
    - apply mret_Returns in Hpad. destruct Hpad as [_ ->].
      exists f5. split; [done|]. split; [done|].
      rewrite (round8_aligned size Ez), Z.sub_diag. by rewrite app_nil_r.
    - bind_inv Hpad n' v7 Hm'. apply mret_Returns in Hpad. destruct Hpad as [Hn ->].
      symmetry in Hn. apply Z.eqb_eq in Hn.
      rewrite to_size_t_small32 in Hn by zlia.
      edestruct (fwrite_append_data _ _ _ _ f5 _ _
                   (eq_refl : _fp (with_fp (Some f5) _) = Some f5) He5 Hm')
        as (f6 & Hv & He6 & Hd6); [zlia | lia | simpl; zlia |].
      exists f6. split; [done|]. split; [done|].
      rewrite Hd6, Nat.mul_1_l, take_zeros by zlia.
      by rewrite (round8_pad size) by lia. }
  destruct Hpadded as (f6 & -> & He6 & Hd6). clear Hpad.
  (* the real part tag *)
  append_bytes H f7 He7 Hd7.
  (* its offset *)
  bind_inv H pos v8 Hm'. unfold ftell in Hm'. stream_next Hm' f8. subst v8.
  bind_inv H u1 v9 Ha. unfold assign in Ha. injection Ha as _ <-.
  destruct (Z.eqb_spec (to_int pos) (-1)) as [Epos|Epos];
    [apply mret_Returns in H; destruct H; discriminate|].
  destruct (FILE_ftell_data dm f7) as (Hd8 & _). fold f8 in Hd8.
  bind_inv H u2 v10 Ha. unfold assign in Ha. injection Ha as _ <-.
  apply mret_Returns in H. destruct H as [_ ->].
  exists f8, miType. split; [done|]. split; [done|].
  rewrite Hd8, Hd7, Hd6, Hd5, Hd4, Hd3, Hd2, Hd1.
  rewrite !int_array_2, !int_array_4.
  change (1 * 8)%nat with 8%nat. rewrite take_8_int_array.
  rewrite !(take_ge (_ ++ _)) by (rewrite ?length_app, !length_le_bytes; simpl; lia).
  rewrite (take_ge (bytes_of_string _)) by (rewrite length_bytes_of_string; lia).
  unfold meta_block. fold (name_size v). fold size.
  unfold miMATRIX. rewrite <- !app_assoc. reflexivity.
Qed.

(** ** The preamble *)

Section Preamble.

Variable dm : DataModel.
Variable env : Env.

Lemma length_header_block name : length (header_block env name) = 128%nat.
Proof.
  unfold header_block. cbv zeta.
  rewrite !length_app, length_take, length_replicate. cbn [length]. lia.
Qed.

Lemma length_meta_block k name :
  Z.of_nat (length (meta_block k name))
  = 56 + round8 (Z.of_nat (String.length name)).
Proof.
  unfold meta_block. cbv zeta.
  pose proof (round8_spec (Z.of_nat (String.length name))) as [H _].
  rewrite !length_app, !length_le_bytes, length_bytes_of_string, length_replicate.
  lia.
Qed.

Lemma length_preamble k name :
  Z.of_nat (length (preamble env k name))
  = 184 + round8 (Z.of_nat (String.length name)).
Proof.
  unfold preamble. rewrite length_app, Nat2Z.inj_add.
  rewrite length_header_block, length_meta_block. lia.
Qed.

(** The body of the constructor on an object whose stream is open on an
    empty file: if it leaves the stream open, the file is the preamble. *)
Lemma Variable_ctor_body_bytes this f0 u v f :
  _fp this = Some f0 -> f_data f0 = [] -> f_pos f0 = 0%nat ->
  (String.length (_name this) <= PATH_MAX)%nat ->
  Variable_ctor_body dm env this = Returns (u, v) -> _fp v = Some f ->
  exists k, miType_of dm (var_T this) = Some k
    /\ f_data f = preamble env k (_name this).
Proof.
  intros Hfp Hd0 Hp0 Hname Hbody Hready.
  unfold Variable_ctor_body in Hbody.
  bind_inv Hbody h v1 Hh. bind_inv Hbody ok v2 Hok.
  destruct ok; cbn [negb] in Hbody.
  2:{ bind_inv Hbody r v3 Hc. unfold assign in Hbody. injection Hbody as _ <-.
      cbn in Hready. done. }
  apply mret_Returns in Hbody as [_ ->].
  destruct h; [| apply mret_Returns in Hok; destruct Hok; discriminate].
  apply (write_header_bytes dm env this f0) in Hh; [|done|by rewrite Hd0, Hp0].
  destruct Hh as (f1 & -> & He1 & Hd1).
  apply (write_meta_data_bytes dm _ f1) in Hok; [|done|done|done].
  destruct Hok as (f2 & k & Hk & Hf2 & Hd2).
  rewrite Hready in Hf2. injection Hf2 as <-.
  exists k. split; [done|].
  rewrite Hd2, Hd1, Hd0. done.
Qed.

(** A constructor that left the stream open left the preamble in the
    file. *)
Lemma Variable_ctor_bytes T path name v f :
  Variable_ctor dm env T path name = Returns v -> _fp v = Some f ->
  exists k, miType_of dm T = Some k /\ f_data f = preamble env k name.
Proof.
  intros H Hready.
  rewrite Variable_ctor_unfold in H.
  destruct (fopen env _) as [f0|] eqn:Hopen.
  2:{ pose proof (Variable_ctor_null dm env T path name Hopen) as Hnull.
      rewrite Variable_ctor_unfold, Hopen in Hnull. by rewrite Hnull in H. }
  apply fopen_Some in Hopen as (Hd0 & Hp0 & Hpath).
  destruct (Variable_ctor_body dm env (initialised T name (Some f0))) as [[u v9]|] eqn:Hbody;
    [|done].
  injection H as ->.
  assert (Hname : (String.length name <= PATH_MAX)%nat).
  { rewrite !string_length_append in Hpath. lia. }
  exact (Variable_ctor_body_bytes (initialised T name (Some f0)) f0 u v f
           eq_refl Hd0 Hp0 Hname Hbody Hready).
Qed.

(** X5: the file a successful construction leaves, on any host: the 128
    bytes of the header (the text cut or zero-filled to 124 bytes, the
    version and the endian indicator) and the matrix element with an empty
    payload, [184 + round8 (length of the name)] bytes in all, for the kind
    of the element type; the stream stands at the end of it. *)
Theorem Variable_ctor_preamble T path name v f :
  Variable_ctor dm env T path name = Returns v -> _fp v = Some f ->
  exists k, miType_of dm T = Some k
    /\ f_data f = preamble env k name
    /\ Z.of_nat (length (f_data f)) = 184 + round8 (Z.of_nat (String.length name))
    /\ f_pos f = length (f_data f).
Proof.
  intros H Hready.
  destruct (Variable_ctor_ready dm env T path name v H) as (Hs & HT & Hn & _);
    [by eexists|].
  destruct (Variable_ctor_bytes T path name v f H Hready) as (k & Hk & Hd).
  exists k. split; [done|]. split; [done|].
  rewrite Hd, length_preamble. split; [done|].
  destruct Hs as [_ _ _ _ _ _ (f' & Hfp' & Hpos & Hlen & _)].
  rewrite Hready in Hfp'. injection Hfp' as <-.
  rewrite Z.mul_0_l in Hpos, Hlen. change (round8 0) with 0 in Hlen.
  rewrite Hd in Hlen. lia.
Qed.

End Preamble.

(** X5, a witness: the preamble of ["ints"]. *)
Lemma Variable_ctor_preamble_witness :
  exists f k, _fp ints_0 = Some f /\ miType_of ILP32 Int = Some k
    /\ f_data f = preamble willing k "ints"
    /\ Z.of_nat (length (f_data f)) = 184 + round8 (Z.of_nat (String.length "ints"))
    /\ f_pos f = length (f_data f).
Proof.
  eexists.
  assert (Hc : Variable_ctor ILP32 willing Int "out" "ints" = Returns ints_0)
    by (vm_compute; reflexivity).
  destruct (Variable_ctor_preamble ILP32 willing Int "out" "ints" ints_0 _ Hc eq_refl)
    as (k & H).
  exists k. split; [reflexivity|exact H].
Defined.

(** ** Overlaying writes *)

Section Overlay.

Implicit Types d b pre : list Z.

Lemma length_write_at_ge d p b :
  (p <= length d)%nat ->
  (length d <= length (write_at d p b))%nat
  /\ (p + length b <= length (write_at d p b))%nat.
Proof. intros Hp. rewrite length_write_at by done. lia. Qed.

Lemma le_bytes_high n v j i :
  0 <= v < 2 ^ (8 * Z.of_nat j) -> (j <= i < n)%nat -> le_bytes n v !! i = Some 0.
Proof.
  revert v j i. induction n as [|n IH]; intros v j i Hv Hi; [lia|].
  cbn [le_bytes]. destruct i as [|i].
  - assert (j = 0%nat) as -> by lia. cbn. f_equal.
    change (2 ^ (8 * Z.of_nat 0)) with 1 in Hv. assert (v = 0) as -> by lia. done.
  - cbn. destruct j as [|j].
    + change (2 ^ (8 * Z.of_nat 0)) with 1 in Hv. assert (v = 0) as -> by lia.
      apply (IH 0 0%nat); [done|lia].
    + apply (IH _ j); [|lia].
      replace (8 * Z.of_nat (S j)) with (8 + 8 * Z.of_nat j) in Hv by lia.
      rewrite Z.pow_add_r in Hv by lia. change (2 ^ 8) with 256 in Hv.
      split; [apply Z.div_pos; lia|].
      apply Z.div_lt_upper_bound; lia.
Qed.

(** Appending [pay2] to a file that holds [pre ++ pay1] and some padding
    outside the three patched runs, then patching and padding, gives the
    patched file of [pre ++ pay1 ++ pay2]. *)
Lemma overlay pre pay1 pay2 d A B C (w S pad1 pad2 : nat) :
  length pre = S -> (184 <= S)%nat ->
  length A = w -> length B = w -> length C = w -> (4 <= w <= 8)%nat ->
  (length pay1 + pad1 <= length pay1 + length pay2 + pad2)%nat ->
  (S + length pay1 + pad1 <= length d)%nat ->
  (forall i : nat,
     ~ (132 <= i < 132 + w)%nat -> ~ (164 <= i < 164 + w)%nat ->
     ~ (S - 4 <= i < S - 4 + w)%nat ->
     d !! i = (pre ++ pay1 ++ replicate pad1 0) !! i) ->
  (forall j : nat, (j < w)%nat -> (length pay1 + length pay2 + 4 <= j)%nat ->
     C !! j = Some 0) ->
  write_at
    (write_at (write_at (write_at (write_at d (S + length pay1) pay2) 132%nat A)
                        164%nat B) (S - 4)%nat C)
    (S + length pay1 + length pay2) (replicate pad2 0)
  = write_at (write_at (write_at (pre ++ (pay1 ++ pay2) ++ replicate pad2 0) 132%nat A)
                       164%nat B) (S - 4)%nat C.
Proof.
  intros Hpre HS HA HB HC Hw Hpad Hlen Hinv Hhigh.
  set (p0 := (S + length pay1)%nat).
  set (p := (p0 + length pay2)%nat).
  set (d1 := write_at d p0 pay2).
  destruct (length_write_at_ge d p0 pay2 ltac:(lia)) as [Hl1 Hl1']. fold d1 in Hl1, Hl1'.
  set (d2 := write_at d1 132%nat A).
  destruct (length_write_at_ge d1 132%nat A ltac:(lia)) as [Hl2 _]. fold d2 in Hl2.
  set (d3 := write_at d2 164%nat B).
  destruct (length_write_at_ge d2 164%nat B ltac:(lia)) as [Hl3 _]. fold d3 in Hl3.
  set (d4 := write_at d3 (S - 4)%nat C).
  destruct (length_write_at_ge d3 (S - 4)%nat C ltac:(lia)) as [Hl4 _]. fold d4 in Hl4.
  set (b0 := pre ++ (pay1 ++ pay2) ++ replicate pad2 0).
  assert (Hb0 : length b0 = (p + pad2)%nat).
  { subst b0 p. rewrite !length_app, length_replicate. lia. }
  set (e1 := write_at b0 132%nat A).
  destruct (length_write_at_ge b0 132%nat A ltac:(lia)) as [Hm1 _]. fold e1 in Hm1.
  set (e2 := write_at e1 164%nat B).
  destruct (length_write_at_ge e1 164%nat B ltac:(lia)) as [Hm2 _]. fold e2 in Hm2.
  apply list_eq. intros i.
  rewrite (lookup_write_at d4) by lia. rewrite length_replicate.
  subst d4. rewrite (lookup_write_at d3) by lia.
  rewrite (lookup_write_at e2) by lia.
  subst d3 e2. rewrite (lookup_write_at d2), (lookup_write_at e1) by lia.
  subst d2 e1. rewrite (lookup_write_at d1), (lookup_write_at b0) by lia.
  subst d1. rewrite (lookup_write_at d) by lia.
  rewrite HA, HB, HC.
  assert (Hbody : forall i : nat,
    b0 !! i = if decide (i < S)%nat then pre !! i
              else if decide (i < p0)%nat then pay1 !! (i - S)%nat
              else if decide (i < p)%nat then pay2 !! (i - p0)%nat
              else replicate pad2 0 !! (i - p)%nat).
  { intros i'. subst b0 p0 p. repeat case_decide.
    - by rewrite lookup_app_l by lia.
    - rewrite lookup_app_r by lia. rewrite lookup_app_l by (rewrite length_app; lia).
      rewrite lookup_app_l by lia. by rewrite Hpre.
    - rewrite lookup_app_r by lia. rewrite lookup_app_l by (rewrite length_app; lia).
      rewrite lookup_app_r by lia. f_equal. lia.
    - rewrite lookup_app_r by lia. rewrite lookup_app_r by (rewrite length_app; lia).
      f_equal. rewrite length_app. lia. }
  assert (Hold : forall i : nat,
    (pre ++ pay1 ++ replicate pad1 0) !! i
    = if decide (i < S)%nat then pre !! i
      else if decide (i < p0)%nat then pay1 !! (i - S)%nat
      else replicate pad1 0 !! (i - p0)%nat).
  { intros i'. subst p0. repeat case_decide.
    - by rewrite lookup_app_l by lia.
    - rewrite lookup_app_r by lia. rewrite lookup_app_l by lia. by rewrite Hpre.
    - rewrite lookup_app_r by lia. rewrite lookup_app_r by lia. f_equal. lia. }
  destruct (decide (p <= i < p + pad2)%nat) as [Hz|Hz].
  - (* the new padding *)
    rewrite (lookup_replicate_2 pad2 0 (i - p)) by lia.
    destruct (decide (S - 4 <= i < S - 4 + w)%nat) as [H3|H3].
    + symmetry. apply Hhigh; subst p; lia.
    + rewrite decide_False by (subst p; lia).
      rewrite decide_False by (subst p; lia).
      rewrite Hbody. rewrite decide_False by (subst p; lia).
      rewrite decide_False by (subst p p0; lia).
      rewrite decide_False by lia.
      by rewrite lookup_replicate_2 by lia.
  - destruct (decide (S - 4 <= i < S - 4 + w)%nat) as [H3|H3]; [done|].
    destruct (decide (164 <= i < 164 + w)%nat) as [H2|H2]; [done|].
    destruct (decide (132 <= i < 132 + w)%nat) as [H1|H1]; [done|].
    rewrite Hbody.
    destruct (decide (p0 <= i < p0 + length pay2)%nat) as [Hy|Hy].
    + rewrite decide_False by (subst p0; lia).
      rewrite decide_False by lia. rewrite decide_True by (subst p p0; lia). done.
    + rewrite (Hinv i H1 H2 H3), Hold.
      destruct (decide (i < S)%nat); [done|].
      destruct (decide (i < p0)%nat); [done|].
      rewrite decide_False by (subst p p0; lia).
      transitivity (@None Z).
      * apply lookup_replicate_None. subst p p0. lia.
      * symmetry. apply lookup_replicate_None. subst p p0. lia.
Qed.

End Overlay.

(** ** Payloads and patches *)

Section Payload.

Variable dm : DataModel.
Variable T : CType.

Lemma length_payload xs :
  length (payload dm T xs) = (length xs * sizeof dm T)%nat.
Proof.
  unfold payload. induction xs as [|x xs IH]; [done|].
  cbn [map concat length]. rewrite length_app, length_le_bytes, IH. lia.
Qed.

Lemma payload_app xs ys : payload dm T (xs ++ ys) = payload dm T xs ++ payload dm T ys.
Proof. unfold payload. by rewrite map_app, concat_app. Qed.

Lemma take_payload n xs :
  take (sizeof dm T * n) (payload dm T xs) = payload dm T (take n xs).
Proof.
  unfold payload. revert n. induction xs as [|x xs IH]; intros n.
  - cbn [map concat]. by rewrite !take_nil.
  - destruct n as [|n]; [by rewrite Nat.mul_0_r|].
    cbn [map concat take].
    replace (sizeof dm T * S n)%nat
      with (length (le_bytes (sizeof dm T) x) + sizeof dm T * n)%nat
      by (rewrite length_le_bytes; lia).
    rewrite take_app_add. by rewrite IH.
Qed.

End Payload.

Section Patched.

(** What [update_counters] writes, for an object with the members of a
    successfully constructed one, a count [c] and a payload that fits a
    [long]. *)
Lemma patched_exact dm v c d p :
  _count v = c -> 0 <= c ->
  _mat_tag_size v = 48 + round8 (name_size v) ->
  _mat_tag_offset v = 0x84 -> _dim_tag_offset v = 0xA4 ->
  _re_tag_offset v = data_start v - 4 ->
  data_start v + c * Z.of_nat (sizeof dm (var_T v)) <= LONG_MAX dm ->
  let bytes := c * Z.of_nat (sizeof dm (var_T v)) in
  let w := sizeof_size_t dm in
  patched dm v d p
  = write_at
      (write_at
         (write_at
            (write_at d 132%nat (le_bytes w (48 + round8 (name_size v) + round8 bytes)))
            164%nat (le_bytes w c))
         (Z.to_nat (data_start v - 4)) (le_bytes w bytes))
      p (replicate (Z.to_nat (round8 bytes - bytes)) 0).
Proof.
  intros Hc Hc0 Hsize Hmat Hdim Hre Hmax bytes w.
  pose proof (sizeof_bounds dm (var_T v)) as Hsz.
  pose proof (round8_spec (name_size v)) as [Hn8 Hn8'].
  assert (Hname : 0 <= name_size v) by (unfold name_size; lia).
  assert (Hb : 0 <= bytes) by (subst bytes; nia).
  pose proof (round8_spec bytes) as [Hb8 Hb8'].
  unfold data_start in Hmax. fold bytes in Hmax.
  unfold patched. rewrite Hc, Hsize, Hmat, Hdim, Hre. fold bytes. cbv zeta.
  rewrite (to_size_t_small dm bytes) by lia.
  rewrite (to_size_t_small dm (48 + round8 (name_size v) + bytes)) by lia.
  set (rem := (48 + round8 (name_size v) + bytes) mod 8).
  assert (Hrem : rem = bytes mod 8) by (subst rem; zlia).
  change (Z.to_nat 132) with 132%nat. change (Z.to_nat 164) with 164%nat.
  assert (Hr8 : round8 bytes = if rem =? 0 then bytes else bytes + (8 - rem)).
  { unfold round8. by rewrite <- Hrem. }
  rewrite Hr8.
  destruct (Z.eqb_spec rem 0) as [E|E]; cbn [negb].
  - rewrite Z.sub_diag. cbn [Z.to_nat replicate write_at]. done.
  - rewrite to_size_t_small by zlia.
    replace (bytes + (8 - rem) - bytes) with (8 - rem) by lia.
    by rewrite Z.add_assoc.
Qed.

End Patched.

(** ** The image of a file *)

Section Holding.

Variable dm : DataModel.
Variable env : Env.
Variable k : ElementKind.

(** Outside the three patched runs the image is the preamble, the payload
    and the padding. *)
Lemma image_outside T name xs :
  let bytes := Z.of_nat (length xs) * Z.of_nat (sizeof dm T) in
  let pad := Z.to_nat (round8 bytes - bytes) in
  let S := length (preamble env k name) in
  let w := sizeof_size_t dm in
  (S + length (payload dm T xs) + pad <= length (image dm env T k name xs))%nat
  /\ forall i : nat,
       ~ (132 <= i < 132 + w)%nat -> ~ (164 <= i < 164 + w)%nat ->
       ~ (S - 4 <= i < S - 4 + w)%nat ->
       image dm env T k name xs !! i
       = (preamble env k name ++ payload dm T xs ++ replicate pad 0) !! i.
Proof.
  intros bytes pad S w.
  pose proof (length_preamble env k name) as HS. fold S in HS.
  pose proof (round8_spec (Z.of_nat (String.length name))) as [Hn8 _].
  pose proof (sizeof_size_t_bounds dm) as Hw. fold w in Hw.
  unfold image. cbv zeta. fold bytes pad w.
  replace (Z.to_nat (180 + round8 (Z.of_nat (String.length name)))) with (S - 4)%nat by lia.
  set (b0 := preamble env k name ++ payload dm T xs ++ replicate pad 0).
  assert (Hb0 : length b0 = (S + length (payload dm T xs) + pad)%nat).
  { subst b0. rewrite !length_app, length_replicate. lia. }
  set (e1 := write_at b0 132%nat _).
  destruct (length_write_at_ge b0 132%nat
              (le_bytes w (48 + round8 (Z.of_nat (String.length name)) + round8 bytes))
              ltac:(lia)) as [Hm1 _].
  fold e1 in Hm1.
  set (e2 := write_at e1 164%nat _).
  destruct (length_write_at_ge e1 164%nat (le_bytes w (Z.of_nat (length xs)))
              ltac:(lia)) as [Hm2 _].
  fold e2 in Hm2.
  destruct (length_write_at_ge e2 (S - 4)%nat (le_bytes w bytes) ltac:(lia)) as [Hm3 _].
  split; [lia|].
  intros i H1 H2 H3.
  rewrite (lookup_write_at e2) by lia. rewrite length_le_bytes.
  rewrite decide_False by done.
  subst e2. rewrite (lookup_write_at e1) by lia. rewrite length_le_bytes.
  rewrite decide_False by done.
  subst e1. rewrite (lookup_write_at b0) by lia. rewrite length_le_bytes.
  by rewrite decide_False by done.
Qed.

(** One successful call that hands over the elements [ys]. *)
Lemma holding_step v xs ys f f' :
  holding dm env k v xs -> _fp v = Some f ->
  let sz := sizeof dm (var_T v) in
  let v1 := with_count (to_size_t dm (_count v + Z.of_nat (length ys))) v in
  f_pos f' = (f_pos f + sz * length ys)%nat ->
  Z.of_nat (f_pos f + sz * length ys) <= LONG_MAX dm ->
  f_data f'
  = patched dm v1 (write_at (f_data f) (f_pos f) (payload dm (var_T v) ys))
            (f_pos f + sz * length ys) ->
  holding dm env k (with_fp (Some f') v1) (xs ++ ys).
Proof.
  intros (Hc & Hmat & Hdim & Hsize & Hre & f0 & Hfp0 & Hpos & Hmax0 & Hdata) Hfp
         sz v1 Hp' Hmax' Hd'.
  rewrite Hfp in Hfp0. injection Hfp0 as <-.
  pose proof (sizeof_bounds dm (var_T v)) as Hsz. fold sz in Hsz.
  pose proof (sizeof_size_t_bounds dm) as Hw.
  pose proof (length_preamble env k (_name v)) as HS.
  fold (name_size v) in HS.
  pose proof (round8_spec (name_size v)) as [Hn8 _].
  assert (Hname : 0 <= name_size v) by (unfold name_size; lia).
  fold sz in Hpos.
  set (n := length xs) in *. set (m := length ys) in *.
  set (S := length (preamble env k (_name v))) in *.
  set (w := sizeof_size_t dm) in *.
  unfold data_start in Hpos.
  assert (Hc1 : to_size_t dm (_count v + Z.of_nat m) = Z.of_nat n + Z.of_nat m).
  { rewrite Hc. apply to_size_t_small. nia. }
  set (b1 := Z.of_nat n * Z.of_nat sz).
  set (b2 := (Z.of_nat n + Z.of_nat m) * Z.of_nat sz).
  pose proof (round8_spec b1) as [Hb1 _].
  pose proof (round8_spec b2) as [Hb2 _].
  pose proof (round8_mono b1 b2 ltac:(subst b1 b2; nia)) as Hmono.
  assert (Hb1' : 0 <= b1) by (subst b1; nia).
  assert (Hlen1 : length (payload dm (var_T v) xs) = Z.to_nat b1).
  { rewrite length_payload. fold n sz. subst b1. nia. }
  assert (Hlen2 : length (payload dm (var_T v) ys) = (sz * m)%nat).
  { rewrite length_payload. fold m sz. lia. }
  unfold holding. cbn [_count _mat_tag_offset _dim_tag_offset _mat_tag_size
    _re_tag_offset _fp _name var_T with_fp with_count v1].
  change (name_size (with_fp _ _)) with (name_size v).
  change (data_start (with_fp _ _)) with (data_start v).
  rewrite length_app. fold n m. rewrite Nat2Z.inj_add.
  split; [by rewrite Hc1|]. split; [done|]. split; [done|]. split; [done|].
  split; [done|].
  exists f'. split; [done|]. fold sz.
  split; [unfold data_start; rewrite Hp'; nia|].
  split; [rewrite Hp'; done|].
  right. rewrite Hd'.
  assert (Hmax2 : data_start v + (Z.of_nat n + Z.of_nat m) * Z.of_nat sz <= LONG_MAX dm).
  { unfold data_start. rewrite Nat2Z.inj_add, Nat2Z.inj_mul in Hmax'. lia. }
  rewrite (patched_exact dm v1 (Z.of_nat n + Z.of_nat m));
    [ | exact Hc1 | lia | exact Hsize | exact Hmat | exact Hdim | exact Hre | exact Hmax2 ].
  cbn [var_T v1 with_count]. fold sz w b2.
  change (name_size v1) with (name_size v).
  change (data_start v1) with (data_start v). unfold data_start.
  set (pad1 := Z.to_nat (round8 b1 - b1)).
  set (pad2 := Z.to_nat (round8 b2 - b2)).
  replace (Z.to_nat (184 + round8 (name_size v) - 4)) with (S - 4)%nat by lia.
  replace (f_pos f) with (S + length (payload dm (var_T v) xs))%nat by lia.
  replace (S + length (payload dm (var_T v) xs) + sz * m)%nat
    with (S + length (payload dm (var_T v) xs) + length (payload dm (var_T v) ys))%nat
    by lia.
  rewrite (overlay (preamble env k (_name v)) (payload dm (var_T v) xs)
             (payload dm (var_T v) ys) (f_data f) _ _ _ w S pad1 pad2);
    try done; try apply length_le_bytes; try lia.
  - unfold image. cbv zeta. rewrite length_app. fold n m sz w.
    rewrite Nat2Z.inj_add. fold b2 pad2. fold (name_size v).
    replace (Z.to_nat (180 + round8 (name_size v))) with (S - 4)%nat by lia.
    by rewrite payload_app.
  - destruct Hdata as [[Hx Hd0] | Hd0]; rewrite Hd0.
    + assert (Hz : b1 = 0) by (subst b1 n; rewrite Hx; cbn [length]; lia).
      subst pad1. rewrite Hlen1, Hz. change (round8 0 - 0) with 0. fold S. lia.
    + destruct (image_outside (var_T v) (_name v) xs) as [Hl _].
      fold n sz b1 pad1 S in Hl. lia.
  - destruct Hdata as [[Hx Hd0] | Hd0]; rewrite Hd0.
    + assert (Hz : b1 = 0) by (subst b1 n; rewrite Hx; cbn [length]; lia).
      intros i _ _ _. subst pad1. rewrite Hz, Hx. change (round8 0 - 0) with 0.
      cbn. by rewrite app_nil_r.
    + destruct (image_outside (var_T v) (_name v) xs) as [_ Ho].
      fold n sz b1 pad1 S w in Ho. exact Ho.
  - intros j Hj Hj'. apply (le_bytes_high w b2 4 j); [|lia].
    assert (0 <= b2) by (subst b2; nia).
    change (2 ^ (8 * Z.of_nat 4)) with 4294967296.
    assert (Z.of_nat (Z.to_nat b1) + Z.of_nat (sz * m) = b2) by (subst b1 b2; nia).
    lia.
Qed.

End Holding.

(** ** Runs of calls *)

(** An array [write] that returned 1: the elements went to the current
    position and the counters were patched for the new count. *)
Lemma Variable_write_array_data dm data numel v f v' :
  _fp v = Some f ->
  Variable_write_array dm data numel v = Returns (1, v') ->
  let sz := sizeof dm (var_T v) in
  let v1 := with_count (to_size_t dm (_count v + Z.of_nat numel)) v in
  (numel <= length data)%nat
  /\ exists f', v' = with_fp (Some f') v1
    /\ f_pos f' = (f_pos f + sz * numel)%nat
    /\ Z.of_nat (f_pos f + sz * numel) <= LONG_MAX dm
    /\ f_data f'
       = patched dm v1
           (write_at (f_data f) (f_pos f) (payload dm (var_T v) (take numel data)))
           (f_pos f + sz * numel).
Proof.
  intros Hfp H sz v1. unfold Variable_write_array in H. rewrite Hfp in H.
  destruct (Nat.ltb_spec (length data) numel) as [|Hlen]; [done|].
  split; [done|].
  cbv beta zeta in H. fold sz in H.
  pose proof (sizeof_bounds dm (var_T v)) as Hsz. fold sz in Hsz.
  bind_inv H num v2 Hm. unfold fwrite in Hm. stream_inv Hm Hfp f1.
  bind_inv H u v3 Ha. unfold assign in Ha. injection Ha as _ <-.
  destruct (Z.eqb_spec num (Z.of_nat numel)) as [E|E];
    [| apply mret_Returns in H; destruct H; discriminate].
  bind_inv H ok v4 Hu. apply mret_Returns in H as [Hok ->].
  destruct ok; [|discriminate].
  subst v2. rewrite E in Hu. rewrite E in Hr. symmetry in Hr.
  change (concat (map (le_bytes sz) data)) with (payload dm (var_T v) data) in *.
  apply FILE_fwrite_full in Hr as (Hd1 & Hp1); [| lia | rewrite length_payload; fold sz; nia].
  fold f1 in Hd1, Hp1.
  change (take (sz * numel) (payload dm (var_T v) data))
    with (take (sizeof dm (var_T v) * numel) (payload dm (var_T v) data)) in Hd1.
  rewrite take_payload in Hd1.
  apply (update_counters_true dm _ f1) in Hu; [|done].
  destruct Hu as (f' & -> & Hp' & Hmax & _ & _ & _ & Hd').
  exists f'. rewrite Hp1 in Hp', Hmax, Hd'. rewrite Hd1 in Hd'.
  repeat split; done.
Qed.

Section Fed.

Variable dm : DataModel.
Variable env : Env.
Variable k : ElementKind.

Lemma holding_write v xs x v' :
  holding dm env k v xs ->
  Variable_write dm x v = Returns (true, v') ->
  holding dm env k v' (xs ++ [x]) /\ _name v' = _name v /\ var_T v' = var_T v.
Proof.
  intros Hh H.
  pose proof Hh as (_ & _ & _ & _ & _ & f & Hfp & _).
  destruct (Variable_write_data dm x v f v' Hfp H)
    as (f' & -> & Hp' & Hmax' & _ & _ & _ & Hd').
  split; [|done].
  apply (holding_step dm env k v xs [x] f f' Hh Hfp).
  - cbn [length]. by rewrite Nat.mul_1_r.
  - cbn [length]. by rewrite Nat.mul_1_r.
  - cbn [length]. rewrite Nat.mul_1_r. unfold payload. cbn [map concat].
    by rewrite app_nil_r.
Qed.

Lemma holding_write_array v xs data numel v' :
  holding dm env k v xs ->
  Variable_write_array dm data numel v = Returns (1, v') ->
  holding dm env k v' (xs ++ take numel data)
  /\ _name v' = _name v /\ var_T v' = var_T v.
Proof.
  intros Hh H.
  pose proof Hh as (_ & _ & _ & _ & _ & f & Hfp & _).
  destruct (Variable_write_array_data dm data numel v f v' Hfp H)
    as (Hlen & f' & -> & Hp' & Hmax' & Hd').
  split; [|done].
  assert (Hl : length (take numel data) = numel) by (rewrite length_take; lia).
  pose proof (holding_step dm env k v xs (take numel data) f f' Hh Hfp) as Hstep.
  cbv zeta in Hstep. rewrite Hl in Hstep. by apply Hstep.
Qed.

Lemma fed_holding v0 xs v :
  holding dm env k v0 [] -> fed dm v0 xs v ->
  holding dm env k v xs /\ _name v = _name v0 /\ var_T v = var_T v0.
Proof.
  intros H0 Hf. induction Hf as [|xs v x v' Hf IH Hx|xs v data numel v' Hf IH Hx].
  - done.
  - destruct IH as (Hh & Hn & HT).
    destruct (holding_write v xs x v' Hh Hx) as (Hh' & Hn' & HT').
    split; [done|]. split; congruence.
  - destruct IH as (Hh & Hn & HT).
    destruct (holding_write_array v xs data numel v' Hh Hx) as (Hh' & Hn' & HT').
    split; [done|]. split; congruence.
Qed.

End Fed.

Lemma fed_not_ready dm v0 xs v :
  _fp v0 = None -> fed dm v0 xs v -> xs = [] /\ v = v0.
Proof.
  intros Hnull Hf. induction Hf as [|xs v x v' Hf IH Hx|xs v data numel v' Hf IH Hx].
  - done.
  - destruct IH as [-> ->]. by rewrite (Variable_write_null dm x v0 Hnull) in Hx.
  - destruct IH as [-> ->]. unfold Variable_write_array in Hx. by rewrite Hnull in Hx.
Qed.

(** A constructor that left the stream open: the object holds no element
    and its file is the preamble. *)
Lemma Variable_ctor_holding dm env T path name v0 :
  Variable_ctor dm env T path name = Returns v0 -> is_Some (_fp v0) ->
  exists k, miType_of dm T = Some k /\ holding dm env k v0 []
    /\ var_T v0 = T /\ _name v0 = name.
Proof.
  intros Hc [f Hfp].
  destruct (Variable_ctor_ready dm env T path name v0 Hc) as (Hs & HT & Hn & _);
    [by eexists|].
  destruct (Variable_ctor_bytes dm env T path name v0 f Hc Hfp) as (k & Hk & Hd).
  exists k. split; [done|]. split; [|done].
  destruct Hs as [_ Hcount Hmat Hdim Hsize Hre (f' & Hfp' & Hpos & _ & Hmax)].
  rewrite Hfp in Hfp'. injection Hfp' as <-.
  unfold holding. cbn [length]. rewrite Hn.
  repeat split; try done.
  exists f. split; [done|]. split; [rewrite Hpos; lia|]. split; [done|].
  left. by split.
Qed.

Lemma image_length dm env T k name xs :
  xs <> [] ->
  Z.of_nat (length (image dm env T k name xs))
  = 184 + round8 (Z.of_nat (String.length name))
    + round8 (Z.of_nat (length xs) * Z.of_nat (sizeof dm T)).
Proof.
  intros Hxs.
  pose proof (length_preamble env k name) as HS.
  pose proof (round8_spec (Z.of_nat (String.length name))) as [Hn8 _].
  pose proof (sizeof_size_t_bounds dm) as Hw.
  pose proof (sizeof_bounds dm T) as Hsz.
  assert (Hn : (1 <= length xs)%nat) by (destruct xs; [done|cbn; lia]).
  set (bytes := Z.of_nat (length xs) * Z.of_nat (sizeof dm T)).
  assert (Hb : 1 <= bytes) by (subst bytes; nia).
  pose proof (round8_spec bytes) as [Hb8 Hb8'].
  assert (Hb8'' : 8 <= round8 bytes) by zlia.
  unfold image. cbv zeta. fold bytes.
  set (b0 := preamble env k name ++ _).
  assert (Hb0 : Z.of_nat (length b0)
                = 184 + round8 (Z.of_nat (String.length name)) + round8 bytes).
  { subst b0. rewrite !length_app, length_replicate, length_payload.
    rewrite !Nat2Z.inj_add, HS, Nat2Z.inj_mul. fold bytes. lia. }
  set (e1 := write_at b0 132%nat _).
  assert (H1 : length e1 = length b0).
  { subst e1. rewrite length_write_at by lia. rewrite length_le_bytes. lia. }
  set (e2 := write_at e1 164%nat _).
  assert (H2 : length e2 = length b0).
  { subst e2. rewrite length_write_at by lia. rewrite length_le_bytes. lia. }
  rewrite length_write_at by lia. rewrite length_le_bytes. lia.
Qed.

(** ** The file after a run *)

Section FileImage.

Lemma write_all_fed dm xs v0 v :
  write_all dm xs v0 = Returns (true, v) -> fed dm v0 xs v.
Proof.
  enough (Hgen : forall ys u, fed dm v0 ys u -> write_all dm xs u = Returns (true, v) ->
                              fed dm v0 (ys ++ xs) v).
  { intros H. apply (Hgen [] v0); [constructor|done]. }
  induction xs as [|x xs IH]; intros ys u Hu H.
  - injection H as <-. by rewrite app_nil_r.
  - cbn [write_all] in H.
    destruct (Variable_write dm x u) as [[[] u']|] eqn:Hx; try done.
    replace (ys ++ x :: xs) with ((ys ++ [x]) ++ xs) by (by rewrite <- app_assoc).
    apply (IH _ u'); [|done]. by apply (fed_element dm v0 ys u x u').
Qed.

Lemma fed_ready dm v0 xs v :
  fed dm v0 xs v -> xs <> [] -> is_Some (_fp v0).
Proof.
  intros Hf Hxs. destruct (_fp v0) as [f0|] eqn:Hf0; [by eexists|].
  by destruct (fed_not_ready dm v0 xs v Hf0 Hf) as [-> _].
Qed.

(** The file and the stream after successful calls that handed over at
    least one element. *)
Lemma fed_image dm env T path name v0 xs v :
  Variable_ctor dm env T path name = Returns v0 ->
  fed dm v0 xs v -> xs <> [] ->
  exists f k, _fp v = Some f /\ miType_of dm T = Some k
    /\ f_data f = image dm env T k name xs
    /\ Z.of_nat (f_pos f)
       = 184 + round8 (Z.of_nat (String.length name))
         + Z.of_nat (length xs) * Z.of_nat (sizeof dm T)
    /\ _count v = Z.of_nat (length xs).
Proof.
  intros Hc Hf Hxs.
  destruct (Variable_ctor_holding dm env T path name v0 Hc (fed_ready dm v0 xs v Hf Hxs))
    as (k & Hk & H0 & HT0 & Hn0).
  destruct (fed_holding dm env k v0 xs v H0 Hf) as (Hh & Hn & HT).
  destruct Hh as (Hcount & _ & _ & _ & _ & f & Hfp & Hpos & _ & Hd).
  destruct Hd as [[Hnil _]|Hd]; [done|].
  rewrite HT, HT0, Hn, Hn0 in Hd. rewrite HT, HT0 in Hpos.
  unfold data_start, name_size in Hpos. rewrite Hn, Hn0 in Hpos.
  exists f, k. by repeat split.
Qed.

(** X6: the file after calls of [write], of one element or of an array,
    that reported success and handed over the elements [xs], at least one:
    it is the image of [xs], whatever the calls were.  The image is the
    preamble, the elements in order and zeros up to a multiple of 8 bytes,
    with the three counters stored as [size_t] values; the stream stands at
    the end of the payload. *)
Theorem fed_file_image dm env T path name v0 xs v :
  Variable_ctor dm env T path name = Returns v0 ->
  fed dm v0 xs v -> xs <> [] ->
  exists f k, _fp v = Some f /\ miType_of dm T = Some k
    /\ f_data f = image dm env T k name xs
    /\ Z.of_nat (length (f_data f))
       = 184 + round8 (Z.of_nat (String.length name))
         + round8 (Z.of_nat (length xs) * Z.of_nat (sizeof dm T))
    /\ Z.of_nat (f_pos f)
       = 184 + round8 (Z.of_nat (String.length name))
         + Z.of_nat (length xs) * Z.of_nat (sizeof dm T)
    /\ _count v = Z.of_nat (length xs).
Proof.
  intros Hc Hf Hxs.
  destruct (fed_image dm env T path name v0 xs v Hc Hf Hxs)
    as (f & k & Hfp & Hk & Hd & Hpos & Hcount).
  exists f, k. split; [done|]. split; [done|]. split; [done|].
  split; [|done]. rewrite Hd. by apply image_length.
Qed.

(** X6, a witness: ["ints"] after the elements -1, 0, 1, 2. *)
Lemma fed_file_image_witness :
  exists f k, _fp ints_4 = Some f /\ miType_of ILP32 Int = Some k
    /\ f_data f = image ILP32 willing Int k "ints" [-1; 0; 1; 2]
    /\ Z.of_nat (length (f_data f))
       = 184 + round8 (Z.of_nat (String.length "ints"))
         + round8 (Z.of_nat (length [-1; 0; 1; 2]) * Z.of_nat (sizeof ILP32 Int))
    /\ Z.of_nat (f_pos f)
       = 184 + round8 (Z.of_nat (String.length "ints"))
         + Z.of_nat (length [-1; 0; 1; 2]) * Z.of_nat (sizeof ILP32 Int)
    /\ _count ints_4 = Z.of_nat (length [-1; 0; 1; 2]).
Proof.
  apply (fed_file_image ILP32 willing Int "out" "ints" ints_0 [-1; 0; 1; 2] ints_4).
  - vm_compute. reflexivity.
  - apply write_all_fed. vm_compute. reflexivity.
  - discriminate.
Defined.

Lemma payload_element dm T xs i x r :
  xs !! i = Some x ->
  take (sizeof dm T) (drop (i * sizeof dm T) (payload dm T xs ++ r))
  = le_bytes (sizeof dm T) x.
Proof.
  unfold payload. revert i. induction xs as [|y xs IH]; intros i Hi; [done|].
  cbn [map concat]. rewrite <- app_assoc. destruct i as [|i].
  - injection Hi as ->. cbn [Nat.mul drop].
    apply take_app_length'. by rewrite length_le_bytes.
  - cbn [Nat.mul]. rewrite (drop_app_add' (le_bytes (sizeof dm T) y));
      [|by rewrite length_le_bytes].
    by apply IH.
Qed.

(** X7: an element written is read back from its place in the file: the
    [sizeof(T)] bytes at offset [184 + round8 (length of the name)
    + i * sizeof(T)] decode to the [i]-th element handed over (as an unsigned
    value), provided [size_t] has four bytes or the element lies past the
    first four bytes of the payload. *)
Theorem fed_element_read_back dm env T path name v0 xs v f i x :
  Variable_ctor dm env T path name = Returns v0 ->
  fed dm v0 xs v -> _fp v = Some f ->
  xs !! i = Some x ->
  sizeof_size_t dm = 4%nat \/ (4 <= i * sizeof dm T)%nat ->
  le_decode
    (take (sizeof dm T)
       (drop (Z.to_nat (184 + round8 (Z.of_nat (String.length name))) + i * sizeof dm T)
             (f_data f)))
  = x mod 2 ^ (8 * Z.of_nat (sizeof dm T)).
Proof.
  intros Hc Hf Hfp Hi Hfar.
  assert (Hxs : xs <> []) by (by destruct xs).
  destruct (fed_image dm env T path name v0 xs v Hc Hf Hxs)
    as (f' & k & Hfp' & _ & Hd & _).
  rewrite Hfp in Hfp'. injection Hfp' as <-.
  pose proof (length_preamble env k name) as HS.
  pose proof (round8_spec (Z.of_nat (String.length name))) as [Hn8 _].
  pose proof (sizeof_size_t_bounds dm) as Hw.
  pose proof (sizeof_bounds dm T) as Hsz.
  set (S := length (preamble env k name)) in *.
  replace (Z.to_nat (184 + round8 (Z.of_nat (String.length name)))) with S by lia.
  rewrite Hd. unfold image. cbv zeta.
  replace (Z.to_nat (180 + round8 (Z.of_nat (String.length name)))) with (S - 4)%nat by lia.
  set (b0 := preamble env k name ++ _).
  assert (Hb0 : (S <= length b0)%nat).
  { subst b0 S. rewrite length_app. lia. }
  set (e1 := write_at b0 132%nat _).
  destruct (length_write_at_ge b0 132%nat
              (le_bytes (sizeof_size_t dm)
                 (48 + round8 (Z.of_nat (String.length name))
                  + round8 (Z.of_nat (length xs) * Z.of_nat (sizeof dm T))))
              ltac:(lia)) as [Hm1 _].
  fold e1 in Hm1.
  set (e2 := write_at e1 164%nat _).
  destruct (length_write_at_ge e1 164%nat
              (le_bytes (sizeof_size_t dm) (Z.of_nat (length xs))) ltac:(lia)) as [Hm2 _].
  fold e2 in Hm2.
  rewrite (read_write_at_other e2) by (rewrite ?length_le_bytes; lia).
  subst e2. rewrite (read_write_at_other e1) by (rewrite ?length_le_bytes; lia).
  subst e1. rewrite (read_write_at_other b0) by (rewrite ?length_le_bytes; lia).
  subst b0. rewrite (drop_app_add' (preamble env k name)) by done.
  rewrite (payload_element dm T xs i x _ Hi).
  by rewrite le_decode_le_bytes.
Qed.

(** After successful calls of the two [write] functions the file ends a
    multiple of 8 bytes past the 128-byte header: before the first call,
    once an element has been handed over, and where [size_t] is 4 bytes wide
    after empty arrays as well.  (Where it is 8 bytes wide an empty array
    handed to a fresh encoder breaks this.) *)
Lemma file_size_aligned dm env T path name v0 xs v f :
  Variable_ctor dm env T path name = Returns v0 ->
  fed dm v0 xs v -> _fp v = Some f ->
  xs <> [] \/ sizeof_size_t dm = 4%nat \/ v = v0 ->
  (Z.of_nat (length (f_data f)) - 128) mod 8 = 0.
Proof.
  intros Hc Hf Hfp Hcase.
  pose proof (round8_spec (Z.of_nat (String.length name))) as [Hn8 Hn8'].
  pose proof (round8_spec (Z.of_nat (length xs) * Z.of_nat (sizeof dm T))) as [_ Hb8].
  assert (Hpre : forall k, (Z.of_nat (length (preamble env k name)) - 128) mod 8 = 0).
  { intros k. rewrite length_preamble. zlia. }
  destruct (decide (xs = [])) as [->|Hxs].
  - destruct Hcase as [?|[Hw| ->]]; [done| |].
    + assert (Hready : is_Some (_fp v0)).
      { destruct (_fp v0) as [f0|] eqn:Hf0; [by eexists|].
        destruct (fed_not_ready dm v0 [] v Hf0 Hf) as [_ ->]. congruence. }
      destruct (Variable_ctor_holding dm env T path name v0 Hc Hready)
        as (k & Hk & H0 & HT0 & Hn0).
      destruct (fed_holding dm env k v0 [] v H0 Hf) as (Hh & Hn & HT).
      destruct Hh as (_ & _ & _ & _ & _ & f' & Hfp' & _ & _ & Hd).
      rewrite Hfp in Hfp'. injection Hfp' as <-.
      destruct Hd as [[_ Hd]|Hd]; rewrite Hd, Hn, Hn0; [done|].
      pose proof (length_preamble env k name) as HS.
      unfold image. cbv zeta. cbn [length payload map concat].
      change (round8 (0 * _) - 0 * _) with 0. cbn [Z.to_nat replicate].
      rewrite !app_nil_r, Hw.
      set (e1 := write_at (preamble env k name) 132%nat _).
      assert (H1 : length e1 = length (preamble env k name)).
      { subst e1. rewrite length_write_at by lia. rewrite length_le_bytes. lia. }
      set (e2 := write_at e1 164%nat _).
      assert (H2 : length e2 = length (preamble env k name)).
      { subst e2. rewrite length_write_at by lia. rewrite length_le_bytes. lia. }
      rewrite length_write_at by lia. rewrite length_le_bytes.
      replace (Nat.max _ _) with (length (preamble env k name)) by lia.
      done.
    + destruct (Variable_ctor_bytes dm env T path name v0 f Hc Hfp) as (k & _ & ->).
      done.
  - destruct (fed_image dm env T path name v0 xs v Hc Hf Hxs)
      as (f' & k & Hfp' & _ & Hd & _).
    rewrite Hfp in Hfp'. injection Hfp' as <-.
    rewrite Hd, image_length by done. zlia.
Qed.

End FileImage.

(** X7, a witness: the third element of ["ints"], on ILP32. *)
Lemma fed_element_read_back_witness :
  exists f, _fp ints_4 = Some f
    /\ le_decode
         (take (sizeof ILP32 Int)
            (drop (Z.to_nat (184 + round8 (Z.of_nat (String.length "ints")))
                   + 2 * sizeof ILP32 Int)
                  (f_data f)))
       = 1 mod 2 ^ (8 * Z.of_nat (sizeof ILP32 Int)).
Proof.
  eexists. split; [reflexivity|].
  apply (fed_element_read_back ILP32 willing Int "out" "ints" ints_0 [-1; 0; 1; 2] ints_4).
  - vm_compute. reflexivity.
  - apply write_all_fed. vm_compute. reflexivity.
  - reflexivity.
  - reflexivity.
  - left. reflexivity.
Defined.

(** ** Hosts that let every call succeed *)

Section Faultless.

(** On a stream with no failure ahead a write is complete. *)
Lemma fwrite_ok buf size n v f :
  _fp v = Some f -> f_io f = [] -> (0 < size)%nat -> (size * n <= length buf)%nat ->
  exists f', fwrite buf size n v = Returns (Z.of_nat n, with_fp (Some f') v)
    /\ f_io f' = [] /\ f_pos f' = (f_pos f + size * n)%nat
    /\ f_data f' = write_at (f_data f) (f_pos f) (take (size * n) buf).
Proof.
  intros Hfp Hio Hs Hb. unfold fwrite. rewrite (on_stream_open _ _ _ Hfp).
  pose proof (FILE_fwrite_ok buf size n f (next_event_faultless f Hio) Hs Hb) as Hn.
  destruct (FILE_fwrite_full buf size n f Hs Hb Hn) as [Hd Hp].
  exists (FILE_fwrite buf size n f).2. rewrite Hn. split; [done|].
  rewrite FILE_fwrite_io, Hio. done.
Qed.

Lemma with_fp_with_fp a b v : with_fp a (with_fp b v) = with_fp a v.
Proof. done. Qed.

Lemma assign_run upd v : assign upd v = Returns (tt, upd v).
Proof. done. Qed.

Lemma ftell_ok dm v f :
  _fp v = Some f -> f_io f = [] -> Z.of_nat (f_pos f) <= LONG_MAX dm ->
  exists f', ftell dm v = Returns (Z.of_nat (f_pos f), with_fp (Some f') v)
    /\ f_io f' = [] /\ f_pos f' = f_pos f /\ f_data f' = f_data f.
Proof.
  intros Hfp Hio Hmax. rewrite (ftell_run dm v f Hfp Hio Hmax).
  eexists. split; [done|]. done.
Qed.

End Faultless.

(** Runs the next guarded [fwrite] of a sequence on a stream with no
    failure ahead. *)
Ltac fwrite_next Hio Hpos f' Hio' Hpos' :=
  lazymatch goal with
  | |- context [ mbind _ (fwrite ?buf ?size ?n) (with_fp (Some ?g) ?w) ] =>
      let Hrun := fresh "Hrun" in
      destruct (fwrite_ok buf size n (with_fp (Some g) w) g eq_refl Hio)
        as (f' & Hrun & Hio' & Hpos' & _);
      [ first [lia | simpl; lia] | append_side |];
      rewrite (bind_Returns_l _ _ _ _ _ Hrun); cbv beta;
      rewrite ?with_fp_with_fp;
      rewrite Hpos in Hpos'; clear Hrun
  end.

Section ConstructorRuns.

Variable dm : DataModel.
Variable env : Env.

Lemma write_header_run v f :
  _fp v = Some f -> f_io f = [] ->
  exists f', write_header dm env v = Returns (true, with_fp (Some f') v)
    /\ f_io f' = [] /\ f_pos f' = (f_pos f + 128)%nat.
Proof.
  intros Hfp Hio. unfold write_header. cbv beta zeta.
  set (header := take _ _ ++ replicate _ 0).
  assert (Hh : length header = 124%nat).
  { subst header. rewrite length_app, length_take, length_replicate.
    unfold HEADER_SIZE. lia. }
  destruct (fwrite_ok header 1 HEADER_SIZE v f Hfp Hio) as (f1 & Hr1 & Hio1 & Hp1 & _);
    [lia | unfold HEADER_SIZE; lia |].
  rewrite (bind_Returns_l _ _ _ _ _ Hr1). cbv beta.
  destruct (fwrite_ok (le_bytes (sizeof dm Short) 256) (sizeof dm Short) 1
              (with_fp (Some f1) v) f1 eq_refl Hio1) as (f2 & Hr2 & Hio2 & Hp2 & _);
    [simpl; lia | rewrite length_le_bytes; lia |].
  rewrite (bind_Returns_l _ _ _ _ _ Hr2). cbv beta.
  destruct (fwrite_ok (le_bytes (sizeof dm Short) (Z.lor (Z.shiftl 77 8) 73))
              (sizeof dm Short) 1
              (with_fp (Some f2) (with_fp (Some f1) v)) f2 eq_refl Hio2)
    as (f3 & Hr3 & Hio3 & Hp3 & _);
    [simpl; lia | rewrite length_le_bytes; lia |].
  rewrite (bind_Returns_l _ _ _ _ _ Hr3). cbv beta.
  exists f3. split.
  - unfold mret, M_ret. f_equal. f_equal.
    unfold HEADER_SIZE. by destruct dm.
  - split; [done|]. rewrite Hp3, Hp2, Hp1. unfold HEADER_SIZE. simpl. lia.
Qed.

Lemma write_meta_data_run v f k :
  _fp v = Some f -> f_io f = [] ->
  (String.length (_name v) <= PATH_MAX)%nat ->
  (f_pos f <= 4096)%nat ->
  miType_of dm (var_T v) = Some k ->
  exists v', write_meta_data dm v = Returns (true, v') /\ faultless v'.
Proof.
  intros Hfp Hio Hname Hpos Hk. unfold write_meta_data. cbv beta zeta.
  unfold PATH_MAX in Hname.
  unfold ARRAY_FLAGS_SIZE, DIM_ARRAY_SIZE, ARRAY_NAME_TAG_SIZE, RE_TAG_SIZE.
  fold (name_size v).
  assert (Hsize : 0 <= name_size v <= 4096) by (unfold name_size; lia).
  set (size := name_size v) in *.
  pose proof (round8_spec size) as [Hr8 Hr8'].
  assert (Hrem : to_int (size mod 8) = size mod 8) by (apply to_int_small; zlia).
  rewrite Hrem, Hk.
  set (bytes := if size mod 8 =? 0 then _ else _).
  rewrite (bind_Returns_l _ _ _ _ _ (assign_run _ _)). cbv beta.
  set (v0 := with_mat_tag_size _ v).
  destruct (fwrite_ok (int_array dm [miMATRIX; bytes; mi miUINT32; 8]) (sizeof dm Int) 4
              v0 f Hfp Hio) as (f1 & Hr1 & Hio1 & Hp1 & _);
    [simpl; lia | rewrite length_int_array; simpl; lia |].
  rewrite (bind_Returns_l _ _ _ _ _ Hr1). cbv beta.
  change (Z.of_nat 4 =? 4) with true. cbn [negb].
  fwrite_next Hio1 Hp1 f2 Hio2 Hp2. change (Z.of_nat 8 =? 8) with true. cbn [negb].
  fwrite_next Hio2 Hp2 f3 Hio3 Hp3. change (Z.of_nat 4 =? 4) with true. cbn [negb].
  fwrite_next Hio3 Hp3 f4 Hio4 Hp4. change (Z.of_nat 2 =? 2) with true. cbn [negb].
  fwrite_next Hio4 Hp4 f5 Hio5 Hp5. fold size. rewrite Z.eqb_refl. cbn [negb].
  assert (Hpadded : exists f6,
    (if negb (size mod 8 =? 0)
     then n ← fwrite [0; 0; 0; 0; 0; 0; 0; 0] 1 (Z.to_nat (8 - size mod 8));
          mret (n =? to_size_t dm (8 - size mod 8))
     else mret true) (with_fp (Some f5) v0)
    = Returns (true, with_fp (Some f6) v0)
    /\ f_io f6 = [] /\ (f_pos f6 <= f_pos f + 4200)%nat).
  { destruct (Z.eqb_spec (size mod 8) 0) as [Ez|Enz]; cbn [negb].
    - exists f5. split; [done|]. split; [done|].
      rewrite Hp5. simpl. unfold size, name_size. lia.
    - destruct (fwrite_ok [0; 0; 0; 0; 0; 0; 0; 0] 1 (Z.to_nat (8 - size mod 8))
                  (with_fp (Some f5) v0) f5 eq_refl Hio5)
        as (f6 & Hr6 & Hio6 & Hp6 & _); [lia | simpl; zlia |].
      rewrite (bind_Returns_l _ _ _ _ _ Hr6). cbv beta.
      assert (Hb : (Z.of_nat (Z.to_nat (8 - size mod 8)) =? to_size_t dm (8 - size mod 8))
                   = true).
      { rewrite to_size_t_small32 by zlia. rewrite Z2Nat.id by zlia. apply Z.eqb_refl. }
      rewrite Hb, with_fp_with_fp. exists f6. split; [reflexivity|].
      split; [done|]. rewrite Hp6, Hp5. simpl. unfold size, name_size. zlia. }
  destruct Hpadded as (f6 & Hr6 & Hio6 & Hp6).
  rewrite (bind_Returns_l _ _ _ _ _ Hr6). cbv beta. cbn [negb].
  destruct (fwrite_ok (int_array dm [mi k; 0]) (sizeof dm Int) 2
              (with_fp (Some f6) v0) f6 eq_refl Hio6) as (f7 & Hr7 & Hio7 & Hp7 & _);
    [simpl; lia | rewrite length_int_array; simpl; lia |].
  rewrite (bind_Returns_l _ _ _ _ _ Hr7). cbv beta.
  change (Z.of_nat 2 =? 2) with true. cbn [negb].
  assert (Hmax : Z.of_nat (f_pos f7) <= LONG_MAX dm).
  { rewrite Hp7. simpl. assert (2 ^ 31 - 1 <= LONG_MAX dm) by (by destruct dm). lia. }
  rewrite with_fp_with_fp.
  destruct (ftell_ok dm (with_fp (Some f7) v0) f7 eq_refl Hio7 Hmax)
    as (f8 & Hr8t & Hio8 & Hp8 & _).
  rewrite (bind_Returns_l _ _ _ _ _ Hr8t). cbv beta.
  rewrite (bind_Returns_l _ _ _ _ _ (assign_run _ _)). cbv beta.
  assert (Hpos7 : to_int (Z.of_nat (f_pos f7)) = Z.of_nat (f_pos f7)).
  { apply to_int_small. rewrite Hp7. simpl. lia. }
  rewrite Hpos7.
  destruct (Z.eqb_spec (Z.of_nat (f_pos f7)) (-1)) as [|_]; [lia|].
  rewrite (bind_Returns_l _ _ _ _ _ (assign_run _ _)). cbv beta.
  eexists. split; [reflexivity|]. exists f8. split; [reflexivity|done].
Qed.

End ConstructorRuns.

Section Willing.

Variable dm : DataModel.
Variable env : Env.

(** The constructor on a host that opens the file and lets every call on
    the stream succeed, for an element type that has a kind. *)
Lemma Variable_ctor_run T path name k :
  fs_open env (path +:+ separator env +:+ name +:+ ".mat") = Some [] ->
  (String.length (path +:+ separator env +:+ name +:+ ".mat") <= PATH_MAX)%nat ->
  miType_of dm T = Some k ->
  exists v, Variable_ctor dm env T path name = Returns v
    /\ faultless v /\ holding dm env k v [] /\ var_T v = T /\ _name v = name.
Proof.
  intros Hopen Hpath Hk.
  assert (Hf0 : fopen env (path +:+ separator env +:+ name +:+ ".mat")
                = Some (mkFILE [] 0 [])).
  { unfold fopen. destruct (Nat.ltb_spec PATH_MAX (String.length
      (path +:+ separator env +:+ name +:+ ".mat"))); [lia|]. by rewrite Hopen. }
  assert (Hname : (String.length name <= PATH_MAX)%nat).
  { rewrite !string_length_append in Hpath. lia. }
  assert (Hrun : exists v, Variable_ctor dm env T path name = Returns v /\ faultless v).
  { rewrite Variable_ctor_unfold, Hf0.
    set (f0 := mkFILE [] 0 []).
    set (this := initialised T name (Some f0)).
    unfold Variable_ctor_body.
    destruct (write_header_run dm env this f0 eq_refl eq_refl) as (f1 & Hh & Hio1 & Hp1).
    rewrite (bind_Returns_l _ _ _ _ _ Hh). cbv beta iota.
    destruct (write_meta_data_run dm (with_fp (Some f1) this) f1 k eq_refl Hio1)
      as (v & Hm & Hfl); [done | rewrite Hp1; cbn; lia | done |].
    rewrite (bind_Returns_l _ _ _ _ _ Hm). cbv beta. cbn [negb].
    exists v. by split. }
  destruct Hrun as (v & Hc & Hfl). exists v. split; [done|]. split; [done|].
  destruct Hfl as (f & Hfp & _).
  destruct (Variable_ctor_holding dm env T path name v Hc) as (k' & Hk' & Hh & HT & Hn);
    [by eexists|].
  rewrite Hk in Hk'. injection Hk' as <-. done.
Qed.

(** X4: on a host that opens the file and lets every call on the stream
    succeed, the constructor returns, and the encoder it leaves is ready
    exactly when the element type has a kind; a ready encoder has written
    the whole preamble and has no failure ahead. *)
Theorem Variable_ctor_ready_iff T path name :
  fs_open env (path +:+ separator env +:+ name +:+ ".mat") = Some [] ->
  (String.length (path +:+ separator env +:+ name +:+ ".mat") <= PATH_MAX)%nat ->
  exists v, Variable_ctor dm env T path name = Returns v
    /\ (is_Some (_fp v) <-> is_Some (miType_of dm T))
    /\ (is_Some (_fp v) -> faultless v /\ streaming dm v 0).
Proof.
  intros Hopen Hpath.
  destruct (miType_of dm T) as [k|] eqn:Hk.
  - destruct (Variable_ctor_run T path name k Hopen Hpath Hk) as (v & Hc & Hfl & _).
    exists v. split; [done|].
    assert (Hready : is_Some (_fp v)) by (destruct Hfl as (f & -> & _); by eexists).
    split; [by split; [eexists|]|]. intros _. split; [done|].
    by destruct (Variable_ctor_ready dm env T path name v Hc Hready).
  - assert (Hf0 : fopen env (path +:+ separator env +:+ name +:+ ".mat")
                  = Some (mkFILE [] 0 [])).
    { unfold fopen. destruct (Nat.ltb_spec PATH_MAX (String.length
        (path +:+ separator env +:+ name +:+ ".mat"))); [lia|]. by rewrite Hopen. }
    destruct (Variable_ctor_open dm env T path name _ Hf0) as (v & Hc & _).
    exists v. split; [done|].
    assert (Hnot : ~ is_Some (_fp v)).
    { intros Hready.
      destruct (Variable_ctor_ready dm env T path name v Hc Hready) as (_ & _ & _ & Hs).
      rewrite Hk in Hs. by destruct Hs. }
    split; [split; [done|by intros []]|done].
Qed.

End Willing.

(** X4, a witness: ["ints"] on the host of the examples. *)
Lemma Variable_ctor_ready_iff_witness :
  exists v, Variable_ctor ILP32 willing Int "out" "ints" = Returns v
    /\ (is_Some (_fp v) <-> is_Some (miType_of ILP32 Int))
    /\ (is_Some (_fp v) -> faultless v /\ streaming ILP32 v 0).
Proof.
  apply (Variable_ctor_ready_iff ILP32 willing Int "out" "ints").
  - reflexivity.
  - apply Nat.leb_le. reflexivity.
Defined.

(** ** Writes with no failure ahead *)

Section WritesRun.

Variable dm : DataModel.

Lemma Variable_write_array_run data numel v f :
  _fp v = Some f -> f_io f = [] -> (numel <= length data)%nat ->
  Z.of_nat (f_pos f + sizeof dm (var_T v) * numel) <= LONG_MAX dm ->
  0 <= _mat_tag_offset v -> 0 <= _dim_tag_offset v -> 0 <= _re_tag_offset v ->
  exists v', Variable_write_array dm data numel v = Returns (1, v') /\ faultless v'.
Proof.
  intros Hfp Hio Hlen Hmax Hmat Hdim Hre.
  pose proof (sizeof_bounds dm (var_T v)) as Hsz.
  unfold Variable_write_array. rewrite Hfp.
  destruct (Nat.ltb_spec (length data) numel) as [|_]; [lia|].
  cbv beta zeta.
  destruct (fwrite_ok (concat (map (le_bytes (sizeof dm (var_T v))) data))
              (sizeof dm (var_T v)) numel v f Hfp Hio) as (f1 & Hr1 & Hio1 & Hp1 & _);
    [lia | |].
  { change (concat (map _ data)) with (payload dm (var_T v) data).
    rewrite length_payload. nia. }
  rewrite (bind_Returns_l _ _ _ _ _ Hr1). cbv beta.
  rewrite (bind_Returns_l _ _ _ _ _ (assign_run _ _)). cbv beta.
  rewrite Z.eqb_refl.
  lazymatch goal with
  | |- context [ mbind _ (update_counters dm) (with_count ?c (with_fp (Some ?g) ?w)) ] =>
      destruct (update_counters_run dm (with_count c (with_fp (Some g) w)) g
                  eq_refl Hio1) as (f' & Hrun & Hio');
      [cbn; rewrite Hp1; done | done | done | done |]
  end.
  rewrite (bind_Returns_l _ _ _ _ _ Hrun). cbv beta.
  eexists. split; [reflexivity|]. exists f'. by split.
Qed.

Variable env : Env.
Variable k : ElementKind.

Lemma holding_offsets v xs :
  holding dm env k v xs ->
  0 <= _mat_tag_offset v /\ 0 <= _dim_tag_offset v /\ 0 <= _re_tag_offset v.
Proof.
  intros (_ & Hmat & Hdim & _ & Hre & _). rewrite Hmat, Hdim, Hre.
  unfold data_start. pose proof (round8_spec (name_size v)). unfold name_size in *. lia.
Qed.

Lemma fed_faultless v0 xs v :
  holding dm env k v0 [] -> faultless v0 -> fed dm v0 xs v -> faultless v.
Proof.
  intros H0 Hfl Hf. induction Hf as [|xs v x v' Hf IH Hx|xs v data numel v' Hf IH Hx].
  - done.
  - destruct IH as (f & Hfp & Hio).
    destruct (fed_holding dm env k v0 xs v H0 Hf) as (Hh & _).
    destruct (holding_offsets v xs Hh) as (Hmat & Hdim & Hre).
    destruct (Variable_write_data dm x v f v' Hfp Hx) as (_ & _ & _ & Hmax & _).
    destruct (Variable_write_run dm x v f Hfp Hio Hmax Hmat Hdim Hre) as (v'' & Hx' & Hfl').
    rewrite Hx in Hx'. by injection Hx' as ->.
  - destruct IH as (f & Hfp & Hio).
    destruct (fed_holding dm env k v0 xs v H0 Hf) as (Hh & _).
    destruct (holding_offsets v xs Hh) as (Hmat & Hdim & Hre).
    destruct (Variable_write_array_data dm data numel v f v' Hfp Hx)
      as (Hlen & _ & _ & _ & Hmax & _).
    destruct (Variable_write_array_run data numel v f Hfp Hio Hlen Hmax Hmat Hdim Hre)
      as (v'' & Hx' & Hfl').
    rewrite Hx in Hx'. by injection Hx' as ->.
Qed.

End WritesRun.

(** X8: on a stream with no failure ahead every call of [write] reports
    success as long as the end of the payload stays within [LONG_MAX]: the
    call with one element returns [true], the call with an array of [numel]
    elements returns 1, and the stream has no failure ahead afterwards. *)
Theorem faultless_writes_succeed dm env T path name v0 xs v :
  Variable_ctor dm env T path name = Returns v0 -> faultless v0 ->
  fed dm v0 xs v ->
  (forall x,
     184 + round8 (Z.of_nat (String.length name))
     + (Z.of_nat (length xs) + 1) * Z.of_nat (sizeof dm T) <= LONG_MAX dm ->
     exists v', Variable_write dm x v = Returns (true, v') /\ faultless v')
  /\ (forall data numel,
        (numel <= length data)%nat ->
        184 + round8 (Z.of_nat (String.length name))
        + (Z.of_nat (length xs) + Z.of_nat numel) * Z.of_nat (sizeof dm T) <= LONG_MAX dm ->
        exists v', Variable_write_array dm data numel v = Returns (1, v') /\ faultless v').
Proof.
  intros Hc Hfl0 Hf.
  assert (Hready : is_Some (_fp v0)) by (destruct Hfl0 as (f0 & -> & _); by eexists).
  destruct (Variable_ctor_holding dm env T path name v0 Hc Hready)
    as (k & Hk & H0 & HT0 & Hn0).
  destruct (fed_holding dm env k v0 xs v H0 Hf) as (Hh & Hn & HT).
  destruct (fed_faultless dm env k v0 xs v H0 Hfl0 Hf) as (f & Hfp & Hio).
  destruct (holding_offsets dm env k v xs Hh) as (Hmat & Hdim & Hre).
  destruct Hh as (_ & _ & _ & _ & _ & f' & Hfp' & Hpos & _).
  rewrite Hfp in Hfp'. injection Hfp' as <-.
  unfold data_start, name_size in Hpos. rewrite Hn, Hn0, HT, HT0 in Hpos.
  split.
  - intros x Hmax. apply (Variable_write_run dm x v f Hfp Hio); try done.
    rewrite HT, HT0. lia.
  - intros data numel Hlen Hmax.
    apply (Variable_write_array_run dm data numel v f Hfp Hio Hlen); try done.
    rewrite HT, HT0. nia.
Qed.

(** X8, a witness: the encoder of ["ints"] after four elements. *)
Lemma faultless_writes_succeed_witness :
  (forall x,
     184 + round8 (Z.of_nat (String.length "ints"))
     + (Z.of_nat (length [-1; 0; 1; 2]) + 1) * Z.of_nat (sizeof ILP32 Int)
     <= LONG_MAX ILP32 ->
     exists v', Variable_write ILP32 x ints_4 = Returns (true, v') /\ faultless v')
  /\ (forall data numel,
        (numel <= length data)%nat ->
        184 + round8 (Z.of_nat (String.length "ints"))
        + (Z.of_nat (length [-1; 0; 1; 2]) + Z.of_nat numel) * Z.of_nat (sizeof ILP32 Int)
        <= LONG_MAX ILP32 ->
        exists v', Variable_write_array ILP32 data numel ints_4 = Returns (1, v')
                   /\ faultless v').
Proof.
  apply (faultless_writes_succeed ILP32 willing Int "out" "ints" ints_0 [-1; 0; 1; 2] ints_4).
  - vm_compute. reflexivity.
  - eexists. split; reflexivity.
  - apply write_all_fed. vm_compute. reflexivity.
Defined.

(** X9: the limit of the file position.  On a stream with no failure
    ahead, the call of [write] that takes the position past [LONG_MAX]
    returns [false], because [ftell] fails; the element is in the file all
    the same, and it is counted. *)
Theorem write_past_LONG_MAX dm x v f :
  _fp v = Some f -> f_io f = [] ->
  LONG_MAX dm < Z.of_nat (f_pos f + sizeof dm (var_T v)) ->
  exists v' f',
    Variable_write dm x v = Returns (false, v')
    /\ _fp v' = Some f'
    /\ _count v' = to_size_t dm (_count v + 1)
    /\ f_data f' = write_at (f_data f) (f_pos f) (le_bytes (sizeof dm (var_T v)) x)
    /\ f_pos f' = (f_pos f + sizeof dm (var_T v))%nat.
Proof.
  intros Hfp Hio Hmax.
  pose proof (sizeof_bounds dm (var_T v)) as Hsz.
  unfold Variable_write. rewrite Hfp. cbv beta zeta.
  destruct (fwrite_ok (le_bytes (sizeof dm (var_T v)) x) (sizeof dm (var_T v)) 1 v f
              Hfp Hio) as (f1 & Hr1 & Hio1 & Hp1 & Hd1);
    [lia | rewrite length_le_bytes; lia |].
  rewrite (bind_Returns_l _ _ _ _ _ Hr1). cbv beta.
  rewrite (bind_Returns_l _ _ _ _ _ (assign_run _ _)). cbv beta.
  change (Z.of_nat 1 =? 1) with true. cbv iota.
  rewrite Nat.mul_1_r in Hp1, Hd1.
  rewrite take_ge in Hd1 by (rewrite length_le_bytes; lia).
  unfold update_counters. cbv beta zeta.
  set (v1 := with_count _ (with_fp (Some f1) v)).
  assert (Ht : ftell dm v1 = Returns (-1, with_fp (Some (FILE_ftell dm f1).2) v1)).
  { unfold ftell. rewrite (on_stream_open _ v1 f1 eq_refl). do 2 f_equal.
    unfold FILE_ftell. rewrite (next_event_faultless f1 Hio1).
    destruct (Z.ltb_spec (LONG_MAX dm) (Z.of_nat (f_pos f1))); [done|lia]. }
  rewrite (bind_Returns_l _ _ _ _ _ Ht). cbv beta.
  change (-1 =? -1) with true. cbv iota.
  destruct (FILE_ftell_data dm f1) as (Hd2 & Hp2 & _).
  eexists _, _. split; [reflexivity|]. split; [reflexivity|].
  split; [reflexivity|]. cbn [_fp with_fp]. by rewrite Hd2, Hp2, Hd1, Hp1.
Qed.

(** X9, a witness: a stream of ["chars"] that stands at [LONG_MAX]. *)
Lemma write_past_LONG_MAX_witness :
  exists v' f',
    Variable_write ILP32 97
      (with_fp (Some (mkFILE [] (Z.to_nat (2 ^ 31 - 1)) [])) chars_0)
    = Returns (false, v')
    /\ _fp v' = Some f'
    /\ _count v' = to_size_t ILP32 (_count chars_0 + 1)
    /\ f_data f' = write_at [] (Z.to_nat (2 ^ 31 - 1)) (le_bytes (sizeof ILP32 Char) 97)
    /\ f_pos f' = (Z.to_nat (2 ^ 31 - 1) + sizeof ILP32 Char)%nat.
Proof.
  apply (write_past_LONG_MAX ILP32 97
           (with_fp (Some (mkFILE [] (Z.to_nat (2 ^ 31 - 1)) [])) chars_0)
           (mkFILE [] (Z.to_nat (2 ^ 31 - 1)) [])).
  - reflexivity.
  - reflexivity.
  - cbn [f_pos]. rewrite Nat2Z.inj_add, Z2Nat.id by lia.
    change (LONG_MAX ILP32) with (2 ^ 31 - 1).
    change (Z.of_nat (sizeof ILP32 (var_T (with_fp _ chars_0)))) with 1. lia.
Defined.

Section FailedPatch.

Lemma next_event_cons f e io : f_io f = e :: io -> next_event f = e.
Proof. unfold next_event. by intros ->. Qed.

Lemma FILE_fwrite_err buf size n f :
  next_event f = IoErr -> (0 < size)%nat ->
  (FILE_fwrite buf size n f).1 = 0
  /\ f_data (FILE_fwrite buf size n f).2 = f_data f
  /\ f_pos (FILE_fwrite buf size n f).2 = f_pos f.
Proof.
  intros He Hs. unfold FILE_fwrite. rewrite He. cbn [accepted fst snd f_data f_pos].
  rewrite take_0. cbn [length write_at].
  destruct (Nat.eqb_spec size 0) as [->|_]; [lia|].
  rewrite Nat.Div0.div_0_l. split; [done|]. split; [done|lia].
Qed.

(** X20: a failure while the counters are patched.  When the element is
    written, [ftell] and the first [fseek] succeed and the [fwrite] of the
    total length fails, [write] returns [false] and leaves the stream at the
    offset of that field, 0x84 on a constructed encoder, not at the end of
    the payload; the element is in the file and it is counted. *)
Theorem write_failed_patch dm x v f rest :
  _fp v = Some f -> f_io f = IoOk :: IoOk :: IoOk :: IoErr :: rest ->
  Z.of_nat (f_pos f + sizeof dm (var_T v)) <= LONG_MAX dm ->
  0 <= _mat_tag_offset v ->
  exists v' f',
    Variable_write dm x v = Returns (false, v')
    /\ _fp v' = Some f'
    /\ f_pos f' = Z.to_nat (_mat_tag_offset v)
    /\ _count v' = to_size_t dm (_count v + 1)
    /\ f_data f' = write_at (f_data f) (f_pos f) (le_bytes (sizeof dm (var_T v)) x)
    /\ f_io f' = rest.
Proof.
  intros Hfp Hio Hmax Hmat.
  pose proof (sizeof_bounds dm (var_T v)) as Hsz.
  pose proof (sizeof_size_t_bounds dm) as Hw.
  unfold Variable_write. rewrite Hfp. cbv beta zeta.
  (* the element *)
  unfold fwrite at 1. rewrite (bind_Returns_l _ _ _ _ _ (on_stream_open _ v f Hfp)).
  cbv beta.
  set (f1 := (FILE_fwrite (le_bytes (sizeof dm (var_T v)) x) (sizeof dm (var_T v)) 1 f).2).
  pose proof (FILE_fwrite_ok (le_bytes (sizeof dm (var_T v)) x) (sizeof dm (var_T v)) 1 f
                (next_event_cons f _ _ Hio) ltac:(lia)
                ltac:(rewrite length_le_bytes; lia)) as Hn1.
  destruct (FILE_fwrite_full (le_bytes (sizeof dm (var_T v)) x) (sizeof dm (var_T v)) 1 f
              ltac:(lia) ltac:(rewrite length_le_bytes; lia) Hn1)
    as [Hd1 Hp1].
  fold f1 in Hd1, Hp1.
  assert (Hio1 : f_io f1 = IoOk :: IoOk :: IoErr :: rest).
  { subst f1. by rewrite FILE_fwrite_io, Hio. }
  rewrite Nat.mul_1_r in Hd1, Hp1.
  rewrite take_ge in Hd1 by (rewrite length_le_bytes; lia).
  rewrite Hn1. change (Z.of_nat 1) with 1.
  rewrite (bind_Returns_l _ _ _ _ _ (assign_run _ _)). cbv beta.
  change (1 =? 1) with true. cbv iota.
  set (v1 := with_count _ (with_fp (Some f1) v)).
  unfold update_counters. cbv beta zeta.
  (* ftell *)
  unfold ftell at 1. rewrite (bind_Returns_l _ _ _ _ _ (on_stream_open _ v1 f1 eq_refl)).
  cbv beta.
  set (f2 := (FILE_ftell dm f1).2).
  rewrite (FILE_ftell_ok dm f1 (next_event_cons f1 _ _ Hio1)) by (rewrite Hp1; done).
  destruct (FILE_ftell_data dm f1) as (Hd2 & Hp2 & Hio2). fold f2 in Hd2, Hp2, Hio2.
  rewrite Hio1 in Hio2. cbn [tail] in Hio2.
  destruct (Z.eqb_spec (Z.of_nat (f_pos f1)) (-1)) as [|_]; [lia|].
  (* fseek to the matrix tag *)
  rewrite (bind_Returns_l (fseek (_mat_tag_offset v1)) _ _ _ _
             (on_stream_open (FILE_fseek (_mat_tag_offset v1))
                (with_fp (Some f2) v1) f2 eq_refl)).
  cbv beta.
  set (f3 := (FILE_fseek (_mat_tag_offset v1) f2).2).
  pose proof (FILE_fseek_ok (_mat_tag_offset v1) f2 (next_event_cons f2 _ _ Hio2) Hmat)
    as Hr3.
  destruct (FILE_fseek_0 _ _ Hr3) as (_ & Hd3 & Hp3). fold f3 in Hd3, Hp3.
  pose proof (FILE_fseek_io (_mat_tag_offset v1) f2) as Hio3. fold f3 in Hio3.
  rewrite Hio2 in Hio3. cbn [tail] in Hio3.
  rewrite Hr3. change (0 =? 0) with true. cbn [negb].
  (* the write of the total length fails *)
  lazymatch goal with
  | |- context [ mbind _ (fwrite ?buf ?size ?n) (with_fp (Some f3) ?w) ] =>
      rewrite (bind_Returns_l (fwrite buf size n) _ _ _ _
                 (on_stream_open (FILE_fwrite buf size n) (with_fp (Some f3) w) f3 eq_refl))
  end.
  cbv beta.
  lazymatch goal with
  | |- context [ FILE_fwrite ?buf ?size ?n f3 ] =>
      destruct (FILE_fwrite_err buf size n f3 (next_event_cons f3 _ _ Hio3) ltac:(lia))
        as (Hn4 & Hd4 & Hp4);
      pose proof (FILE_fwrite_io buf size n f3) as Hio4;
      set (res4 := FILE_fwrite buf size n f3) in *
  end.
  rewrite Hn4. change (0 =? 1) with false. cbn [negb].
  rewrite Hio3 in Hio4. cbn [tail] in Hio4.
  eexists _, res4.2. split; [reflexivity|]. split; [reflexivity|].
  split; [by rewrite Hp4, Hp3|]. split; [reflexivity|].
  split; [by rewrite Hd4, Hd3, Hd2, Hd1|done].
Qed.

End FailedPatch.

(** X20, a witness: the encoder of ["chars"] on a host that refuses the
    fourth call. *)
Lemma write_failed_patch_witness :
  exists v' f',
    Variable_write ILP32 97
      (with_fp (Some (mkFILE [] 192 [IoOk; IoOk; IoOk; IoErr])) chars_0)
    = Returns (false, v')
    /\ _fp v' = Some f'
    /\ f_pos f' = Z.to_nat (_mat_tag_offset chars_0)
    /\ _count v' = to_size_t ILP32 (_count chars_0 + 1)
    /\ f_data f' = write_at [] 192 (le_bytes (sizeof ILP32 Char) 97)
    /\ f_io f' = [].
Proof.
  apply (write_failed_patch ILP32 97
           (with_fp (Some (mkFILE [] 192 [IoOk; IoOk; IoOk; IoErr])) chars_0)
           (mkFILE [] 192 [IoOk; IoOk; IoOk; IoErr]) []).
  - reflexivity.
  - reflexivity.
  - vm_compute. discriminate.
  - vm_compute. discriminate.
Defined.

(** ** The states of a registry *)

Section RegistrySteps.

Variable dm : DataModel.

(** What [write(int, const T&)] does to the registry when it returns:
    nothing, or it replaces one variable by the same variable after a
    [Variable::write]. *)
Lemma write_id_cases T id x m r m' :
  write_id dm T id x m = Returns (r, m') ->
  (r = false /\ m' = m)
  \/ exists var var',
       _is_ready m = true
       /\ _variables m !! Z.to_nat (to_size_t dm id) = Some var
       /\ var_T var = T
       /\ Variable_write dm x var = Returns (r, var')
       /\ m' = mkMatFile (_dir m) (_is_ready m) (_name2id m) (_running_mode m)
                         (<[Z.to_nat (to_size_t dm id) := var']> (_variables m)).
Proof.
  unfold write_id. intros H.
  destruct (_is_ready m) eqn:Hr; cbn [negb] in H; [|left; by injection H as <- <-].
  destruct (_ <=? _); [left; by injection H as <- <-|].
  destruct (_variables m !! _) as [p|] eqn:Hp; [|done].
  unfold dynamic_cast in H. destruct (decide (var_T p = T)) as [HT|]; [|done].
  destruct (Variable_write dm x p) as [[r' var']|] eqn:Hw; [|done].
  injection H as <- <-. right. exists p, var'. done.
Qed.

Lemma write_name_cases T name x m r m' :
  write_name dm T name x m = Returns (r, m') ->
  (r = false /\ m' = m)
  \/ exists id, _name2id m !! name = Some id /\ write_id dm T id x m = Returns (r, m').
Proof.
  unfold write_name. intros H.
  destruct (negb (_is_ready m)); [left; by injection H as <- <-|].
  destruct (_name2id m !! name) as [id|]; [|left; by injection H as <- <-].
  right. by exists id.
Qed.

(** What [create] does to the registry when it returns: nothing, or it
    registers a new variable of the name and the type asked for. *)
Lemma create_cases env T name m h m' :
  create dm env T name m = Returns (h, m') ->
  m' = m
  \/ exists var,
       _is_ready m = true /\ _name2id m !! name = None
       /\ Variable_ctor dm env T (_dir m) name = Returns var
       /\ _name var = name /\ var_T var = T
       /\ h = to_int (Z.of_nat (length (_variables m)))
       /\ m' = registered m name var.
Proof.
  unfold create. intros H.
  destruct (_is_ready m) eqn:Hr; cbn [negb] in H; [|left; by injection H as _ <-].
  destruct (_name2id m !! name) as [i|] eqn:Hn; [left; by injection H as _ <-|].
  cbv zeta in H.
  destruct (Variable_ctor dm env T (_dir m) name) as [var|] eqn:Hc; [|done].
  injection H as <- <-. right. exists var.
  destruct (fopen env (_dir m +:+ separator env +:+ name +:+ ".mat")) as [f0|] eqn:Hopen.
  2:{ by rewrite (Variable_ctor_null dm env T (_dir m) name Hopen) in Hc. }
  destruct (Variable_ctor_open dm env T (_dir m) name f0 Hopen)
    as (var' & Hc' & HT & Hname & _).
  rewrite Hc in Hc'. injection Hc' as <-. done.
Qed.

Lemma step_constants m m' :
  step dm m m' ->
  _is_ready m' = _is_ready m /\ _dir m' = _dir m /\ _running_mode m' = _running_mode m
  /\ (length (_variables m) <= length (_variables m'))%nat
  /\ (_is_ready m = false -> m' = m).
Proof.
  intros [env T name h m1 Hc | T id x r m1 Hw | T name x r m1 Hw].
  - apply create_cases in Hc as [->|(var & Hr & _ & _ & _ & _ & _ & ->)].
    + repeat split; done.
    + cbn. rewrite length_app. cbn. rewrite Hr. repeat split; try done; lia.
  - apply write_id_cases in Hw as [[_ ->]|(var & var' & Hr & _ & _ & _ & ->)].
    + repeat split; done.
    + cbn. rewrite length_insert, Hr. repeat split; done.
  - apply write_name_cases in Hw as [[_ ->]|(id & _ & Hw)]; [repeat split; done|].
    apply write_id_cases in Hw as [[_ ->]|(var & var' & Hr & _ & _ & _ & ->)].
    + repeat split; done.
    + cbn. rewrite length_insert, Hr. repeat split; done.
Qed.

Lemma later_constants m m' :
  rtc (step dm) m m' ->
  _is_ready m' = _is_ready m /\ _dir m' = _dir m /\ _running_mode m' = _running_mode m
  /\ (length (_variables m) <= length (_variables m'))%nat
  /\ (_is_ready m = false -> m' = m).
Proof.
  intros Hl. induction Hl as [m|m m1 m2 Hs _ IH]; [repeat split; done|].
  destruct (step_constants m m1 Hs) as (Hr & Hd & Hm & Hlen & Hin).
  destruct IH as (Hr' & Hd' & Hm' & Hlen' & Hin').
  split; [congruence|]. split; [congruence|]. split; [congruence|]. split; [lia|].
  intros Hnr. rewrite (Hin Hnr) in Hin'. by apply Hin'.
Qed.

(** X10: the readiness of a registry, its directory and its mode are fixed
    by the constructor: no call of [create] or [write] changes them, and no
    call removes a variable.  A registry that is not ready stays as it is
    whatever is called on it: every [create] returns -1 and every [write]
    returns [false]. *)
Theorem registry_constants m m' :
  rtc (step dm) m m' ->
  is_ready m' = is_ready m /\ _dir m' = _dir m /\ _running_mode m' = _running_mode m
  /\ (length (_variables m) <= length (_variables m'))%nat
  /\ (is_ready m = false ->
      m' = m
      /\ forall env T name id x,
           create dm env T name m' = Returns (-1, m')
           /\ write_id dm T id x m' = Returns (false, m')
           /\ write_name dm T name x m' = Returns (false, m')).
Proof.
  intros Hl. destruct (later_constants m m' Hl) as (Hr & Hd & Hm & Hlen & Hin).
  unfold is_ready. split; [done|]. split; [done|]. split; [done|]. split; [done|].
  intros Hnr. split; [by apply Hin|]. intros env T name id x.
  rewrite <- Hr in Hnr.
  split; [by apply create_not_ready|]. split; [by apply write_id_not_ready|].
  unfold write_name. by rewrite Hnr.
Qed.

End RegistrySteps.

(** X10, a witness: the registry of the unit test, from its first [create]
    to the first element written. *)
Lemma registry_constants_witness :
  is_ready chars_registry_1 = is_ready chars_registry
  /\ _dir chars_registry_1 = _dir chars_registry
  /\ _running_mode chars_registry_1 = _running_mode chars_registry
  /\ (length (_variables chars_registry) <= length (_variables chars_registry_1))%nat
  /\ (is_ready chars_registry = false ->
      chars_registry_1 = chars_registry
      /\ forall env T name id x,
           create LP64 env T name chars_registry_1 = Returns (-1, chars_registry_1)
           /\ write_id LP64 T id x chars_registry_1 = Returns (false, chars_registry_1)
           /\ write_name LP64 T name x chars_registry_1
              = Returns (false, chars_registry_1)).
Proof.
  apply (registry_constants LP64 chars_registry chars_registry_1).
  apply (rtc_l _ _ chars_registry_1); [|apply rtc_refl].
  apply (step_write_id LP64 chars_registry Char 0 97 true).
  vm_compute. reflexivity.
Defined.

Section WellFormed.

Variable dm : DataModel.

Lemma well_formed_ctor b mode dir : well_formed (MatFile_ctor b mode dir).
Proof.
  split.
  - intros name h H. cbn in H. by rewrite lookup_empty in H.
  - intros i var H. cbn in H. by rewrite lookup_nil in H.
Qed.

Lemma well_formed_registered m name var :
  well_formed m -> _name2id m !! name = None -> _name var = name ->
  Z.of_nat (length (_variables m)) <= INT_MAX ->
  well_formed (registered m name var).
Proof.
  intros [H1 H2] Hnew Hname Hlen.
  assert (Hid : to_int (Z.of_nat (length (_variables m))) = Z.of_nat (length (_variables m))).
  { apply to_int_small. unfold INT_MAX in Hlen. lia. }
  unfold registered. rewrite Hid. split; cbn [_name2id _variables].
  - intros name' h Hl. destruct (decide (name = name')) as [<-|Hne].
    + rewrite lookup_insert_eq in Hl. injection Hl as <-.
      split; [lia|]. exists var. split; [|done].
      rewrite Nat2Z.id. rewrite lookup_app_r by lia. by rewrite Nat.sub_diag.
    + rewrite lookup_insert_ne in Hl by done.
      destruct (H1 name' h Hl) as (Hh & var' & Hv & Hn).
      split; [done|]. exists var'. split; [|done].
      by apply lookup_app_l_Some.
  - intros i var' Hl. destruct (decide (i < length (_variables m))%nat) as [Hi|Hi].
    + rewrite lookup_app_l in Hl by done.
      pose proof (H2 i var' Hl) as Hn.
      rewrite lookup_insert_ne; [done|]. intros E. rewrite <- E in Hn. congruence.
    + rewrite lookup_app_r in Hl by lia.
      destruct (i - length (_variables m))%nat as [|j] eqn:Hj; [|done].
      injection Hl as E. rewrite <- E, Hname.
      rewrite lookup_insert_eq. do 2 f_equal. lia.
Qed.

Lemma well_formed_insert m i var var' :
  well_formed m -> _variables m !! i = Some var -> _name var' = _name var ->
  well_formed (mkMatFile (_dir m) (_is_ready m) (_name2id m) (_running_mode m)
                         (<[i := var']> (_variables m))).
Proof.
  intros [H1 H2] Hi Hname. apply lookup_lt_Some in Hi as Hlt.
  split; cbn [_name2id _variables].
  - intros name h Hl. destruct (H1 name h Hl) as (Hh & var1 & Hv & Hn).
    split; [done|].
    destruct (decide (Z.to_nat h = i)) as [E|E].
    + exists var'. rewrite E, list_lookup_insert_eq by done. split; [done|].
      rewrite E, Hi in Hv. injection Hv as <-. congruence.
    + exists var1. by rewrite list_lookup_insert_ne by done.
  - intros j var1 Hl. destruct (decide (j = i)) as [->|E].
    + rewrite list_lookup_insert_eq in Hl by done. injection Hl as <-.
      rewrite Hname. by apply H2.
    + rewrite list_lookup_insert_ne in Hl by done. by apply H2.
Qed.

Lemma well_formed_write_id T id x m r m' :
  well_formed m -> write_id dm T id x m = Returns (r, m') -> well_formed m'.
Proof.
  intros Hwf Hw.
  apply write_id_cases in Hw as [[_ ->]|(var & var' & _ & Hv & _ & Hx & ->)]; [done|].
  apply (well_formed_insert m _ var var' Hwf Hv).
  by destruct (Variable_write_same_object dm x var r var' Hx) as (_ & Hn & _).
Qed.

Lemma well_formed_step m m' :
  well_formed m -> step dm m m' ->
  Z.of_nat (length (_variables m')) <= INT_MAX -> well_formed m'.
Proof.
  intros Hwf [env T name h m1 Hc | T id x r m1 Hw | T name x r m1 Hw] Hlen.
  - apply create_cases in Hc as [->|(var & _ & Hnew & _ & Hname & _ & _ & ->)]; [done|].
    apply well_formed_registered; try done.
    cbn in Hlen. rewrite length_app in Hlen. lia.
  - by apply (well_formed_write_id T id x m r m1).
  - apply write_name_cases in Hw as [[_ ->]|(id & _ & Hw)]; [done|].
    by apply (well_formed_write_id T id x m r m1).
Qed.

Lemma well_formed_later m m' :
  well_formed m -> rtc (step dm) m m' ->
  Z.of_nat (length (_variables m')) <= INT_MAX -> well_formed m'.
Proof.
  intros Hwf Hl. induction Hl as [m|m m1 m2 Hs Hl IH]; [done|].
  intros Hlen. apply IH; [|done].
  apply (well_formed_step m m1 Hwf Hs).
  destruct (later_constants dm m1 m2 Hl) as (_ & _ & _ & Hle & _). lia.
Qed.

End WellFormed.

(** ** Registries a program can reach *)

Section Reachable.

Variable dm : DataModel.

Lemma well_formed_handles m :
  well_formed m ->
  (forall name h, _name2id m !! name = Some h ->
     0 <= h < Z.of_nat (length (_variables m)))
  /\ (forall name1 name2 h,
        _name2id m !! name1 = Some h -> _name2id m !! name2 = Some h -> name1 = name2).
Proof.
  intros [H1 H2]. split.
  - intros name h Hl. destruct (H1 name h Hl) as (Hh & var & Hv & _).
    apply lookup_lt_Some in Hv. lia.
  - intros name1 name2 h Hl1 Hl2.
    destruct (H1 name1 h Hl1) as (_ & var1 & Hv1 & Hn1).
    destruct (H1 name2 h Hl2) as (_ & var2 & Hv2 & Hn2).
    rewrite Hv1 in Hv2. injection Hv2 as <-. congruence.
Qed.

(** X11: the two tables of a registry agree in every state a program can
    bring it to (with at most [INT_MAX] variables): every name on record
    has a handle that is the index of a variable of that name, and every
    variable is on record under its name with its index.  So the handles
    are 0, 1, ... below the number of variables, and two names never share
    a handle. *)
Theorem reachable_well_formed b mode dir m :
  rtc (step dm) (MatFile_ctor b mode dir) m ->
  Z.of_nat (length (_variables m)) <= INT_MAX ->
  well_formed m
  /\ (forall name h, _name2id m !! name = Some h ->
        0 <= h < Z.of_nat (length (_variables m)))
  /\ (forall name1 name2 h,
        _name2id m !! name1 = Some h -> _name2id m !! name2 = Some h -> name1 = name2).
Proof.
  intros Hl Hlen.
  pose proof (well_formed_later dm _ m (well_formed_ctor b mode dir) Hl Hlen) as Hwf.
  split; [done|]. by apply well_formed_handles.
Qed.

Lemma reachable_ready b mode dir m name h :
  rtc (step dm) (MatFile_ctor b mode dir) m ->
  _name2id m !! name = Some h -> _is_ready m = true.
Proof.
  intros Hl Hn.
  destruct (later_constants dm _ m Hl) as (Hr & _ & _ & _ & Hin).
  destruct b; [done|].
  rewrite (Hin eq_refl) in Hn. cbn in Hn. by rewrite lookup_empty in Hn.
Qed.

(** X12: writing through a name on record.  In every state a program can
    bring the registry to, the name leads to a variable of that name; a
    [write<T>] through the name or through its handle returns, with the
    same result and the same registry afterwards, when [T] is the type of
    that variable, and has undefined behaviour for every other [T]. *)
Theorem write_by_name b mode dir m name h :
  rtc (step dm) (MatFile_ctor b mode dir) m ->
  Z.of_nat (length (_variables m)) <= INT_MAX ->
  _name2id m !! name = Some h ->
  exists var,
    _variables m !! Z.to_nat h = Some var /\ _name var = name
    /\ forall T x,
         (var_T var = T ->
          exists r m', write_name dm T name x m = Returns (r, m')
                       /\ write_id dm T h x m = Returns (r, m')
                       /\ well_formed m')
         /\ (var_T var <> T ->
             write_name dm T name x m = Undefined
             /\ write_id dm T h x m = Undefined).
Proof.
  intros Hl Hlen Hn.
  pose proof (well_formed_later dm _ m (well_formed_ctor b mode dir) Hl Hlen) as Hwf.
  pose proof (reachable_ready b mode dir m name h Hl Hn) as Hr.
  destruct (well_formed_handles m Hwf) as [Hrange _].
  pose proof (Hrange name h Hn) as Hh.
  destruct Hwf as [H1 H2]. destruct (H1 name h Hn) as (_ & var & Hv & Hname).
  assert (Hwf : well_formed m) by (by split).
  assert (Hhandle : handle_of m name h) by (unfold handle_of; by rewrite Hr).
  exists var. split; [done|]. split; [done|]. intros T x. split.
  - intros HT.
    rewrite (handle_of_write dm T name x m h Hhandle).
    rewrite (write_id_valid dm T h x m var Hr ltac:(lia) Hv HT).
    destruct (Variable_write dm x var) as [[r var']|] eqn:Hx.
    + exists r. eexists. split; [done|]. split; [done|].
      apply (well_formed_insert m _ var var' Hwf Hv).
      by destruct (Variable_write_same_object dm x var r var' Hx) as (_ & Hn' & _).
    + by destruct (Variable_write_defined dm x var).
  - intros HT.
    rewrite (handle_of_write dm T name x m h Hhandle).
    by rewrite (write_id_mismatch dm T h x m var Hr ltac:(lia) Hv HT).
Qed.

End Reachable.

Lemma chars_registry_1_reachable :
  rtc (step LP64) (MatFile_ctor true RealTime "out") chars_registry_1.
Proof.
  apply (rtc_l _ _ chars_registry).
  { apply (step_create LP64 _ willing Char "chars" 0). vm_compute. reflexivity. }
  apply (rtc_l _ _ chars_registry_1); [|apply rtc_refl].
  apply (step_write_id LP64 chars_registry Char 0 97 true).
  vm_compute. reflexivity.
Qed.

(** X11, a witness: the registry of the unit test after its first
    [create] and the first element. *)
Lemma reachable_well_formed_witness :
  well_formed chars_registry_1
  /\ (forall name h, _name2id chars_registry_1 !! name = Some h ->
        0 <= h < Z.of_nat (length (_variables chars_registry_1)))
  /\ (forall name1 name2 h,
        _name2id chars_registry_1 !! name1 = Some h ->
        _name2id chars_registry_1 !! name2 = Some h -> name1 = name2).
Proof.
  apply (reachable_well_formed LP64 true RealTime "out" chars_registry_1).
  - apply chars_registry_1_reachable.
  - vm_compute. discriminate.
Defined.

(** X12, a witness: ["chars"] in that registry. *)
Lemma write_by_name_witness :
  exists var,
    _variables chars_registry_1 !! Z.to_nat 0 = Some var /\ _name var = "chars"
    /\ forall T x,
         (var_T var = T ->
          exists r m', write_name LP64 T "chars" x chars_registry_1 = Returns (r, m')
                       /\ write_id LP64 T 0 x chars_registry_1 = Returns (r, m')
                       /\ well_formed m')
         /\ (var_T var <> T ->
             write_name LP64 T "chars" x chars_registry_1 = Undefined
             /\ write_id LP64 T 0 x chars_registry_1 = Undefined).
Proof.
  apply (write_by_name LP64 true RealTime "out" chars_registry_1 "chars" 0).
  - apply chars_registry_1_reachable.
  - vm_compute. discriminate.
  - vm_compute. reflexivity.
Defined.

(** ** The loops of the unit test *)

Section Loops.

Variable dm : DataModel.
Variable env : Env.

Lemma delete_each_returns vs : delete_each vs = Returns tt.
Proof.
  induction vs as [|var vs IH]; [done|]. cbn [delete_each].
  assert (Hd : exists v', Variable_dtor var = Returns (tt, v')).
  { unfold Variable_dtor. destruct (_fp var) as [f|] eqn:Hf; [|by eexists].
    unfold fclose. rewrite (bind_Returns_l _ _ _ _ _ (on_stream_open _ var f Hf)).
    by eexists. }
  destruct Hd as (v' & ->). done.
Qed.

Lemma outcome_bind_Returns {A B} (k : A -> outcome B) a : (Returns a ≫= k) = k a.
Proof. done. Qed.

Lemma returning_Returns b m : returning (Returns (b, m)) = Returns b.
Proof.
  unfold returning. rewrite outcome_bind_Returns. cbv beta iota.
  unfold MatFile_dtor. by rewrite delete_each_returns.
Qed.

Lemma MatFile_eta m :
  mkMatFile (_dir m) (_is_ready m) (_name2id m) (_running_mode m) (_variables m) = m.
Proof. by destruct m. Qed.

(** The loop over the elements of an array, through a valid handle of the
    right type, on a stream with no failure ahead. *)
Lemma write_each_id_run k T id xs :
  forall m var ys,
    _is_ready m = true -> 0 <= id <= INT_MAX ->
    _variables m !! Z.to_nat id = Some var -> var_T var = T ->
    holding dm env k var ys -> faultless var ->
    data_start var + (Z.of_nat (length ys) + Z.of_nat (length xs)) * Z.of_nat (sizeof dm T)
    <= LONG_MAX dm ->
    exists var',
      write_each_id dm T id xs m
      = Returns (true, mkMatFile (_dir m) (_is_ready m) (_name2id m) (_running_mode m)
                                 (<[Z.to_nat id := var']> (_variables m)))
      /\ holding dm env k var' (ys ++ xs) /\ faultless var'
      /\ var_T var' = T /\ _name var' = _name var.
Proof.
  induction xs as [|x xs IH]; intros m var ys Hr Hid Hv HT Hh Hfl Hmax.
  - exists var. cbn [write_each_id]. rewrite list_insert_id by done.
    rewrite MatFile_eta, app_nil_r. done.
  - cbn [write_each_id].
    rewrite (write_id_valid dm T id x m var Hr Hid Hv HT).
    destruct Hfl as (f & Hfp & Hio).
    destruct (holding_offsets dm env k var ys Hh) as (Hmat & Hdim & Hre).
    pose proof Hh as (_ & _ & _ & _ & _ & f' & Hfp' & Hpos & _).
    rewrite Hfp in Hfp'. injection Hfp' as <-.
    pose proof (sizeof_bounds dm T) as Hsz.
    cbn [length] in Hmax.
    destruct (Variable_write_run dm x var f Hfp Hio) as (var1 & Hx & Hfl1); try done.
    { rewrite Nat2Z.inj_add, Hpos, HT. lia. }
    rewrite Hx.
    destruct (holding_write dm env k var ys x var1 Hh Hx) as (Hh1 & Hn1 & HT1).
    apply lookup_lt_Some in Hv as Hlt.
    set (m1 := mkMatFile (_dir m) (_is_ready m) (_name2id m) (_running_mode m)
                         (<[Z.to_nat id := var1]> (_variables m))).
    destruct (IH m1 var1 (ys ++ [x])) as (var' & Hrun & Hh' & Hfl' & HT' & Hn'); try done.
    { cbn. by apply list_lookup_insert_eq. }
    { congruence. }
    { rewrite length_app. cbn [length]. unfold data_start, name_size in *.
      rewrite Hn1. lia. }
    exists var'. rewrite Hrun. subst m1. cbn [_dir _is_ready _name2id _running_mode _variables].
    rewrite list_insert_insert_eq. rewrite <- app_assoc in Hh'.
    split; [done|]. split; [done|]. split; [done|]. split; [done|]. congruence.
Qed.

(** The loop through the name is the loop through its handle. *)
Lemma write_each_name_id T name h xs :
  forall m, _is_ready m = true -> _name2id m !! name = Some h ->
    write_each_name dm T name xs m = write_each_id dm T h xs m.
Proof.
  induction xs as [|x xs IH]; intros m Hr Hn; [done|].
  cbn [write_each_name write_each_id].
  assert (Hh : handle_of m name h) by (unfold handle_of; by rewrite Hr).
  rewrite (handle_of_write dm T name x m h Hh).
  destruct (write_id dm T h x m) as [[[] m']|] eqn:Hw; try done.
  apply write_id_registry in Hw as [Hr' Hn']. apply IH; congruence.
Qed.

(** [create] of a new name on a host that opens every file and lets every
    call on a stream succeed. *)
Lemma create_run T k name m :
  (forall p, fs_open env p = Some []) ->
  _is_ready m = true -> _name2id m !! name = None ->
  (String.length (_dir m +:+ separator env +:+ name +:+ ".mat") <= PATH_MAX)%nat ->
  miType_of dm T = Some k ->
  Z.of_nat (length (_variables m)) <= INT_MAX ->
  exists var,
    create dm env T name m
    = Returns (Z.of_nat (length (_variables m)), registered m name var)
    /\ faultless var /\ holding dm env k var [] /\ var_T var = T /\ _name var = name.
Proof.
  intros Hopen Hr Hn Hpath Hk Hlen.
  destruct (Variable_ctor_run dm env T (_dir m) name k (Hopen _) Hpath Hk)
    as (var & Hc & Hfl & Hh & HT & Hname).
  exists var. rewrite (create_new dm env T name m Hr Hn), Hc.
  rewrite to_int_small by (unfold INT_MAX in Hlen; lia). done.
Qed.

End Loops.

Section UnitTest.

Variable dm : DataModel.
Variable env : Env.

Lemma length_separator : String.length (separator env) = 1%nat.
Proof. unfold separator. by destruct (win32 env). Qed.

Lemma LONG_MAX_ge dm' : 2 ^ 31 - 1 <= LONG_MAX dm'.
Proof. by destruct dm'. Qed.

(** The three [create] calls of a test, on a host that opens every file
    and lets every call on a stream succeed. *)
Lemma test_creates (stat : string -> Z) path n1 n2 n3 :
  (forall p, fs_open env p = Some []) -> stat path = 0 ->
  n1 <> n2 -> n1 <> n3 -> n2 <> n3 ->
  (String.length n1 <= 8)%nat -> (String.length n2 <= 8)%nat ->
  (String.length n3 <= 8)%nat ->
  (String.length path + 13 <= PATH_MAX)%nat ->
  exists vc vi vd,
    create dm env Char n1 (MatFile_ctor (stat path =? 0) RealTime path)
    = Returns (0, registered (MatFile_ctor true RealTime path) n1 vc)
    /\ create dm env Int n2 (registered (MatFile_ctor true RealTime path) n1 vc)
       = Returns (1, registered (registered (MatFile_ctor true RealTime path) n1 vc) n2 vi)
    /\ create dm env Double n3
         (registered (registered (MatFile_ctor true RealTime path) n1 vc) n2 vi)
       = Returns (2, registered (registered (registered
                       (MatFile_ctor true RealTime path) n1 vc) n2 vi) n3 vd)
    /\ (faultless vc /\ holding dm env miINT8 vc [] /\ var_T vc = Char /\ _name vc = n1)
    /\ (faultless vi /\ holding dm env miINT32 vi [] /\ var_T vi = Int /\ _name vi = n2)
    /\ (faultless vd /\ holding dm env miDOUBLE vd [] /\ var_T vd = Double
        /\ _name vd = n3).
Proof.
  intros Hopen Hstat H12 H13 H23 Hl1 Hl2 Hl3 Hpath.
  rewrite Hstat. change (0 =? 0) with true.
  set (m0 := MatFile_ctor true RealTime path).
  assert (Hp : forall (m : MatFile) n, _dir m = path -> (String.length n <= 8)%nat ->
            (String.length (_dir m +:+ separator env +:+ n +:+ ".mat") <= PATH_MAX)%nat).
  { intros m n -> Hn. rewrite !string_length_append, length_separator. simpl. lia. }
  destruct (create_run dm env Char miINT8 n1 m0 Hopen eq_refl) as (vc & Hc1 & Hvc).
  { apply lookup_empty. }
  { by apply Hp. }
  { by destruct dm. }
  { cbn. unfold INT_MAX. lia. }
  set (m1 := registered m0 n1 vc).
  destruct (create_run dm env Int miINT32 n2 m1 Hopen eq_refl) as (vi & Hc2 & Hvi).
  { subst m1. cbn. rewrite lookup_insert_ne by done. apply lookup_empty. }
  { by apply Hp. }
  { by destruct dm. }
  { cbn. unfold INT_MAX. lia. }
  set (m2 := registered m1 n2 vi).
  destruct (create_run dm env Double miDOUBLE n3 m2 Hopen eq_refl) as (vd & Hc3 & Hvd).
  { subst m2 m1. cbn. rewrite !lookup_insert_ne by done. apply lookup_empty. }
  { by apply Hp. }
  { by destruct dm. }
  { cbn. unfold INT_MAX. lia. }
  exists vc, vi, vd. split; [exact Hc1|]. split; [exact Hc2|]. split; [exact Hc3|].
  done.
Qed.

(** The three loops of a test on a registry of three variables that hold
    nothing yet. *)
Lemma test_writes m vc vi vd :
  _is_ready m = true -> _variables m = [vc; vi; vd] ->
  faultless vc /\ holding dm env miINT8 vc [] /\ var_T vc = Char
    /\ (String.length (_name vc) <= 8)%nat ->
  faultless vi /\ holding dm env miINT32 vi [] /\ var_T vi = Int
    /\ (String.length (_name vi) <= 8)%nat ->
  faultless vd /\ holding dm env miDOUBLE vd [] /\ var_T vd = Double
    /\ (String.length (_name vd) <= 8)%nat ->
  exists vc' vi' vd',
    let after vs := mkMatFile (_dir m) (_is_ready m) (_name2id m) (_running_mode m) vs in
    write_each_id dm Char 0 chars m = Returns (true, after [vc'; vi; vd])
    /\ write_each_id dm Int 1 ints (after [vc'; vi; vd])
       = Returns (true, after [vc'; vi'; vd])
    /\ write_each_id dm Double 2 doubles (after [vc'; vi'; vd])
       = Returns (true, after [vc'; vi'; vd'])
    /\ (holding dm env miINT8 vc' chars /\ var_T vc' = Char /\ _name vc' = _name vc)
    /\ (holding dm env miINT32 vi' ints /\ var_T vi' = Int /\ _name vi' = _name vi)
    /\ (holding dm env miDOUBLE vd' doubles /\ var_T vd' = Double
        /\ _name vd' = _name vd).
Proof.
  intros Hr Hvs (Hflc & Hhc & HTc & Hnc) (Hfli & Hhi & HTi & Hni) (Hfld & Hhd & HTd & Hnd).
  pose proof (LONG_MAX_ge dm) as HLM.
  assert (Hstart : forall v, (String.length (_name v) <= 8)%nat -> data_start v <= 192).
  { intros v Hv. unfold data_start, name_size.
    pose proof (round8_mono (Z.of_nat (String.length (_name v))) 8 ltac:(lia)) as Hm.
    change (round8 8) with 8 in Hm. lia. }
  pose proof (sizeof_bounds dm Char). pose proof (sizeof_bounds dm Int).
  pose proof (sizeof_bounds dm Double).
  assert (Hid : forall id, 0 <= id <= 2 -> 0 <= id <= INT_MAX)
    by (unfold INT_MAX; lia).
  destruct (write_each_id_run dm env miINT8 Char 0 chars m vc [] Hr
              (Hid 0 ltac:(lia)) ltac:(by rewrite Hvs) HTc Hhc Hflc)
    as (vc' & Hrun1 & Hhc' & _ & HTc' & Hnc').
  { pose proof (Hstart vc Hnc). unfold chars. cbn [length sizeof]. lia. }
  rewrite Hvs in Hrun1. cbn [Z.to_nat list_insert list_alter] in Hrun1.
  set (m4 := mkMatFile (_dir m) (_is_ready m) (_name2id m) (_running_mode m) [vc'; vi; vd])
    in *.
  destruct (write_each_id_run dm env miINT32 Int 1 ints m4 vi [] Hr
              (Hid 1 ltac:(lia)) eq_refl HTi Hhi Hfli)
    as (vi' & Hrun2 & Hhi' & _ & HTi' & Hni').
  { pose proof (Hstart vi Hni). unfold ints. cbn [length sizeof]. lia. }
  subst m4. cbn [_dir _is_ready _name2id _running_mode _variables] in Hrun2.
  change (<[Z.to_nat 1:=vi']> [vc'; vi; vd]) with [vc'; vi'; vd] in Hrun2.
  set (m5 := mkMatFile (_dir m) (_is_ready m) (_name2id m) (_running_mode m) [vc'; vi'; vd])
    in *.
  destruct (write_each_id_run dm env miDOUBLE Double 2 doubles m5 vd [] Hr
              (Hid 2 ltac:(lia)) eq_refl HTd Hhd Hfld)
    as (vd' & Hrun3 & Hhd' & _ & HTd' & Hnd').
  { pose proof (Hstart vd Hnd). unfold doubles. cbn [length sizeof]. lia. }
  subst m5. cbn [_dir _is_ready _name2id _running_mode _variables] in Hrun3.
  change (<[Z.to_nat 2:=vd']> [vc'; vi'; vd]) with [vc'; vi'; vd'] in Hrun3.
  exists vc', vi', vd'. cbv zeta.
  split; [exact Hrun1|]. split; [exact Hrun2|]. split; [exact Hrun3|]. done.
Qed.

End UnitTest.

(** ** The unit test *)

Section TestRuns.

Variable dm : DataModel.
Variable env : Env.
Variable stat : string -> Z.
Variable path : string.

Hypothesis Hopen : forall p, fs_open env p = Some [].
Hypothesis Hstat : stat path = 0.
Hypothesis Hpath : (String.length path + 13 <= PATH_MAX)%nat.

Lemma runTest1_body_run :
  exists m vc vi vd,
    runTest1_body dm env stat path = Returns (true, m)
    /\ _variables m = [vc; vi; vd]
    /\ (holding dm env miINT8 vc chars /\ var_T vc = Char /\ _name vc = "chars")
    /\ (holding dm env miINT32 vi ints /\ var_T vi = Int /\ _name vi = "ints")
    /\ (holding dm env miDOUBLE vd doubles /\ var_T vd = Double /\ _name vd = "doubles").
Proof.
  unfold runTest1_body. cbv zeta.
  destruct (test_creates dm env stat path "chars" "ints" "doubles" Hopen Hstat)
    as (vc & vi & vd & Hc1 & Hc2 & Hc3 & (Hflc & Hhc & HTc & Hnc)
        & (Hfli & Hhi & HTi & Hni) & (Hfld & Hhd & HTd & Hnd));
    [done | done | done | simpl; lia | simpl; lia | simpl; lia | done |].
  rewrite Hc1, outcome_bind_Returns. cbv beta iota.
  rewrite Hc2, outcome_bind_Returns. cbv beta iota.
  rewrite Hc3, outcome_bind_Returns. cbv beta iota.
  change ((0 <? 0) || (1 <? 0) || (2 <? 0)) with false. cbv iota.
  set (m3 := registered _ "doubles" vd).
  destruct (test_writes dm env m3 vc vi vd eq_refl eq_refl)
    as (vc' & vi' & vd' & Hw1 & Hw2 & Hw3 & (Hhc' & HTc' & Hnc') & (Hhi' & HTi' & Hni')
        & (Hhd' & HTd' & Hnd')).
  { rewrite Hnc. split; [done|]. split; [done|]. split; [done|]. simpl. lia. }
  { rewrite Hni. split; [done|]. split; [done|]. split; [done|]. simpl. lia. }
  { rewrite Hnd. split; [done|]. split; [done|]. split; [done|]. simpl. lia. }
  cbv zeta in Hw1, Hw2, Hw3.
  rewrite Hw1, outcome_bind_Returns. cbv beta iota. cbn [negb].
  rewrite Hw2, outcome_bind_Returns. cbv beta iota. cbn [negb].
  rewrite Hw3, outcome_bind_Returns. cbv beta iota. cbn [negb].
  eexists _, vc', vi', vd'. split; [reflexivity|]. split; [reflexivity|].
  rewrite Hnc', Hni', Hnd'. done.
Qed.

Lemma runTest2_body_run :
  exists m vc vi vd,
    runTest2_body dm env stat path = Returns (true, m)
    /\ _variables m = [vc; vi; vd]
    /\ (holding dm env miINT8 vc chars /\ var_T vc = Char /\ _name vc = "chars2")
    /\ (holding dm env miINT32 vi ints /\ var_T vi = Int /\ _name vi = "ints2")
    /\ (holding dm env miDOUBLE vd doubles /\ var_T vd = Double
        /\ _name vd = "doubles2").
Proof.
  unfold runTest2_body. cbv zeta.
  destruct (test_creates dm env stat path "chars2" "ints2" "doubles2" Hopen Hstat)
    as (vc & vi & vd & Hc1 & Hc2 & Hc3 & (Hflc & Hhc & HTc & Hnc)
        & (Hfli & Hhi & HTi & Hni) & (Hfld & Hhd & HTd & Hnd));
    [done | done | done | simpl; lia | simpl; lia | simpl; lia | done |].
  rewrite Hc1, outcome_bind_Returns. cbv beta iota.
  rewrite Hc2, outcome_bind_Returns. cbv beta iota.
  rewrite Hc3, outcome_bind_Returns. cbv beta iota.
  change ((0 <? 0) || (1 <? 0) || (2 <? 0)) with false. cbv iota.
  set (m3 := registered _ "doubles2" vd).
  assert (Hn1 : _name2id m3 !! "chars2" = Some 0).
  { subst m3. cbn [_name2id registered]. rewrite !lookup_insert_ne by done.
    by rewrite lookup_insert_eq. }
  assert (Hn2 : _name2id m3 !! "ints2" = Some 1).
  { subst m3. cbn [_name2id registered]. rewrite lookup_insert_ne by done.
    by rewrite lookup_insert_eq. }
  assert (Hn3 : _name2id m3 !! "doubles2" = Some 2).
  { subst m3. cbn [_name2id registered]. by rewrite lookup_insert_eq. }
  destruct (test_writes dm env m3 vc vi vd eq_refl eq_refl)
    as (vc' & vi' & vd' & Hw1 & Hw2 & Hw3 & (Hhc' & HTc' & Hnc') & (Hhi' & HTi' & Hni')
        & (Hhd' & HTd' & Hnd')).
  { rewrite Hnc. split; [done|]. split; [done|]. split; [done|]. simpl. lia. }
  { rewrite Hni. split; [done|]. split; [done|]. split; [done|]. simpl. lia. }
  { rewrite Hnd. split; [done|]. split; [done|]. split; [done|]. simpl. lia. }
  cbv zeta in Hw1, Hw2, Hw3.
  rewrite (write_each_name_id dm Char "chars2" 0 chars m3 eq_refl Hn1).
  rewrite Hw1, outcome_bind_Returns. cbv beta iota. cbn [negb].
  rewrite (write_each_name_id dm Int "ints2" 1 ints
             (mkMatFile (_dir m3) (_is_ready m3) (_name2id m3) (_running_mode m3)
                        [vc'; vi; vd]) eq_refl Hn2).
  rewrite Hw2, outcome_bind_Returns. cbv beta iota. cbn [negb].
  rewrite (write_each_name_id dm Double "doubles2" 2 doubles
             (mkMatFile (_dir m3) (_is_ready m3) (_name2id m3) (_running_mode m3)
                        [vc'; vi'; vd]) eq_refl Hn3).
  rewrite Hw3, outcome_bind_Returns. cbv beta iota. cbn [negb].
  eexists _, vc', vi', vd'. split; [reflexivity|]. split; [reflexivity|].
  rewrite Hnc', Hni', Hnd'. done.
Qed.

Lemma run_run : run dm env stat path = Returns true.
Proof.
  unfold run, runTest1, runTest2.
  destruct runTest1_body_run as (m1 & ? & ? & ? & -> & _).
  destruct runTest2_body_run as (m2 & ? & ? & ? & -> & _).
  rewrite !returning_Returns. by rewrite outcome_bind_Returns.
Qed.

End TestRuns.

Lemma holding_file dm env k v xs :
  holding dm env k v xs -> xs <> [] ->
  exists f, _fp v = Some f /\ f_data f = image dm env (var_T v) k (_name v) xs.
Proof.
  intros (_ & _ & _ & _ & _ & f & Hfp & _ & _ & Hd) Hxs.
  exists f. split; [done|]. by destruct Hd as [[? _]|Hd].
Qed.

(** X13: the first test on a host where the directory exists, every file
    opens and every call on a stream succeeds (the path short enough for
    the three file names): it returns [true], and when it returns the
    registry has the three variables ["chars"], ["ints"] and ["doubles"],
    whose files are the images of the three arrays of the test, on every
    data model. *)
Theorem runTest1_files dm env stat path :
  (forall p, fs_open env p = Some []) -> stat path = 0 ->
  (String.length path + 13 <= PATH_MAX)%nat ->
  exists m vc vi vd fc fi fd,
    runTest1_body dm env stat path = Returns (true, m)
    /\ runTest1 dm env stat path = Returns true
    /\ _variables m = [vc; vi; vd]
    /\ _fp vc = Some fc /\ f_data fc = image dm env Char miINT8 "chars" chars
    /\ _fp vi = Some fi /\ f_data fi = image dm env Int miINT32 "ints" ints
    /\ _fp vd = Some fd /\ f_data fd = image dm env Double miDOUBLE "doubles" doubles.
Proof.
  intros Hopen Hstat Hpath.
  destruct (runTest1_body_run dm env stat path Hopen Hstat Hpath)
    as (m & vc & vi & vd & Hrun & Hvs & (Hhc & HTc & Hnc) & (Hhi & HTi & Hni)
        & (Hhd & HTd & Hnd)).
  destruct (holding_file dm env _ vc chars Hhc ltac:(done)) as (fc & Hfc & Hdc).
  destruct (holding_file dm env _ vi ints Hhi ltac:(done)) as (fi & Hfi & Hdi).
  destruct (holding_file dm env _ vd doubles Hhd ltac:(done)) as (fd & Hfd & Hdd).
  rewrite HTc, Hnc in Hdc. rewrite HTi, Hni in Hdi. rewrite HTd, Hnd in Hdd.
  exists m, vc, vi, vd, fc, fi, fd. split; [done|]. split.
  { unfold runTest1. rewrite Hrun. apply returning_Returns. }
  done.
Qed.

(** X13, a witness: the host of the examples, the directory ["out"], LP64. *)
Lemma runTest1_files_witness :
  exists m vc vi vd fc fi fd,
    runTest1_body LP64 willing (fun _ => 0) "out" = Returns (true, m)
    /\ runTest1 LP64 willing (fun _ => 0) "out" = Returns true
    /\ _variables m = [vc; vi; vd]
    /\ _fp vc = Some fc /\ f_data fc = image LP64 willing Char miINT8 "chars" chars
    /\ _fp vi = Some fi /\ f_data fi = image LP64 willing Int miINT32 "ints" ints
    /\ _fp vd = Some fd
    /\ f_data fd = image LP64 willing Double miDOUBLE "doubles" doubles.
Proof.
  apply (runTest1_files LP64 willing (fun _ => 0) "out").
  - intros p. reflexivity.
  - reflexivity.
  - apply Nat.leb_le. reflexivity.
Defined.

(** X14: on such a host both tests pass, through the handles and through
    the names: [run] returns [true] and the program prints ["passed."] and
    returns 0. *)
Theorem run_passes dm env stat path :
  (forall p, fs_open env p = Some []) -> stat path = 0 ->
  (String.length path + 13 <= PATH_MAX)%nat ->
  runTest2 dm env stat path = Returns true
  /\ run dm env stat path = Returns true
  /\ forall prog rest,
       main dm env stat (prog :: path :: rest) = Returns ("passed." +:+ nl, 0).
Proof.
  intros Hopen Hstat Hpath.
  pose proof (run_run dm env stat path Hopen Hstat Hpath) as Hrun.
  split.
  { unfold runTest2.
    destruct (runTest2_body_run dm env stat path Hopen Hstat Hpath)
      as (m & ? & ? & ? & -> & _).
    apply returning_Returns. }
  split; [done|]. intros prog rest. unfold main.
  by rewrite Hrun, outcome_bind_Returns.
Qed.

(** X14, a witness. *)
Lemma run_passes_witness :
  runTest2 LP64 willing (fun _ => 0) "out" = Returns true
  /\ run LP64 willing (fun _ => 0) "out" = Returns true
  /\ forall prog rest,
       main LP64 willing (fun _ => 0) (prog :: "out" :: rest)
       = Returns ("passed." +:+ nl, 0).
Proof.
  apply (run_passes LP64 willing (fun _ => 0) "out").
  - intros p. reflexivity.
  - reflexivity.
  - apply Nat.leb_le. reflexivity.
Defined.

(** X15: when [stat] fails on the directory the registry is not ready:
    every [create] returns -1 and no file is opened, so on every host the
    tests return [false] and the program prints ["failed."]; its exit
    status is 0 all the same, as it is whenever the program returns. *)
Theorem run_without_directory dm env stat path :
  stat path <> 0 ->
  runTest1_body dm env stat path
  = Returns (false, MatFile_ctor false RealTime path)
  /\ run dm env stat path = Returns false
  /\ (forall prog rest,
        main dm env stat (prog :: path :: rest) = Returns ("failed." +:+ nl, 0))
  /\ (forall argv out r, main dm env stat argv = Returns (out, r) -> r = 0).
Proof.
  intros Hstat.
  assert (Hb : (stat path =? 0) = false) by (by apply Z.eqb_neq).
  assert (Hbody : runTest1_body dm env stat path
                  = Returns (false, MatFile_ctor false RealTime path)).
  { unfold runTest1_body. cbv zeta. rewrite Hb.
    rewrite (create_not_ready dm env Char "chars" (MatFile_ctor false RealTime path) eq_refl),
      outcome_bind_Returns.
    cbv beta iota.
    rewrite (create_not_ready dm env Int "ints" (MatFile_ctor false RealTime path) eq_refl),
      outcome_bind_Returns.
    cbv beta iota.
    rewrite (create_not_ready dm env Double "doubles" (MatFile_ctor false RealTime path) eq_refl),
      outcome_bind_Returns.
    cbv beta iota. done. }
  assert (Hrun : run dm env stat path = Returns false).
  { unfold run, runTest1. rewrite Hbody, returning_Returns.
    by rewrite outcome_bind_Returns. }
  split; [done|]. split; [done|]. split.
  - intros prog rest. unfold main. by rewrite Hrun, outcome_bind_Returns.
  - intros argv out r. unfold main.
    destruct argv as [|prog [|p rest]]; [done|by intros [= _ <-]|].
    destruct (run dm env stat p) as [[]|]; cbn; [by intros [= _ <-] ..|done].
Qed.

(** X15, a witness: a directory that does not exist, on a host that opens
    no file. *)
Lemma run_without_directory_witness :
  runTest1_body ILP32 unwritable (fun _ => -1) "nowhere"
  = Returns (false, MatFile_ctor false RealTime "nowhere")
  /\ run ILP32 unwritable (fun _ => -1) "nowhere" = Returns false
  /\ (forall prog rest,
        main ILP32 unwritable (fun _ => -1) (prog :: "nowhere" :: rest)
        = Returns ("failed." +:+ nl, 0))
  /\ (forall argv out r,
        main ILP32 unwritable (fun _ => -1) argv = Returns (out, r) -> r = 0).
Proof.
  apply (run_without_directory ILP32 unwritable (fun _ => -1) "nowhere").
  discriminate.
Defined.

(** ** Arrays and single elements *)

Section Batches.

Lemma write_all_fed_from dm v0 ys u xs v :
  fed dm v0 ys u -> write_all dm xs u = Returns (true, v) -> fed dm v0 (ys ++ xs) v.
Proof.
  revert ys u. induction xs as [|x xs IH]; intros ys u Hu H.
  - injection H as <-. by rewrite app_nil_r.
  - cbn [write_all] in H.
    destruct (Variable_write dm x u) as [[[] u']|] eqn:Hx; try done.
    replace (ys ++ x :: xs) with ((ys ++ [x]) ++ xs) by (by rewrite <- app_assoc).
    apply (IH _ u'); [|done]. by apply (fed_element dm v0 ys u x u').
Qed.

(** X16: handing over an array in one call leaves the same file as
    handing over its elements one by one: after a successful array [write]
    of [numel >= 1] elements and after the successful single writes of the
    same elements, started in the same state, the bytes of the file, the
    position of the stream and the count are the same. *)
Theorem array_write_as_single_writes dm env T path name v0 xs v data numel va vs :
  Variable_ctor dm env T path name = Returns v0 ->
  fed dm v0 xs v -> (1 <= numel)%nat ->
  Variable_write_array dm data numel v = Returns (1, va) ->
  write_all dm (take numel data) v = Returns (true, vs) ->
  exists fa fs, _fp va = Some fa /\ _fp vs = Some fs
    /\ f_data fa = f_data fs /\ f_pos fa = f_pos fs /\ _count va = _count vs.
Proof.
  intros Hc Hf Hn Ha Hs.
  assert (Hlen : (numel <= length data)%nat).
  { unfold Variable_write_array in Ha. destruct (_fp v); [|done].
    by destruct (Nat.ltb_spec (length data) numel). }
  assert (Hne : xs ++ take numel data <> []).
  { intros E. apply (f_equal length) in E.
    rewrite length_app, length_take in E. cbn in E. lia. }
  pose proof (fed_array dm v0 xs v data numel va Hf Ha) as Hfa.
  pose proof (write_all_fed_from dm v0 xs v (take numel data) vs Hf Hs) as Hfs.
  destruct (fed_image dm env T path name v0 _ va Hc Hfa Hne)
    as (fa & k & Hfpa & Hk & Hda & Hpa & Hca).
  destruct (fed_image dm env T path name v0 _ vs Hc Hfs Hne)
    as (fs & k' & Hfps & Hk' & Hds & Hps & Hcs).
  rewrite Hk in Hk'. injection Hk' as <-.
  exists fa, fs. split; [done|]. split; [done|].
  split; [congruence|]. split; [lia|congruence].
Qed.

(** X17: an array [write] of no element that returns 1, on an encoder
    that holds at least one element, changes neither the file nor the
    position of the stream nor the count. *)
Theorem empty_array_write dm env T path name v0 xs v data v' :
  Variable_ctor dm env T path name = Returns v0 ->
  fed dm v0 xs v -> xs <> [] ->
  Variable_write_array dm data 0 v = Returns (1, v') ->
  exists f f', _fp v = Some f /\ _fp v' = Some f'
    /\ f_data f' = f_data f /\ f_pos f' = f_pos f /\ _count v' = _count v.
Proof.
  intros Hc Hf Hxs Ha.
  pose proof (fed_array dm v0 xs v data 0 v' Hf Ha) as Hf'.
  rewrite take_0, app_nil_r in Hf'.
  destruct (fed_image dm env T path name v0 xs v Hc Hf Hxs)
    as (f & k & Hfp & Hk & Hd & Hp & Hcount).
  destruct (fed_image dm env T path name v0 xs v' Hc Hf' Hxs)
    as (f' & k' & Hfp' & Hk' & Hd' & Hp' & Hcount').
  rewrite Hk in Hk'. injection Hk' as <-.
  exists f, f'. split; [done|]. split; [done|].
  split; [congruence|]. split; [lia|congruence].
Qed.

End Batches.

(** X16, a witness: three elements handed to the encoder of ["chars"]. *)
Lemma array_write_as_single_writes_witness :
  exists va vs fa fs,
    Variable_write_array ILP32 [97; 98; 99] 3 chars_0 = Returns (1, va)
    /\ write_all ILP32 (take 3 [97; 98; 99]) chars_0 = Returns (true, vs)
    /\ _fp va = Some fa /\ _fp vs = Some fs
    /\ f_data fa = f_data fs /\ f_pos fa = f_pos fs /\ _count va = _count vs.
Proof.
  assert (Hc : Variable_ctor ILP32 willing Char "out" "chars" = Returns chars_0)
    by (vm_compute; reflexivity).
  assert (Ha : { va | Variable_write_array ILP32 [97; 98; 99] 3 chars_0 = Returns (1, va) }).
  { eexists. vm_compute. reflexivity. }
  assert (Hs : { vs | write_all ILP32 (take 3 [97; 98; 99]) chars_0 = Returns (true, vs) }).
  { eexists. vm_compute. reflexivity. }
  destruct Ha as [va Ha]. destruct Hs as [vs Hs].
  destruct (array_write_as_single_writes ILP32 willing Char "out" "chars" chars_0 []
              chars_0 [97; 98; 99] 3 va vs Hc (fed_0 ILP32 chars_0) ltac:(lia) Ha Hs)
    as (fa & fs & H).
  exists va, vs, fa, fs. split; [exact Ha|]. split; [exact Hs|]. exact H.
Defined.

(** X17, a witness: an empty array handed to the encoder of ["ints"] after
    its four elements. *)
Lemma empty_array_write_witness :
  exists v' f f',
    Variable_write_array ILP32 [] 0 ints_4 = Returns (1, v')
    /\ _fp ints_4 = Some f /\ _fp v' = Some f'
    /\ f_data f' = f_data f /\ f_pos f' = f_pos f /\ _count v' = _count ints_4.
Proof.
  assert (Hc : Variable_ctor ILP32 willing Int "out" "ints" = Returns ints_0)
    by (vm_compute; reflexivity).
  assert (Hw : fed ILP32 ints_0 [-1; 0; 1; 2] ints_4)
    by (apply write_all_fed; vm_compute; reflexivity).
  assert (Ha : { v' | Variable_write_array ILP32 [] 0 ints_4 = Returns (1, v') }).
  { eexists. vm_compute. reflexivity. }
  destruct Ha as [v' Ha].
  destruct (empty_array_write ILP32 willing Int "out" "ints" ints_0 [-1; 0; 1; 2] ints_4
              [] v' Hc Hw ltac:(discriminate) Ha) as (f & f' & H).
  exists v', f, f'. split; [exact Ha|]. exact H.
Defined.

(** X18, a witness: the file of ["ints"] opens. *)
Lemma Variable_ctor_outcomes_witness :
  exists v, Variable_ctor ILP32 willing Int "out" "ints" = Returns v
    /\ (streaming ILP32 v 0
        \/ (_fp v = None /\ forall x, Variable_write ILP32 x v = Returns (false, v))).
Proof.
  apply (Variable_ctor_outcomes ILP32 willing Int "out" "ints" (mkFILE [] 0 [])).
  reflexivity.
Defined.

(** X19, a witness: the counters of ["ints"] patched once more after its
    four elements. *)
Lemma update_counters_frame_ILP32_witness :
  exists f v' f', _fp ints_4 = Some f
    /\ update_counters ILP32 ints_4 = Returns (true, v')
    /\ v' = with_fp (Some f') ints_4
    /\ forall i : nat,
         (i < f_pos f)%nat ->
         ~ (0x84 <= Z.of_nat i < 0x84 + 4) ->
         ~ (0xA4 <= Z.of_nat i < 0xA4 + 4) ->
         ~ (_re_tag_offset ints_4 <= Z.of_nat i < _re_tag_offset ints_4 + 4) ->
         f_data f' !! i = f_data f !! i.
Proof.
  assert (Hc : Variable_ctor ILP32 willing Int "out" "ints" = Returns ints_0)
    by (vm_compute; reflexivity).
  assert (Hw : wrote ILP32 ints_0 4 ints_4)
    by (apply (write_all_wrote ILP32 [-1; 0; 1; 2]); vm_compute; reflexivity).
  assert (Hs : streaming ILP32 ints_4 (Z.of_nat 4)).
  { destruct (Variable_ctor_ready ILP32 willing Int "out" "ints" ints_0 Hc) as (Hs0 & _);
      [by eexists|].
    by destruct (wrote_streaming ILP32 ints_0 4 ints_4 Hs0 Hw). }
  assert (Hu : { v' | update_counters ILP32 ints_4 = Returns (true, v') }).
  { eexists. vm_compute. reflexivity. }
  destruct Hu as [v' Hu].
  destruct (update_counters_frame_ILP32 ints_4 (Z.of_nat 4) _ v' Hs eq_refl Hu)
    as (f' & Hv & Hframe).
  eexists _, v', f'. split; [reflexivity|]. split; [exact Hu|]. split; [exact Hv|].
  exact Hframe.
Defined.

